(** * Multi-image data module of ifusion-threestudio

    A shallow embedding of [threestudio/data/multi_image.py]: the manifest
    loader [load_transform], the camera geometry and resolution tiers built by
    [MultiImageDataBase.setup], the ray construction [set_rays], the
    progressive-resolution hook [update_step_] and the training batch made by
    [MultiImageIterableDataset.collate].

    Numbers.  Steps, heights, widths and milestones are Python [int]s and are
    modelled by [Z].  Angles, distances and tensor entries are floating point
    in the program; they are modelled by the real numbers [R], so every
    statement about them is a statement about the exact arithmetic the
    program approximates. *)

From Equations Require Import Equations.
From Stdlib Require Import List ZArith Lia Bool Sorted.
From Stdlib Require String.
Import String.StringSyntax.
Delimit Scope string_scope with string.
From Stdlib Require Import Reals Lra.
Import ListNotations.

Set Implicit Arguments.

(** ** Python exceptions and fallible computations *)

Inductive PyError : Type :=
| AssertionError
| IndexError
| KeyError
| TypeError
| ValueError
| ZeroDivisionError
| RuntimeError.

Inductive Result (A : Type) : Type :=
| Ok : A -> Result A
| Err : PyError -> Result A.

Arguments Ok {A} _.
Arguments Err {A} _.

Definition bind {A B : Type} (m : Result A) (k : A -> Result B) : Result B :=
  match m with
  | Ok a => k a
  | Err e => Err e
  end.

Notation "x <- m ;; k" := (bind m (fun x => k))
  (at level 61, m at next level, right associativity).
Notation "' p <- m ;; k" := (bind m (fun x => match x with p => k end))
  (at level 61, p pattern, m at next level, right associativity).

Definition py_assert (b : bool) : Result unit :=
  if b then Ok tt else Err AssertionError.

Definition raises {A : Type} (m : Result A) : Prop :=
  exists e, m = Err e.

(** ** Python list indexing

    [a[i]] counts a negative [i] from the end of the list and raises
    [IndexError] outside [-len(a) .. len(a) - 1]. *)

Module PyList.

(** The position [a[i]] denotes in a list of [n] elements. *)
Definition position (n : nat) (i : Z) : Result nat :=
  let j := (if i <? 0 then i + Z.of_nat n else i)%Z in
  if (j <? 0)%Z then Err IndexError
  else if (j <? Z.of_nat n)%Z then Ok (Z.to_nat j)
  else Err IndexError.

Definition getitem {A : Type} (a : list A) (i : Z) : Result A :=
  p <- position (length a) i ;;
  match nth_error a p with
  | Some v => Ok v
  | None => Err IndexError
  end.

End PyList.

(** ** [bisect.bisect_right]

    The loop of the standard library:
<<
    lo, hi = 0, len(a)
    while lo < hi:
        mid = (lo + hi) // 2
        if x < a[mid]: hi = mid
        else: lo = mid + 1
    return lo
>>
*)

Module Bisect.

Equations? bisect_loop (a : list Z) (x : Z) (lo hi : nat) : nat
  by wf (hi - lo) lt :=
  bisect_loop a x lo hi with lt_dec lo hi => {
    | right _ => lo
    | left _ with (x <? nth ((lo + hi) / 2) a 0)%Z => {
        | true => bisect_loop a x lo ((lo + hi) / 2)
        | false => bisect_loop a x (S ((lo + hi) / 2)) hi } }.
Proof.
  all: pose proof (Nat.div_mod_eq (lo + hi) 2) as Hd;
    pose proof (Nat.mod_upper_bound (lo + hi) 2 ltac:(lia)) as Hr;
    change (fst (Nat.divmod (lo + hi) 1 0 1)) with ((lo + hi) / 2) in *;
    lia.
Qed.

Definition bisect_right (a : list Z) (x : Z) : nat :=
  bisect_loop a x 0 (length a).

End Bisect.

(** ** Strings: the two [str] methods the module uses *)

Module PyStr.
Import String.
Local Open Scope string_scope.

(** [s.startswith(p)] *)
Definition startswith (p s : string) : bool := prefix p s.

Definition drop (n : nat) (s : string) : string :=
  substring n (length s - n) s.

(** [s.replace(old, new)] for a non-empty [old]: every occurrence, left to
    right, without overlap. *)
Fixpoint replace_fuel (fuel : nat) (old new s : string) : string :=
  match fuel with
  | O => s
  | S fuel' =>
      match s with
      | EmptyString => EmptyString
      | String c rest =>
          if prefix old s
          then new ++ replace_fuel fuel' old new (drop (length old) s)
          else String c (replace_fuel fuel' old new rest)
      end
  end.

Definition replace (old new s : string) : string :=
  replace_fuel (length s) old new s.

End PyStr.

(** ** Vectors and the torch operations on them *)

Local Open Scope R_scope.

Record Vec3 : Type := mkVec3 { vx : R; vy : R; vz : R }.

Module Vec.

Definition to_list (v : Vec3) : list R := [vx v; vy v; vz v].
Definition zero : Vec3 := mkVec3 0 0 0.
Definition neg (v : Vec3) : Vec3 := mkVec3 (- vx v) (- vy v) (- vz v).
Definition sub (a b : Vec3) : Vec3 :=
  mkVec3 (vx a - vx b) (vy a - vy b) (vz a - vz b).
Definition dot (a b : Vec3) : R := vx a * vx b + vy a * vy b + vz a * vz b.
Definition norm (v : Vec3) : R := sqrt (dot v v).

(** The cross product of two 3-vectors. *)
Definition cross (a b : Vec3) : Vec3 :=
  mkVec3 (vy a * vz b - vz a * vy b)
         (vz a * vx b - vx a * vz b)
         (vx a * vy b - vy a * vx b).

(** [F.normalize(v, dim=-1)] with its defaults [p=2], [eps=1e-12]:
    [v / max(||v||, eps)]. *)
Definition eps : R := / 10 ^ 12.
Definition normalize (v : Vec3) : Vec3 :=
  let n := Rmax (norm v) eps in
  mkVec3 (vx v / n) (vy v / n) (vz v / n).

Definition orthonormal (a b c : Vec3) : Prop :=
  dot a a = 1 /\ dot b b = 1 /\ dot c c = 1 /\
  dot a b = 0 /\ dot a c = 0 /\ dot b c = 0.

End Vec.

(** A [(B, 3)] tensor is the list of its [B] rows. *)
Definition Rows := list Vec3.

Module Torch.

(** Shapes of two operands broadcast along one dimension when they agree
    or one of them is 1. *)
Definition broadcast2 {A B C : Type} (f : A -> B -> C)
    (a : list A) (b : list B) : Result (list C) :=
  if Nat.eqb (length a) (length b) then Ok (map (fun p => f (fst p) (snd p)) (combine a b))
  else match a, b with
       | [x], _ => Ok (map (f x) b)
       | _, [y] => Ok (map (fun x => f x y) a)
       | _, _ => Err RuntimeError
       end.

(** Columns of a [(3, 3)] tensor given by its rows. *)
Definition columns3 (m : Rows) : Rows :=
  match m with
  | [r0; r1; r2] =>
      [mkVec3 (vx r0) (vx r1) (vx r2);
       mkVec3 (vy r0) (vy r1) (vy r2);
       mkVec3 (vz r0) (vz r1) (vz r2)]
  | _ => m
  end.

(** [torch.cross(a, b)] called without [dim] on two 2-dimensional tensors
    of shapes [(Ba, 3)] and [(Bb, 3)].  Without [dim] the product is taken
    along the first dimension of [a] whose size is 3: dimension 0 when
    [Ba = 3], where both operands must have size 3 and the vectors are the
    columns, and the last dimension otherwise, where the batch dimension
    broadcasts. *)
Definition cross (a b : Rows) : Result Rows :=
  if Nat.eqb (length a) 3 then
    if Nat.eqb (length b) 3
    then Ok (columns3 (map (fun p => Vec.cross (fst p) (snd p))
                           (combine (columns3 a) (columns3 b))))
    else Err RuntimeError
  else broadcast2 Vec.cross a b.

(** [F.normalize(t, dim=-1)] on a [(B, 3)] tensor. *)
Definition normalize (a : Rows) : Rows := map Vec.normalize a.

(** Elementwise product of two [(1, B)] tensors. *)
Definition mul (a b : list R) : Result (list R) := broadcast2 Rmult a b.

(** [torch.cat([x, y, z]).T] for three [(1, B)] tensors: the [(B, 3)]
    tensor whose row [i] is [(x[i], y[i], z[i])]; the three must have the
    same length to be concatenated. *)
Fixpoint cat3_T (x y z : list R) : Result Rows :=
  match x, y, z with
  | [], [], [] => Ok []
  | a :: x', b :: y', c :: z' =>
      rest <- cat3_T x' y' z' ;; Ok (mkVec3 a b c :: rest)
  | _, _, _ => Err RuntimeError
  end.

(** [torch.deg2rad] and the module's own [deg * math.pi / 180]. *)
Definition deg2rad (d : R) : R := d * PI / 180.

End Torch.

(** ** Tensors kept as data: a shape and the entries in row-major order *)

Record Tensor : Type := mkTensor { shape : list nat; data : list R }.

Module Tensor.

Definition numel (t : Tensor) : nat := fold_right Nat.mul 1%nat (shape t).

Definition of_row (l : list R) : Tensor := mkTensor [1%nat; length l] l.
Definition of_rows (l : Rows) : Tensor :=
  mkTensor [length l; 3%nat] (flat_map Vec.to_list l).

(** [t.squeeze(0)] drops the first dimension when its size is 1. *)
Definition squeeze0 (t : Tensor) : Tensor :=
  match shape t with
  | 1%nat :: rest => mkTensor rest (data t)
  | _ => t
  end.

(** [t[idx]] for a one-element index tensor [idx = [i]]: the [i]-th slice
    along the first dimension, kept as a batch of one. *)
Definition select (t : Tensor) (i : nat) : Result Tensor :=
  match shape t with
  | [] => Err IndexError
  | b :: rest =>
      if Nat.ltb i b then
        let k := fold_right Nat.mul 1%nat rest in
        Ok (mkTensor (1%nat :: rest) (firstn k (skipn (i * k) (data t))))
      else Err IndexError
  end.

(** [len(t)] *)
Definition len (t : Tensor) : Result nat :=
  match shape t with
  | [] => Err TypeError
  | b :: _ => Ok b
  end.

(** [np.stack(arrays, axis=0)]: needs at least one array. *)
Definition stack (l : list Tensor) : Result Tensor :=
  match l with
  | [] => Err ValueError
  | t :: _ => Ok (mkTensor (length l :: shape t) (flat_map data l))
  end.

(** [bool(t)]: only a tensor of exactly one element has a truth value. *)
Definition truth (t : Tensor) : Result bool :=
  match numel t, data t with
  | 1%nat, v :: _ => Ok (if Req_dec_T v 0 then false else true)
  | _, _ => Err RuntimeError
  end.

End Tensor.

(** [not x] for an [Optional[Tensor]] field. *)
Definition py_not (x : option Tensor) : Result bool :=
  match x with
  | None => Ok true
  | Some t => b <- Tensor.truth t ;; Ok (negb b)
  end.

(** [x[idx]] for an [Optional[Tensor]] field: [None] is not subscriptable. *)
Definition py_subscript (x : option Tensor) (i : nat) : Result Tensor :=
  match x with
  | None => Err TypeError
  | Some t => Tensor.select t i
  end.

(** A direction grid: the [(H, W, 3)] tensor of per-pixel directions. *)
Definition Grid := list (list Vec3).

(** A camera-to-world matrix: the 3 rows of a [(3, 4)] tensor. *)
Definition Mat34 := list (list R).

Definition column (j : nat) (m : Mat34) : list R :=
  map (fun row => nth j row 0) m.

(** ** Configuration *)

(** [height] and [width] are typed [Any]: an [int] or a list of [int]s. *)
Inductive IntOrList : Type :=
| AnInt (n : Z)
| AList (l : list Z).

Record Config : Type := mkConfig {
  transform_fp : String.string;
  image_paths : list String.string;
  cfg_height : IntOrList;
  cfg_width : IntOrList;
  cfg_resolution_milestones : list Z;
  default_elevation_degs : list R;
  default_azimuth_degs : list R;
  default_camera_distances : list R;
  default_elevation_deg : R;
  default_camera_distance : R;
  default_fovy_deg : R;
  use_random_camera : bool;
  rays_noise_scale : R;
  batch_size : Z;
  requires_depth : bool;
  requires_normal : bool
}.

(** The four fields [load_transform] assigns. *)
Definition set_frames (c : Config) (paths : list String.string)
    (elevs azims dists : list R) : Config :=
  mkConfig (transform_fp c) paths (cfg_height c) (cfg_width c)
    (cfg_resolution_milestones c) elevs azims dists
    (default_elevation_deg c) (default_camera_distance c) (default_fovy_deg c)
    (use_random_camera c) (rays_noise_scale c) (batch_size c)
    (requires_depth c) (requires_normal c).

(** ** The manifest and the outside world *)

(** A frame of the manifest: a JSON object whose [file_path], when
    present, is a string and whose [latlon], when present, is a list of
    numbers; an absent key is [None].  A manifest that holds a value of
    another JSON type under one of these keys is outside this type. *)
Record Frame : Type := mkFrame {
  file_path : option String.string;
  latlon : option (list R)
}.

Record Meta : Type := mkMeta { frames : option (list Frame) }.

Definition getkey {A : Type} (v : option A) : Result A :=
  match v with Some a => Ok a | None => Err KeyError end.

(** What the module takes from outside: the file system, [os.path], the
    image decoder with its resize to [(width, height)], and the functions
    of [threestudio.utils.ops].  The three reads give the content of a file
    that the decoder accepts at a size it accepts.  [get_rays] gives the
    outcome of the call made in this world, with the jitter it draws; a
    later call is a call in another world. *)
Record World : Type := mkWorld {
  module_dir : String.string;
  path_join : String.string -> String.string -> String.string;
  path_dirname : String.string -> String.string;
  json_load : String.string -> Result Meta;
  path_exists : String.string -> bool;
  read_rgb : String.string -> Z -> Z -> Tensor;
  read_mask : String.string -> Z -> Z -> Tensor;
  read_plain : String.string -> Z -> Z -> Tensor;
  get_ray_directions : Z -> Z -> Grid;
  get_rays : Grid -> list Mat34 -> R -> Tensor * Tensor;
  get_projection_matrix : R -> R -> R -> R -> Tensor;
  get_mvp_matrix : list Mat34 -> Tensor -> Tensor
}.

(** ** [load_transform] *)

Module Loader.

(** [min(l)] *)
Definition py_min (l : list R) : Result R :=
  match l with
  | [] => Err ValueError
  | x :: rest => Ok (fold_left Rmin rest x)
  end.

(** [a / b] on Python floats. *)
Definition py_div (a b : R) : Result R :=
  if Req_dec_T b 0 then Err ZeroDivisionError else Ok (a / b).

(** One turn of the loop over [meta["frames"]]. *)
Definition read_frame (w : World) (image_dir : String.string)
    (c : Config) (frame : Frame) : Result Config :=
  fp <- getkey (file_path frame) ;;
  let fname := path_join w image_dir fp in
  ll <- getkey (latlon frame) ;;
  polar <- PyList.getitem ll 0 ;;
  az <- PyList.getitem ll 1 ;;
  dist <- PyList.getitem ll 2 ;;
  Ok (set_frames c
        (image_paths c ++ [fname])
        (default_elevation_degs c ++ [- polar + default_elevation_deg c])
        (default_azimuth_degs c ++ [az])
        (default_camera_distances c ++ [dist])).

Fixpoint read_frames (w : World) (image_dir : String.string)
    (c : Config) (fs : list Frame) : Result Config :=
  match fs with
  | [] => Ok c
  | frame :: rest =>
      c' <- read_frame w image_dir c frame ;;
      read_frames w image_dir c' rest
  end.

(** The rescaling that follows the loop. *)
Definition rescale (c : Config) : Result Config :=
  m <- py_min (default_camera_distances c) ;;
  scale_factor <- py_div (default_camera_distance c) m ;;
  Ok (set_frames c (image_paths c) (default_elevation_degs c)
        (default_azimuth_degs c)
        (map (fun d => d * scale_factor) (default_camera_distances c))).

(** Lines 150-156: a relative path is taken from two levels above the
    module. *)
Definition resolve (w : World) (transform_fp : String.string)
    : String.string :=
  if PyStr.startswith "/"%string transform_fp then transform_fp
  else path_join w (path_join w (module_dir w) "../.."%string) transform_fp.

Definition load_transform (w : World) (c : Config) : Result Config :=
  let fp := resolve w (transform_fp c) in
  let image_dir := path_dirname w fp in
  meta <- json_load w fp ;;
  fs <- getkey (frames meta) ;;
  c' <- read_frames w image_dir (set_frames c [] [] [] []) fs ;;
  rescale c'.

End Loader.

(** ** The dataset object *)

(** Pose data, fixed once [setup] has run. *)
Record Poses : Type := mkPoses {
  c2w : list Mat34;
  camera_positions : Tensor;
  light_position : Tensor;
  elevation_degs : Tensor;
  azimuth_degs : Tensor;
  camera_distances : Tensor;
  fovy : R
}.

(** The parallel per-tier lists. *)
Record Tiers : Type := mkTiers {
  heights : list Z;
  widths : list Z;
  resolution_milestones : list Z;
  focal_lengths : list R
}.

Record RayData : Type := mkRayData {
  rays_o : Tensor;
  rays_d : Tensor;
  mvp_mtx : Tensor
}.

Record Images : Type := mkImages {
  rgb : Tensor;
  mask : Tensor;
  depth : option Tensor;
  normal : option Tensor
}.

(** What the object does that is visible from outside: log lines and the
    two expensive recomputations. *)
Inductive Event : Type :=
| WarnIgnoringMilestones
| DebugTraining (h w : Z)
| GetRays (directions : Grid)
| LoadImages (w h : Z).

(** [directions_unit_focals] owns one tensor object per tier.
    [directions_unit_focal] is a second name for one of these objects; it is
    kept as the position of that object in the list, so that a write through
    either name is a write to the same object. *)
Record State : Type := mkState {
  cfg : Config;
  split : String.string;
  poses : Poses;
  tiers : Tiers;
  directions_unit_focals : list Grid;
  height : Z;
  width : Z;
  prev_height : Z;
  directions_unit_focal : nat;
  focal_length : R;
  rays : RayData;
  images : Images;
  log : list Event
}.

Definition with_height (s : State) (h : Z) : State :=
  mkState (cfg s) (split s) (poses s) (tiers s) (directions_unit_focals s)
    h (width s) (prev_height s) (directions_unit_focal s) (focal_length s)
    (rays s) (images s) (log s).

Definition with_tier (s : State) (prev w : Z) (alias : nat) (fl : R) : State :=
  mkState (cfg s) (split s) (poses s) (tiers s) (directions_unit_focals s)
    (height s) w prev alias fl (rays s) (images s) (log s).

Definition with_rays (s : State) (cache : list Grid) (r : RayData) : State :=
  mkState (cfg s) (split s) (poses s) (tiers s) cache
    (height s) (width s) (prev_height s) (directions_unit_focal s)
    (focal_length s) r (images s) (log s).

Definition with_images (s : State) (i : Images) : State :=
  mkState (cfg s) (split s) (poses s) (tiers s) (directions_unit_focals s)
    (height s) (width s) (prev_height s) (directions_unit_focal s)
    (focal_length s) (rays s) i (log s).

Definition with_prev_height (s : State) (prev : Z) : State :=
  with_tier s prev (width s) (directions_unit_focal s) (focal_length s).

Definition emit (s : State) (e : Event) : State :=
  mkState (cfg s) (split s) (poses s) (tiers s) (directions_unit_focals s)
    (height s) (width s) (prev_height s) (directions_unit_focal s)
    (focal_length s) (rays s) (images s) (log s ++ [e]).

(** ** Camera geometry of [setup] *)

Module Geometry.

(** Lines 83-91: the [(B, 3)] tensor of camera positions. *)
Definition camera_positions_of (elevation_degs azimuth_degs dists : list R)
    : Result Rows :=
  let elevations := map (fun e => e * PI / 180) elevation_degs in
  let azimuths := map (fun a => a * PI / 180) azimuth_degs in
  dce <- Torch.mul dists (map cos elevations) ;;
  x <- Torch.mul dce (map cos azimuths) ;;
  dce' <- Torch.mul dists (map cos elevations) ;;
  y <- Torch.mul dce' (map sin azimuths) ;;
  z <- Torch.mul dists (map sin elevations) ;;
  Torch.cat3_T x y z.

(** The world up vector, a [(1, 3)] tensor. *)
Definition world_up : Rows := [mkVec3 0 0 1].

(** Row [i] of [torch.stack([right, up, -lookat], dim=-1)] followed by
    [camera_positions[:, :, None]]: entry [k] of each vector lands in row
    [k], one vector per column. *)
Definition mat34 (right up back pos : Vec3) : Mat34 :=
  [ [vx right; vx up; vx back; vx pos];
    [vy right; vy up; vy back; vy pos];
    [vz right; vz up; vz back; vz pos] ].

Fixpoint stack_cat (right up back pos : Rows) : Result (list Mat34) :=
  match right, up, back, pos with
  | [], [], [], [] => Ok []
  | r :: rs, u :: us, b :: bs, p :: ps =>
      rest <- stack_cat rs us bs ps ;; Ok (mat34 r u b p :: rest)
  | _, _, _, _ => Err RuntimeError
  end.

Record Basis : Type := mkBasis {
  b_lookat : Rows;
  b_right : Rows;
  b_up : Rows
}.

(** Lines 93-99: forward, right and re-orthogonalised up of each camera. *)
Definition look_at (positions : Rows) : Result Basis :=
  first <- PyList.getitem positions 0 ;;
  let center : Rows := [Vec.zero] in
  diff <- Torch.broadcast2 Vec.sub center positions ;;
  let lookat := Torch.normalize diff in
  c1 <- Torch.cross lookat world_up ;;
  let right := Torch.normalize c1 in
  c2 <- Torch.cross right lookat ;;
  let up := Torch.normalize c2 in
  Ok (mkBasis lookat right up).

(** Lines 101-104. *)
Definition c2w_of (positions : Rows) : Result (list Mat34) :=
  b <- look_at positions ;;
  stack_cat (b_right b) (b_up b) (map Vec.neg (b_lookat b)) positions.

(** Lines 79-112. *)
Definition poses_of (c : Config) : Result Poses :=
  positions <- camera_positions_of (default_elevation_degs c)
                 (default_azimuth_degs c) (default_camera_distances c) ;;
  first <- PyList.getitem positions 0 ;;
  m <- c2w_of positions ;;
  Ok (mkPoses m
        (Tensor.squeeze0 (Tensor.of_rows positions))
        (Tensor.of_rows [first])
        (Tensor.squeeze0 (Tensor.of_row (default_elevation_degs c)))
        (Tensor.squeeze0 (Tensor.of_row (default_azimuth_degs c)))
        (Tensor.squeeze0 (Tensor.of_row (default_camera_distances c)))
        (Torch.deg2rad (default_fovy_deg c))).

End Geometry.

(** ** Resolution tiers of [setup] *)

Module Resolution.

(** [[x] if isinstance(x, int) else x] *)
Definition as_list (x : IntOrList) : list Z :=
  match x with
  | AnInt n => [n]
  | AList l => l
  end.

(** Lines 114-130.  The result is the heights, the widths, the milestone
    list of the object and the warnings logged on the way. *)
Definition tiers_of (c : Config)
    : Result (list Z * list Z * list Z * list Event) :=
  let hs := as_list (cfg_height c) in
  let ws := as_list (cfg_width c) in
  _ <- py_assert (Nat.eqb (length hs) (length ws)) ;;
  if Nat.eqb (length hs) 1 && Nat.eqb (length ws) 1 then
    let warned :=
      if Nat.ltb 0 (length (cfg_resolution_milestones c))
      then [WarnIgnoringMilestones] else [] in
    Ok (hs, ws, [(-1)%Z], warned)
  else
    _ <- py_assert (Nat.eqb (length hs)
                      (length (cfg_resolution_milestones c) + 1)) ;;
    Ok (hs, ws, (-1)%Z :: cfg_resolution_milestones c, []).

(** Lines 136-138: [0.5 * height / tan(0.5 * fovy)]. *)
Definition focal_of (fovy : R) (h : Z) : R :=
  5 / 10 * IZR h / tan (5 / 10 * fovy).

(** Line 278: the tier index of a global step. *)
Definition size_ind (milestones : list Z) (global_step : Z) : Z :=
  (Z.of_nat (Bisect.bisect_right milestones global_step) - 1)%Z.

End Resolution.

(** ** [set_rays], [load_images], [setup], [update_step_] *)

Module Dataset.

(** [directions[:, :, :, :2] / focal_length] written back into the first
    two components of every pixel. *)
Definition rescale_pixel (f : R) (v : Vec3) : Vec3 :=
  mkVec3 (vx v / f) (vy v / f) (vz v).

Definition rescale_grid (f : R) (g : Grid) : Grid :=
  map (map (rescale_pixel f)) g.

(** Assignment to the object at position [i]. *)
Fixpoint store {A : Type} (i : nat) (v : A) (l : list A) : list A :=
  match l, i with
  | [], _ => []
  | _ :: rest, O => v :: rest
  | x :: rest, S i' => x :: store i' v rest
  end.

(** [self.width / self.height] on Python [int]s. *)
Definition int_div (a b : Z) : Result R :=
  if (b =? 0)%Z then Err ZeroDivisionError else Ok (IZR a / IZR b).

(** Lines 189-204.  [self.directions_unit_focal[None]] is a view of the
    cached tensor, so the sliced assignment of line 192 writes into the
    cached tensor itself. *)
Definition set_rays (w : World) (s : State) : Result State :=
  let cached := nth (directions_unit_focal s) (directions_unit_focals s) [] in
  let directions := rescale_grid (focal_length s) cached in
  let cache' := store (directions_unit_focal s) directions
                  (directions_unit_focals s) in
  let '(ro, rd) := get_rays w directions (c2w (poses s))
                     (rays_noise_scale (cfg s)) in
  aspect <- int_div (width s) (height s) ;;
  let proj := get_projection_matrix w (fovy (poses s)) aspect (1 / 10) 100 in
  let mvp := get_mvp_matrix w (c2w (poses s)) proj in
  Ok (emit (with_rays s cache' (mkRayData ro rd mvp)) (GetRays directions)).

(** The lists and the two fields the loop of [load_images] works on. *)
Record Loaded : Type := mkLoaded {
  rgbs : list Tensor;
  masks : list Tensor;
  normals : list Tensor;
  depths : list Tensor;
  l_depth : option Tensor;
  l_normal : option Tensor
}.

(** Lines 209-257: one image path. *)
Definition load_one (w : World) (c : Config) (width height : Z)
    (acc : Loaded) (path : String.string) : Result Loaded :=
  _ <- py_assert (path_exists w path) ;;
  let rgbs' := rgbs acc ++ [read_rgb w path width height] in
  let masks' := masks acc ++ [read_mask w path width height] in
  '(depths', depth') <-
    (if requires_depth c then
       let depth_path := PyStr.replace "_rgba.png" "_depth.png" path in
       _ <- py_assert (path_exists w depth_path) ;;
       Ok (depths acc ++ [read_plain w depth_path width height], l_depth acc)
     else Ok (depths acc, None)) ;;
  '(normals', normal') <-
    (if requires_normal c then
       let normal_path := PyStr.replace "_rgba.png" "_normal.png" path in
       _ <- py_assert (path_exists w normal_path) ;;
       Ok (normals acc ++ [read_plain w normal_path width height], l_normal acc)
     else Ok (normals acc, None)) ;;
  Ok (mkLoaded rgbs' masks' normals' depths' depth' normal').

Fixpoint load_loop (w : World) (c : Config) (width height : Z)
    (acc : Loaded) (paths : list String.string) : Result Loaded :=
  match paths with
  | [] => Ok acc
  | path :: rest =>
      acc' <- load_one w c width height acc path ;;
      load_loop w c width height acc' rest
  end.

(** Lines 206-272. *)
Definition load_images (w : World) (s : State) : Result State :=
  let c := cfg s in
  acc <- load_loop w c (width s) (height s)
           (mkLoaded [] [] [] [] (depth (images s)) (normal (images s)))
           (image_paths c) ;;
  rgb' <- Tensor.stack (rgbs acc) ;;
  mask' <- Tensor.stack (masks acc) ;;
  depth' <- (if requires_depth c
             then d <- Tensor.stack (depths acc) ;; Ok (Some d)
             else Ok (l_depth acc)) ;;
  normal' <- (if requires_normal c
              then n <- Tensor.stack (normals acc) ;; Ok (Some n)
              else Ok (l_normal acc)) ;;
  Ok (emit (with_images s (mkImages rgb' mask' depth' normal'))
           (LoadImages (width s) (height s))).

Definition empty_tensor : Tensor := mkTensor [] [].

(** Lines 60-146.  The random pose generator built in lines 66-77 belongs
    to another module and touches none of the fields kept here. *)
Definition setup (w : World) (c0 : Config) (split : String.string)
    : Result State :=
  c <- Loader.load_transform w c0 ;;
  p <- Geometry.poses_of c ;;
  '(hs, ws, ms, warned) <- Resolution.tiers_of c ;;
  let caches :=
    map (fun hw => get_ray_directions w (fst hw) (snd hw)) (combine hs ws) in
  let fls := map (Resolution.focal_of (fovy p)) hs in
  h0 <- PyList.getitem hs 0 ;;
  w0 <- PyList.getitem ws 0 ;;
  _ <- PyList.getitem caches 0 ;;
  fl0 <- PyList.getitem fls 0 ;;
  let s0 := mkState c split p (mkTiers hs ws ms fls) caches
              h0 w0 h0 0%nat fl0
              (mkRayData empty_tensor empty_tensor empty_tensor)
              (mkImages empty_tensor empty_tensor None None)
              warned in
  s1 <- set_rays w s0 ;;
  s2 <- load_images w s1 ;;
  Ok (with_prev_height s2 (height s2)).

(** Lines 279-289: what the hook does with the tier index. *)
Definition select_tier (w : World) (s : State) (size_ind : Z)
    : Result State :=
  h <- PyList.getitem (heights (tiers s)) size_ind ;;
  let s1 := with_height s h in
  if (h =? prev_height s1)%Z then Ok s1
  else
    wd <- PyList.getitem (widths (tiers s1)) size_ind ;;
    alias <- PyList.position (length (directions_unit_focals s1)) size_ind ;;
    fl <- PyList.getitem (focal_lengths (tiers s1)) size_ind ;;
    let s2 := with_tier s1 h wd alias fl in
    let s3 := emit s2 (DebugTraining (height s2) (width s2)) in
    s4 <- set_rays w s3 ;;
    load_images w s4.

(** Lines 277-289. *)
Definition update_step_ (w : World) (s : State)
    (epoch global_step : Z) (on_load_weights : bool) : Result State :=
  select_tier w s
    (Resolution.size_ind (resolution_milestones (tiers s)) global_step).

End Dataset.

(** ** [MultiImageIterableDataset.collate] *)

(** The batch of the random pose generator, made by another module. *)
Inductive RandomCameraBatch : Type := RandomCameraCollate.

Record Batch : Type := mkBatch {
  batch_rays_o : Tensor;
  batch_rays_d : Tensor;
  batch_mvp_mtx : Tensor;
  batch_camera_positions : Tensor;
  batch_light_positions : Tensor;
  batch_elevation : Tensor;
  batch_azimuth : Tensor;
  batch_camera_distances : Tensor;
  batch_rgb : Tensor;
  ref_depth : option Tensor;
  ref_normal : option Tensor;
  batch_mask : Tensor;
  batch_height : IntOrList;
  batch_width : IntOrList;
  random_camera : option RandomCameraBatch
}.

Module Collate.

(** [None if not self.depth else field[idx]] *)
Definition gated (gate field : option Tensor) (idx : nat)
    : Result (option Tensor) :=
  absent <- py_not gate ;;
  if absent then Ok None
  else t <- py_subscript field idx ;; Ok (Some t).

(** Lines 298-319.  [idx] is the draw of
    [torch.randint(0, len(self.rgb), (1,))]. *)
Definition collate (s : State) (idx : nat) : Result Batch :=
  n <- Tensor.len (rgb (images s)) ;;
  _ <- (if Nat.ltb idx n then Ok tt else Err RuntimeError) ;;
  ro <- Tensor.select (rays_o (rays s)) idx ;;
  rd <- Tensor.select (rays_d (rays s)) idx ;;
  mvp <- Tensor.select (mvp_mtx (rays s)) idx ;;
  cp <- Tensor.select (camera_positions (poses s)) idx ;;
  el <- Tensor.select (elevation_degs (poses s)) idx ;;
  az <- Tensor.select (azimuth_degs (poses s)) idx ;;
  cd <- Tensor.select (camera_distances (poses s)) idx ;;
  im <- Tensor.select (rgb (images s)) idx ;;
  rdepth <- gated (depth (images s)) (depth (images s)) idx ;;
  rnormal <- gated (depth (images s)) (normal (images s)) idx ;;
  mk <- Tensor.select (mask (images s)) idx ;;
  Ok (mkBatch ro rd mvp cp (light_position (poses s)) el az cd im
        rdepth rnormal mk (cfg_height (cfg s)) (cfg_width (cfg s))
        (if use_random_camera (cfg s) then Some RandomCameraCollate else None)).

End Collate.

(** ** [MultiImageDataModule.setup] *)

(** Every dataset keeps the configuration object of the module as its
    [cfg], so a dataset built later, whose [load_transform] assigns the
    frame lists, assigns them for the datasets built before as well. *)
Definition with_cfg (s : State) (c : Config) : State :=
  mkState c (split s) (poses s) (tiers s) (directions_unit_focals s)
    (height s) (width s) (prev_height s) (directions_unit_focal s)
    (focal_length s) (rays s) (images s) (log s).

Record DataModule : Type := mkDataModule {
  dm_cfg : Config;
  train_dataset : option State;
  val_dataset : option State;
  test_dataset : option State
}.

Module DataModule.

(** [stage in [None, name, ...]] *)
Definition stage_in (stage : option String.string)
    (names : list String.string) : bool :=
  match stage with
  | None => true
  | Some st => existsb (String.eqb st) names
  end.

(** The module and its datasets after the shared configuration object has
    become [c]. *)
Definition rebind (dm : DataModule) (c : Config) : DataModule :=
  let share := option_map (fun s => with_cfg s c) in
  mkDataModule c (share (train_dataset dm)) (share (val_dataset dm))
    (share (test_dataset dm)).

(** [MultiImageIterableDataset(self.cfg, split)] and
    [MultiImageDataset(self.cfg, split)]: both run [setup]. *)
Definition build (w : World) (dm : DataModule) (split : String.string)
    : Result (DataModule * State) :=
  s <- Dataset.setup w (dm_cfg dm) split ;;
  Ok (rebind dm (cfg s), s).

(** Lines 350-356.  The datasets are built one after the other, and
    [w split] is the outside world that the dataset of [split] meets when it
    is built: the files as they are then, and the call of [get_rays] with
    the jitter drawn for it. *)
Definition setup (w : String.string -> World) (dm : DataModule)
    (stage : option String.string) : Result DataModule :=
  dm1 <- (if stage_in stage ["fit"%string] then
            '(dm', s) <- build (w "train"%string) dm "train"%string ;;
            Ok (mkDataModule (dm_cfg dm') (Some s) (val_dataset dm')
                  (test_dataset dm'))
          else Ok dm) ;;
  dm2 <- (if stage_in stage ["fit"%string; "validate"%string] then
            '(dm', s) <- build (w "val"%string) dm1 "val"%string ;;
            Ok (mkDataModule (dm_cfg dm') (train_dataset dm') (Some s)
                  (test_dataset dm'))
          else Ok dm1) ;;
  (if stage_in stage ["test"%string; "predict"%string] then
     '(dm', s) <- build (w "test"%string) dm2 "test"%string ;;
     Ok (mkDataModule (dm_cfg dm') (train_dataset dm') (val_dataset dm')
           (Some s))
   else Ok dm2).

End DataModule.

(** ** Reference definitions and sample inputs *)

(** The spherical-to-Cartesian mapping of the specification, on degrees. *)
Definition spherical_to_cartesian (el_deg az_deg d : R) : Vec3 :=
  let el := el_deg * PI / 180 in
  let az := az_deg * PI / 180 in
  mkVec3 (d * cos el * cos az) (d * cos el * sin az) (d * sin el).

(** The three coordinate rows of lines 87-89 as one list of triples. *)
Fixpoint coordinate_triples (elevs azs ds : list R) : list (R * R * R) :=
  match elevs, azs, ds with
  | el :: elevs', az :: azs', d :: ds' =>
      (d * cos (el * PI / 180) * cos (az * PI / 180),
       d * cos (el * PI / 180) * sin (az * PI / 180),
       d * sin (el * PI / 180)) :: coordinate_triples elevs' azs' ds'
  | _, _, _ => []
  end.

(** Lines 97-104 read for one camera whose cross products are taken along
    its own three components. *)
Definition camera_lookat (p : Vec3) : Vec3 :=
  Vec.normalize (Vec.sub Vec.zero p).
Definition camera_right (p : Vec3) : Vec3 :=
  Vec.normalize (Vec.cross (camera_lookat p) (mkVec3 0 0 1)).
Definition camera_up (p : Vec3) : Vec3 :=
  Vec.normalize (Vec.cross (camera_right p) (camera_lookat p)).
Definition camera_matrix (p : Vec3) : Mat34 :=
  Geometry.mat34 (camera_right p) (camera_up p)
    (Vec.neg (camera_lookat p)) p.

(** The manifest triple of a frame. *)
Definition frame_polar (f : Frame) : R :=
  match latlon f with Some (p :: _) => p | _ => 0 end.
Definition frame_azimuth (f : Frame) : R :=
  match latlon f with Some (_ :: a :: _) => a | _ => 0 end.
Definition frame_distance (f : Frame) : R :=
  match latlon f with Some (_ :: _ :: d :: _) => d | _ => 0 end.
Definition frame_file (f : Frame) : String.string :=
  match file_path f with Some p => p | None => ""%string end.

(** A frame with a path and at least the three pose numbers. *)
Definition frame_complete (f : Frame) : Prop :=
  exists fp polar az d rest,
    f = mkFrame (Some fp) (Some (polar :: az :: d :: rest)).

(** The least element of a non-empty list. *)
Definition least (m : R) (l : list R) : Prop :=
  In m l /\ forall d, In d l -> m <= d.

(** Three frames at distances 2, 4 and 8. *)
Definition sample_frames : list Frame :=
  [ mkFrame (Some "a_rgba.png"%string) (Some [10; 0; 2]);
    mkFrame (Some "b_rgba.png"%string) (Some [0; 120; 4]);
    mkFrame (Some "c_rgba.png"%string) (Some [-10; 240; 8]) ].

(** A world whose manifest lists the given frames, where every file exists
    and the collaborators return constants. *)
Definition blank : Tensor := mkTensor [1%nat] [0].

Definition sample_world_with (fs : list Frame) : World :=
  mkWorld "/repo/threestudio/data"%string
    (fun a b => String.append a (String.append "/" b))
    (fun _ => "/data"%string)
    (fun _ => Ok (mkMeta (Some fs))) (fun _ => true)
    (fun _ _ _ => blank) (fun _ _ _ => blank)
    (fun _ _ _ => mkTensor [1%nat; 2%nat] [1 / 2; 1 / 2])
    (fun _ _ => [[mkVec3 1 1 (-1)]])
    (fun _ _ _ => (blank, blank))
    (fun _ _ _ _ => blank) (fun _ _ => blank).

Definition sample_world : World := sample_world_with sample_frames.

(** Two frames at distances 2 and 4. *)
Definition two_frames : list Frame :=
  [ mkFrame (Some "a_rgba.png"%string) (Some [10; 0; 2]);
    mkFrame (Some "b_rgba.png"%string) (Some [0; 120; 4]) ].

Definition sample_config (h w : IntOrList) (ms : list Z)
    (need_depth need_normal : bool) : Config :=
  mkConfig "/t.json"%string ["/a_rgba.png"%string] h w ms
    [0] [0] [1] 0 1 60 false 0 1 need_depth need_normal.

Definition sample_poses : Poses :=
  mkPoses [ [[0; 0; -1; 1]; [1; 0; 0; 0]; [0; 1; 0; 0]] ]
    blank blank blank blank blank 1.

(** An object on its first tier: tiers of 64x64 and [h1] x [w1], the second
    one active from step 100 on; the cached grids hold a single pixel. *)
Definition sample_state_with (need_depth need_normal : bool)
    (h1 w1 : Z) (fl : R) : State :=
  mkState
    (sample_config (AList [64; h1]%Z) (AList [64; w1]%Z) [100%Z]
       need_depth need_normal)
    "train"%string sample_poses
    (mkTiers [64; h1]%Z [64; w1]%Z [-1; 100]%Z [fl; fl])
    [ [[mkVec3 1 1 (-1)]]; [[mkVec3 1 1 (-1)]] ]
    64 64 64 0%nat fl
    (mkRayData blank blank blank)
    (mkImages blank blank None None)
    [].

Definition sample_state : Z -> Z -> R -> State :=
  sample_state_with false false.

(** ** Further reference definitions *)

(** [old] occurs somewhere in [s]. *)
Fixpoint occurs (old s : String.string) : bool :=
  String.prefix old s ||
  match s with
  | String.EmptyString => false
  | String.String _ rest => occurs old rest
  end.

(** The per-tier lists of an object line up: one height, width, milestone,
    focal length and cached grid per tier, and at least one tier. *)
Definition parallel (s : State) : Prop :=
  heights (tiers s) <> [] /\
  length (widths (tiers s)) = length (heights (tiers s)) /\
  length (resolution_milestones (tiers s)) = length (heights (tiers s)) /\
  length (focal_lengths (tiers s)) = length (heights (tiers s)) /\
  length (directions_unit_focals s) = length (heights (tiers s)).

(** Every index below [n] selects an entry of [t]. *)
Definition selectable (t : Tensor) (n : nat) : Prop :=
  forall idx, (idx < n)%nat -> exists t', Tensor.select t idx = Ok t'.

(** The object holds one entry per frame in the image tensors and in the
    pose tensors it made itself, and at least one frame. *)
Definition batch_ready (s : State) : Prop :=
  let n := length (image_paths (cfg s)) in
  (0 < n)%nat /\
  Tensor.len (rgb (images s)) = Ok n /\
  selectable (rgb (images s)) n /\
  selectable (mask (images s)) n /\
  selectable (camera_positions (poses s)) n /\
  selectable (elevation_degs (poses s)) n /\
  selectable (azimuth_degs (poses s)) n /\
  selectable (camera_distances (poses s)) n.

(** A world as [sample_world_with fs] whose depth and normal files hold the
    single value [v]. *)
Definition one_value_world (fs : list Frame) (v : R) : World :=
  mkWorld "/repo/threestudio/data"%string
    (fun a b => String.append a (String.append "/" b))
    (fun _ => "/data"%string)
    (fun _ => Ok (mkMeta (Some fs))) (fun _ => true)
    (fun _ _ _ => blank) (fun _ _ _ => blank)
    (fun _ _ _ => mkTensor [1%nat] [v])
    (fun _ _ => [[mkVec3 1 1 (-1)]])
    (fun _ _ _ => (blank, blank))
    (fun _ _ _ _ => blank) (fun _ _ => blank).

(** Two outside worlds with the same files and the same deterministic
    operations; what [get_rays] returns, jitter included, may differ. *)
Definition same_files (w w' : World) : Prop :=
  module_dir w = module_dir w' /\
  path_join w = path_join w' /\
  path_dirname w = path_dirname w' /\
  json_load w = json_load w' /\
  path_exists w = path_exists w' /\
  read_rgb w = read_rgb w' /\
  read_mask w = read_mask w' /\
  read_plain w = read_plain w' /\
  get_ray_directions w = get_ray_directions w' /\
  get_projection_matrix w = get_projection_matrix w' /\
  get_mvp_matrix w = get_mvp_matrix w'.

(** The world [w] with another outcome of [get_rays]. *)
Definition with_get_rays (w : World)
    (drawn : Grid -> list Mat34 -> R -> Tensor * Tensor) : World :=
  mkWorld (module_dir w) (path_join w) (path_dirname w) (json_load w)
    (path_exists w) (read_rgb w) (read_mask w) (read_plain w)
    (get_ray_directions w) drawn (get_projection_matrix w)
    (get_mvp_matrix w).

(** The same object holding other ray tensors. *)
Definition with_ray_data (s : State) (r : RayData) : State :=
  with_rays s (directions_unit_focals s) r.

(** The same object under another split name. *)
Definition with_split (s : State) (sp : String.string) : State :=
  mkState (cfg s) sp (poses s) (tiers s) (directions_unit_focals s)
    (height s) (width s) (prev_height s) (directions_unit_focal s)
    (focal_length s) (rays s) (images s) (log s).

(** * Properties *)

(** ** Tier selection *)

Section BisectFacts.

Local Open Scope nat_scope.

Lemma sorted_nth (a : list Z) (i j : nat) :
  Sorted Z.le a ->
  i <= j -> j < length a -> (nth i a 0 <= nth j a 0)%Z.
Proof.
  intros a_sorted.
  assert (Hs : StronglySorted Z.le a).
  { apply Sorted_StronglySorted; [| exact a_sorted].
    intros x y z; apply Z.le_trans. }
  clear a_sorted. revert i j.
  induction Hs as [| x l Hl IH Hall]; intros i j Hij Hj; simpl in Hj.
  - lia.
  - destruct i as [| i], j as [| j]; simpl; try lia.
    + rewrite Forall_forall in Hall. apply Hall, nth_In. lia.
    + apply IH; lia.
Qed.

(** The loop keeps: everything left of [lo] is [<= x], everything from
    [hi] on is [> x]; it ends with the two bounds equal. *)
Lemma bisect_loop_spec (a : list Z) (x : Z) (lo hi : nat) :
  Sorted Z.le a ->
  lo <= hi -> hi <= length a ->
  (forall j, j < lo -> (nth j a 0 <= x)%Z) ->
  (forall j, hi <= j -> j < length a -> (x < nth j a 0)%Z) ->
  let r := Bisect.bisect_loop a x lo hi in
  lo <= r <= hi /\
  (forall j, j < r -> (nth j a 0 <= x)%Z) /\
  (forall j, r <= j -> j < length a -> (x < nth j a 0)%Z).
Proof.
  funelim (Bisect.bisect_loop a x lo hi);
    intros Hsorted Hle Hhi Hlow Hhigh; cbn zeta.
  - (* lo >= hi *)
    assert (lo = hi) by lia. subst hi.
    repeat split; try lia; assumption.
  - (* hi := mid *)
    assert (Hm : lo <= (lo + hi) / 2 < hi).
    { split; [apply Nat.div_le_lower_bound | apply Nat.Div0.div_lt_upper_bound]; lia. }
    apply Z.ltb_lt in Heq.
    assert (Hhigh' : forall j, (lo + hi) / 2 <= j -> j < length a ->
                               (x < nth j a 0)%Z).
    { intros j Hj1 Hj2.
      pose proof (@sorted_nth a ((lo + hi) / 2) j Hsorted Hj1 Hj2). lia. }
    destruct (H Hsorted ltac:(lia) ltac:(lia) Hlow Hhigh') as (Hr & Hl & Hh).
    repeat split; try lia; assumption.
  - (* lo := mid + 1 *)
    assert (Hm : lo <= (lo + hi) / 2 < hi).
    { split; [apply Nat.div_le_lower_bound | apply Nat.Div0.div_lt_upper_bound]; lia. }
    apply Z.ltb_ge in Heq.
    assert (Hlow' : forall j, j < S ((lo + hi) / 2) -> (nth j a 0 <= x)%Z).
    { intros j Hj.
      assert (Hj' : j <= (lo + hi) / 2) by lia.
      pose proof (@sorted_nth a j ((lo + hi) / 2) Hsorted Hj' ltac:(lia)). lia. }
    destruct (H Hsorted ltac:(lia) ltac:(lia) Hlow' Hhigh) as (Hr & Hl & Hh).
    repeat split; try lia; assumption.
Qed.

Lemma bisect_right_spec (a : list Z) (x : Z) :
  Sorted Z.le a ->
  let r := Bisect.bisect_right a x in
  r <= length a /\
  (forall j, j < r -> (nth j a 0 <= x)%Z) /\
  (forall j, r <= j -> j < length a -> (x < nth j a 0)%Z).
Proof.
  intros Hs. unfold Bisect.bisect_right.
  destruct (@bisect_loop_spec a x 0 (length a) Hs) as (Hr & Hl & Hh);
    try lia.
  repeat split; try lia; assumption.
Qed.

End BisectFacts.

Lemma position_in_range (n : nat) (i : Z) :
  (0 <= i < Z.of_nat n)%Z -> PyList.position n i = Ok (Z.to_nat i).
Proof.
  intros Hi. unfold PyList.position.
  destruct (Z.ltb_spec i 0); [lia |].
  destruct (Z.ltb_spec i 0); [lia |].
  destruct (Z.ltb_spec i (Z.of_nat n)); [reflexivity | lia].
Qed.

Lemma getitem_in_range {A : Type} (a : list A) (i : Z) (d : A) :
  (0 <= i < Z.of_nat (length a))%Z ->
  PyList.getitem a i = Ok (nth (Z.to_nat i) a d).
Proof.
  intros Hi. unfold PyList.getitem.
  rewrite position_in_range by assumption. simpl.
  rewrite (nth_error_nth' a d) by lia. reflexivity.
Qed.

(** C1.  On a sorted milestone list the scheduler's index [i] for a step [g]
    separates the milestones: those at positions up to [i] are [<= g], those
    after are [> g].  So whenever some milestone is [<= g], [i] is a valid
    position, its milestone is [<= g] and no milestone [<= g] is larger,
    and the tier read by [heights[i]] is the one at position [i].  The
    index never decreases when the step grows, and on [[-1, 100, 500]] the
    steps [[0, 50, 100, 300, 500, 900]] select [[0, 0, 1, 1, 2, 2]]. *)
Theorem tier_selection_largest_milestone :
  forall (ms : list Z) (g : Z),
    Sorted Z.le ms ->
    let i := Resolution.size_ind ms g in
    (-1 <= i < Z.of_nat (length ms))%Z /\
    (forall j, (j < length ms)%nat ->
               ((nth j ms 0 <= g)%Z <-> (Z.of_nat j <= i)%Z)) /\
    (forall m, In m ms -> (m <= g)%Z ->
               (0 <= i)%Z /\ (m <= nth (Z.to_nat i) ms 0 <= g)%Z) /\
    (forall (hs : list Z), length hs = length ms -> (0 <= i)%Z ->
               PyList.getitem hs i = Ok (nth (Z.to_nat i) hs 0%Z)) /\
    (forall g', (g <= g')%Z ->
               (i <= Resolution.size_ind ms g')%Z) /\
    map (Resolution.size_ind [-1; 100; 500]%Z) [0; 50; 100; 300; 500; 900]%Z
      = [0; 0; 1; 1; 2; 2]%Z.
Proof.
  intros ms g Hs i.
  destruct (bisect_right_spec g Hs) as (Hlen & Hlow & Hhigh).
  set (r := Bisect.bisect_right ms g) in *.
  assert (Hi : i = (Z.of_nat r - 1)%Z) by reflexivity.
  assert (Hiff : forall j, (j < length ms)%nat ->
                 ((nth j ms 0 <= g)%Z <-> (Z.of_nat j <= i)%Z)).
  { intros j Hj. split; intros H.
    - destruct (Nat.lt_ge_cases j r) as [Hjr | Hjr]; [lia |].
      specialize (Hhigh j Hjr Hj). lia.
    - apply Hlow. lia. }
  split; [lia |]. split; [exact Hiff |].
  split; [| split; [| split]].
  - intros m Hin Hm.
    destruct (In_nth ms m 0%Z Hin) as (j & Hj & Hnth).
    assert (Hji : (Z.of_nat j <= i)%Z) by (apply Hiff; [assumption | lia]).
    split; [lia |]. split.
    + rewrite <- Hnth. apply sorted_nth; [assumption | lia | lia].
    + apply Hlow. lia.
  - intros hs Hhs Hi0. apply getitem_in_range. lia.
  - intros g' Hg.
    destruct (bisect_right_spec g' Hs) as (Hlen' & Hlow' & Hhigh').
    unfold Resolution.size_ind. fold r.
    set (r' := Bisect.bisect_right ms g') in *.
    destruct (Nat.le_gt_cases r r') as [Hrr | Hrr]; [lia |].
    assert (Hr'len : (r' < length ms)%nat) by lia.
    specialize (Hhigh' r' (Nat.le_refl _) Hr'len).
    specialize (Hlow r' Hrr). lia.
  - reflexivity.
Qed.

Lemma tier_selection_largest_milestone_witness :
  (-1 <= Resolution.size_ind [-1; 100; 500]%Z 300 < 3)%Z.
Proof.
  assert (Hs : Sorted Z.le [-1; 100; 500]%Z).
  { repeat constructor; lia. }
  exact (proj1 (tier_selection_largest_milestone 300 Hs)).
Defined.

(** ** The manifest loader *)

Section LoaderFacts.

Variable w : World.
Variable image_dir : String.string.

Lemma read_frame_complete (c : Config) (f : Frame) :
  frame_complete f ->
  Loader.read_frame w image_dir c f =
    Ok (set_frames c
          (image_paths c ++ [path_join w image_dir (frame_file f)])
          (default_elevation_degs c
             ++ [- frame_polar f + default_elevation_deg c])
          (default_azimuth_degs c ++ [frame_azimuth f])
          (default_camera_distances c ++ [frame_distance f])).
Proof.
  intros (fp & polar & az & d & rest & ->).
  unfold Loader.read_frame, frame_file, frame_polar, frame_azimuth,
    frame_distance; cbn [file_path latlon getkey bind].
  rewrite (@getitem_in_range _ _ 0%Z 0) by (simpl length; lia).
  rewrite (@getitem_in_range _ _ 1%Z 0) by (simpl length; lia).
  rewrite (@getitem_in_range _ _ 2%Z 0) by (simpl length; lia).
  reflexivity.
Qed.

Lemma read_frames_complete (fs : list Frame) :
  Forall frame_complete fs ->
  forall c,
    Loader.read_frames w image_dir c fs =
      Ok (set_frames c
            (image_paths c
               ++ map (fun f => path_join w image_dir (frame_file f)) fs)
            (default_elevation_degs c
               ++ map (fun f => - frame_polar f + default_elevation_deg c) fs)
            (default_azimuth_degs c ++ map frame_azimuth fs)
            (default_camera_distances c ++ map frame_distance fs)).
Proof.
  induction 1 as [| f fs Hf Hfs IH]; intros c; simpl.
  - rewrite !app_nil_r. destruct c; reflexivity.
  - rewrite read_frame_complete by assumption. simpl bind.
    rewrite IH. simpl. rewrite <- !app_assoc. reflexivity.
Qed.

End LoaderFacts.

Lemma fold_min_least (l : list R) (x : R) :
  least (fold_left Rmin l x) (x :: l).
Proof.
  revert x. induction l as [| y l IH]; intros x; simpl.
  - split; [now left |]. intros d [<- | []]. apply Rle_refl.
  - destruct (IH (Rmin x y)) as [Hin Hle]. split.
    + destruct Hin as [Heq | Hin]; [| now right; right].
      rewrite <- Heq. unfold Rmin. destruct (Rle_dec x y); [now left | right; now left].
    + intros d Hd. assert (Hm : fold_left Rmin l (Rmin x y) <= Rmin x y)
        by (apply Hle; now left).
      destruct Hd as [<- | [<- | Hd]].
      * eapply Rle_trans; [exact Hm | apply Rmin_l].
      * eapply Rle_trans; [exact Hm | apply Rmin_r].
      * apply Hle. now right.
Qed.

Lemma py_min_least (l : list R) :
  l <> [] -> exists m, Loader.py_min l = Ok m /\ least m l.
Proof.
  destruct l as [| x l]; [congruence |]. intros _.
  exists (fold_left Rmin l x). split; [reflexivity | apply fold_min_least].
Qed.

Lemma least_unique (m m' : R) (l : list R) :
  least m l -> least m' l -> m = m'.
Proof.
  intros [Hin Hle] [Hin' Hle']. apply Rle_antisym; auto.
Qed.

Lemma least_scaled (m k : R) (l : list R) :
  0 <= k -> least m l -> least (m * k) (map (fun d => d * k) l).
Proof.
  intros Hk [Hin Hle]. split.
  - apply (in_map (fun d => d * k)). exact Hin.
  - intros d Hd. apply in_map_iff in Hd. destruct Hd as (d0 & <- & Hd0).
    apply Rmult_le_compat_r; auto.
Qed.

Lemma py_div_nonzero (a b : R) :
  b <> 0 -> Loader.py_div a b = Ok (a / b).
Proof.
  intros Hb. unfold Loader.py_div. destruct (Req_dec_T b 0); [contradiction | reflexivity].
Qed.

(** C7.  For a manifest whose frames all carry a path and a pose triple, the
    loop of [load_transform] gives frame [i] the elevation
    [-polar_i + default_elevation_deg] and takes its azimuth and its distance
    unchanged from the triple.  The elevations and azimuths [load_transform]
    returns are these lists; the distances it returns are the loop's
    distances multiplied by one common factor (the rescaling of C5). *)
Theorem manifest_pose_conversion :
  forall (w : World) (c : Config) (fs : list Frame),
    Forall frame_complete fs ->
    let fp := Loader.resolve w (transform_fp c) in
    let dir := path_dirname w fp in
    let elevs := map (fun f => - frame_polar f + default_elevation_deg c) fs in
    Loader.read_frames w dir (set_frames c [] [] [] []) fs =
      Ok (set_frames c (map (fun f => path_join w dir (frame_file f)) fs)
            elevs (map frame_azimuth fs) (map frame_distance fs)) /\
    (forall c',
       json_load w fp = Ok (mkMeta (Some fs)) ->
       Loader.load_transform w c = Ok c' ->
       default_elevation_degs c' = elevs /\
       default_azimuth_degs c' = map frame_azimuth fs /\
       exists k,
         default_camera_distances c' = map (fun f => frame_distance f * k) fs).
Proof.
  intros w c fs Hfs fp dir elevs.
  assert (Hloop :
    Loader.read_frames w dir (set_frames c [] [] [] []) fs =
      Ok (set_frames c (map (fun f => path_join w dir (frame_file f)) fs)
            elevs (map frame_azimuth fs) (map frame_distance fs))).
  { rewrite read_frames_complete by assumption. reflexivity. }
  split; [exact Hloop |].
  intros c' Hjson Hload. unfold Loader.load_transform in Hload.
  fold fp in Hload. rewrite Hjson in Hload. cbn [bind frames getkey] in Hload.
  fold dir in Hload. rewrite Hloop in Hload. cbn [bind] in Hload.
  unfold Loader.rescale in Hload.
  destruct (Loader.py_min _) as [m |]; [| discriminate].
  cbn [bind] in Hload.
  destruct (Loader.py_div _ m) as [k |]; [| discriminate].
  cbn [bind] in Hload. injection Hload as <-. cbn.
  repeat split. exists k. rewrite map_map. reflexivity.
Qed.

Lemma manifest_pose_conversion_witness :
  Loader.read_frames sample_world "/data"%string
    (set_frames (sample_config (AnInt 64) (AnInt 64) [] false false) [] [] [] [])
    sample_frames
  = Ok (set_frames (sample_config (AnInt 64) (AnInt 64) [] false false)
          ["/data/a_rgba.png"; "/data/b_rgba.png"; "/data/c_rgba.png"]%string
          [- 10 + 0; - 0 + 0; - -10 + 0] [0; 120; 240] [2; 4; 8]).
Proof.
  refine (proj1 (@manifest_pose_conversion sample_world
            (sample_config (AnInt 64) (AnInt 64) [] false false)
            sample_frames _)).
  repeat constructor; eexists _, _, _, _, _; reflexivity.
Defined.

(** C5.  For a manifest with at least one frame and positive distances,
    [load_transform] returns, and every distance it returns is the manifest
    distance times the one factor [default_camera_distance / m], [m] being
    the least manifest distance, found after the loop over the frames has
    ended.  The reference distance is among the returned distances, and it
    is their least element when it is not negative, as a distance is.  On
    distances [[2, 4, 8]] and reference [3.8] the factor is [1.9] and the
    result [[3.8, 7.6, 15.2]]. *)
Theorem distance_normalization :
  forall (w : World) (c : Config) (fs : list Frame),
    json_load w (Loader.resolve w (transform_fp c)) = Ok (mkMeta (Some fs)) ->
    Forall frame_complete fs ->
    fs <> [] ->
    Forall (fun f => 0 < frame_distance f) fs ->
    exists m c',
      least m (map frame_distance fs) /\
      Loader.load_transform w c = Ok c' /\
      default_camera_distances c' =
        map (fun f => frame_distance f * (default_camera_distance c / m)) fs /\
      In (default_camera_distance c) (default_camera_distances c') /\
      (0 <= default_camera_distance c ->
       least (default_camera_distance c) (default_camera_distances c')) /\
      (map frame_distance fs = [2; 4; 8] ->
       default_camera_distance c = 3.8 ->
       default_camera_distance c / m = 1.9 /\
       default_camera_distances c' = [3.8; 7.6; 15.2]).
Proof.
  intros w c fs Hjson Hfs Hne Hpos.
  set (ref := default_camera_distance c).
  assert (Hne' : map frame_distance fs <> []).
  { destruct fs; [congruence | discriminate]. }
  destruct (py_min_least Hne') as (m & Hmin & Hleast).
  assert (Hm : 0 < m).
  { destruct Hleast as [Hin _]. apply in_map_iff in Hin.
    destruct Hin as (f & <- & Hf). rewrite Forall_forall in Hpos. auto. }
  assert (Hm0 : m <> 0) by lra.
  set (scaled := map (fun f => frame_distance f * (ref / m)) fs).
  assert (Hscaled : scaled = map (fun d => d * (ref / m)) (map frame_distance fs)).
  { unfold scaled. rewrite map_map. reflexivity. }
  assert (Hmref : m * (ref / m) = ref) by (field; assumption).
  exists m. eexists. split; [exact Hleast |]. split.
  { unfold Loader.load_transform. rewrite Hjson. cbn [bind frames getkey].
    rewrite read_frames_complete by assumption. cbn [bind].
    unfold Loader.rescale. cbn. rewrite Hmin. cbn [bind].
    rewrite py_div_nonzero by assumption. cbn [bind]. reflexivity. }
  cbn. fold ref. rewrite map_map. fold scaled.
  split; [reflexivity |]. split; [| split].
  - rewrite Hscaled.
    pose proof (in_map (fun d => d * (ref / m)) _ _ (proj1 Hleast)) as Hin.
    cbv beta in Hin. rewrite Hmref in Hin. exact Hin.
  - intros Href. rewrite Hscaled.
    assert (Hk : 0 <= ref / m).
    { apply Rmult_le_pos; [assumption |]. left. apply Rinv_0_lt_compat. assumption. }
    pose proof (least_scaled Hk Hleast) as Hl.
    rewrite Hmref in Hl. exact Hl.
  - intros Hds Href.
    assert (m = 2).
    { apply (@least_unique m 2 [2; 4; 8]); [rewrite <- Hds; assumption |].
      split; [now left |]. intros d [<- | [<- | [<- | []]]]; lra. }
    subst m. split; [rewrite Href; lra |].
    rewrite Hscaled, Hds, Href. cbn. repeat f_equal; lra.
Qed.

Lemma distance_normalization_witness :
  exists m c',
    least m [2; 4; 8] /\
    Loader.load_transform sample_world
      (sample_config (AnInt 64) (AnInt 64) [] false false) = Ok c'.
Proof.
  assert (Hpos : Forall (fun f => 0 < frame_distance f) sample_frames).
  { repeat constructor; cbn; lra. }
  assert (Hfs : Forall frame_complete sample_frames).
  { repeat constructor; eexists _, _, _, _, _; reflexivity. }
  assert (Hne : sample_frames <> []) by discriminate.
  destruct (@distance_normalization sample_world
              (sample_config (AnInt 64) (AnInt 64) [] false false)
              sample_frames eq_refl Hfs Hne Hpos)
    as (m & c' & Hleast & Hload & _).
  exists m, c'. split; assumption.
Defined.

(** ** Camera positions *)

Lemma broadcast2_same {A B C : Type} (f : A -> B -> C)
    (a : list A) (b : list B) :
  length a = length b ->
  Torch.broadcast2 f a b
    = Ok (map (fun p => f (fst p) (snd p)) (combine a b)).
Proof.
  intros H. unfold Torch.broadcast2. rewrite H, Nat.eqb_refl. reflexivity.
Qed.

Lemma cat3_T_zip (l : list (R * R * R)) :
  Torch.cat3_T (map (fun t => fst (fst t)) l)
               (map (fun t => snd (fst t)) l)
               (map (fun t => snd t) l)
    = Ok (map (fun t => mkVec3 (fst (fst t)) (snd (fst t)) (snd t)) l).
Proof.
  induction l as [| t l IH]; simpl; [reflexivity |].
  rewrite IH. reflexivity.
Qed.

Lemma camera_positions_triples (elevs azs ds : list R) :
  length elevs = length azs -> length azs = length ds ->
  Geometry.camera_positions_of elevs azs ds
    = Ok (map (fun t => mkVec3 (fst (fst t)) (snd (fst t)) (snd t))
              (coordinate_triples elevs azs ds)).
Proof.
  intros H1 H2. unfold Geometry.camera_positions_of, Torch.mul.
  rewrite (broadcast2_same Rmult ds) by (rewrite !length_map; lia).
  cbn [bind].
  rewrite (broadcast2_same Rmult _ (map cos _))
    by (rewrite !length_map, length_combine, !length_map; lia).
  cbn [bind].
  rewrite (broadcast2_same Rmult _ (map sin (map _ azs)))
    by (rewrite !length_map, length_combine, !length_map; lia).
  cbn [bind].
  rewrite (broadcast2_same Rmult ds) by (rewrite !length_map; lia).
  cbn [bind].
  rewrite <- cat3_T_zip. f_equal.
  - revert azs ds H1 H2. induction elevs as [| el elevs IH];
      intros [| az azs] [| d ds] H1 H2; simpl in *; try lia; try reflexivity.
    f_equal. apply IH; lia.
  - revert azs ds H1 H2. induction elevs as [| el elevs IH];
      intros [| az azs] [| d ds] H1 H2; simpl in *; try lia; try reflexivity.
    f_equal. apply IH; lia.
  - revert azs ds H1 H2. induction elevs as [| el elevs IH];
      intros [| az azs] [| d ds] H1 H2; simpl in *; try lia; try reflexivity.
    f_equal. apply IH; lia.
Qed.

Lemma coordinate_triples_nth (elevs azs ds : list R) (i : nat) (el az d : R) :
  nth_error elevs i = Some el ->
  nth_error azs i = Some az ->
  nth_error ds i = Some d ->
  nth_error (map (fun t => mkVec3 (fst (fst t)) (snd (fst t)) (snd t))
                 (coordinate_triples elevs azs ds)) i
    = Some (spherical_to_cartesian el az d).
Proof.
  revert azs ds i. induction elevs as [| e elevs IH];
    intros [| a azs] [| x ds] [| i] He Ha Hd; simpl in *; try discriminate.
  - injection He as <-. injection Ha as <-. injection Hd as <-. reflexivity.
  - apply IH; assumption.
Qed.

Lemma coordinate_triples_length (elevs azs ds : list R) :
  length elevs = length azs -> length azs = length ds ->
  length (coordinate_triples elevs azs ds) = length ds.
Proof.
  revert azs ds. induction elevs as [| e elevs IH];
    intros [| a azs] [| x ds] H1 H2; simpl in *; try lia.
  rewrite IH; lia.
Qed.

Lemma read_frames_lengths (w : World) (dir : String.string)
    (fs : list Frame) :
  forall c c',
    Loader.read_frames w dir c fs = Ok c' ->
    length (default_elevation_degs c) = length (default_azimuth_degs c) ->
    length (default_azimuth_degs c) = length (default_camera_distances c) ->
    length (default_elevation_degs c') = length (default_azimuth_degs c') /\
    length (default_azimuth_degs c') = length (default_camera_distances c').
Proof.
  induction fs as [| f fs IH]; intros c c' Hrun H1 H2; simpl in Hrun.
  - injection Hrun as <-. auto.
  - destruct (Loader.read_frame w dir c f) as [c1 |] eqn:Hstep; [| discriminate].
    cbn [bind] in Hrun. apply (IH _ _ Hrun).
    + unfold Loader.read_frame in Hstep.
      repeat match type of Hstep with
             | bind ?m _ = _ => destruct m; [cbn [bind] in Hstep | discriminate]
             end.
      injection Hstep as <-. cbn. rewrite !length_app. simpl. lia.
    + unfold Loader.read_frame in Hstep.
      repeat match type of Hstep with
             | bind ?m _ = _ => destruct m; [cbn [bind] in Hstep | discriminate]
             end.
      injection Hstep as <-. cbn. rewrite !length_app. simpl. lia.
Qed.

Lemma load_transform_lengths (w : World) (c0 c : Config) :
  Loader.load_transform w c0 = Ok c ->
  length (default_elevation_degs c) = length (default_azimuth_degs c) /\
  length (default_azimuth_degs c) = length (default_camera_distances c).
Proof.
  unfold Loader.load_transform. intros H. cbv zeta in H.
  repeat match type of H with
         | bind ?m _ = _ => destruct m eqn:?; [cbn [bind] in H | discriminate]
         end.
  match goal with
  | Hr : Loader.read_frames _ _ _ _ = Ok ?c1 |- _ =>
      destruct (@read_frames_lengths _ _ _ _ _ Hr eq_refl eq_refl) as [H1 H2]
  end.
  unfold Loader.rescale in H.
  repeat match type of H with
         | bind ?m _ = _ => destruct m eqn:?; [cbn [bind] in H | discriminate]
         end.
  injection H as <-. cbn. rewrite length_map. auto.
Qed.

(** C6.  For elevation, azimuth and distance lists of one length, as
    [load_transform] always leaves them, the camera positions are computed
    without error, one per triple, and the position of triple [i] is
    [(d cos el cos az, d cos el sin az, d sin el)] with [el] and [az] the
    given degrees times [pi / 180]. *)
Theorem camera_positions_spherical :
  forall (elevs azs ds : list R),
    length elevs = length azs -> length azs = length ds ->
    (exists rows,
       Geometry.camera_positions_of elevs azs ds = Ok rows /\
       length rows = length ds /\
       forall i el az d,
         nth_error elevs i = Some el ->
         nth_error azs i = Some az ->
         nth_error ds i = Some d ->
         nth_error rows i = Some (spherical_to_cartesian el az d)) /\
    (forall w c0 c,
       Loader.load_transform w c0 = Ok c ->
       length (default_elevation_degs c) = length (default_azimuth_degs c) /\
       length (default_azimuth_degs c) = length (default_camera_distances c)).
Proof.
  intros elevs azs ds H1 H2. split.
  - eexists. split; [apply camera_positions_triples; assumption |].
    split.
    + rewrite length_map. apply coordinate_triples_length; assumption.
    + intros i el az d. apply coordinate_triples_nth.
  - intros w c0 c. apply load_transform_lengths.
Qed.

Lemma camera_positions_spherical_witness :
  exists rows,
    Geometry.camera_positions_of [30] [45] [2] = Ok rows /\
    nth_error rows 0 = Some (spherical_to_cartesian 30 45 2).
Proof.
  destruct (@camera_positions_spherical [30] [45] [2] eq_refl eq_refl)
    as [(rows & Hrun & _ & Hnth) _].
  exists rows. split; [exact Hrun |].
  apply (Hnth 0%nat 30 45 2); reflexivity.
Defined.

(** ** The look-at basis *)

Lemma broadcast2_single_left {A B C : Type} (f : A -> B -> C)
    (x : A) (b : list B) :
  Torch.broadcast2 f [x] b = Ok (map (f x) b).
Proof.
  unfold Torch.broadcast2. destruct b as [| y [| z b]]; reflexivity.
Qed.

Lemma broadcast2_single_right {A B C : Type} (f : A -> B -> C)
    (a : list A) (y : B) :
  Torch.broadcast2 f a [y] = Ok (map (fun x => f x y) a).
Proof.
  unfold Torch.broadcast2. destruct a as [| x [| z a]]; reflexivity.
Qed.

Lemma combine_map_same {A B C : Type} (f : A -> B) (g : A -> C) (l : list A) :
  combine (map f l) (map g l) = map (fun x => (f x, g x)) l.
Proof.
  induction l as [| x l IH]; simpl; [reflexivity | now rewrite IH].
Qed.

Lemma cross_rows_not_three (a b : Rows) :
  length a <> 3%nat -> Torch.cross a b = Torch.broadcast2 Vec.cross a b.
Proof.
  intros H. unfold Torch.cross.
  destruct (Nat.eqb_spec (length a) 3); [contradiction | reflexivity].
Qed.

(** With any number of cameras but three, each camera gets the basis of
    its own position. *)
Lemma look_at_rows (positions : Rows) :
  positions <> [] -> length positions <> 3%nat ->
  Geometry.look_at positions =
    Ok (Geometry.mkBasis (map camera_lookat positions)
          (map camera_right positions) (map camera_up positions)).
Proof.
  intros Hne H3. unfold Geometry.look_at.
  destruct positions as [| p0 rest] eqn:Hp; [congruence |]. rewrite <- Hp.
  replace (PyList.getitem positions 0) with (Ok p0)
    by (subst positions; reflexivity).
  cbn [bind]. rewrite broadcast2_single_left. cbn [bind].
  unfold Torch.normalize, Geometry.world_up. rewrite map_map.
  rewrite cross_rows_not_three by (rewrite length_map; subst; exact H3).
  rewrite broadcast2_single_right. cbn [bind]. rewrite !map_map.
  rewrite cross_rows_not_three by (rewrite length_map; subst; exact H3).
  rewrite broadcast2_same by (rewrite !length_map; reflexivity).
  cbn [bind]. rewrite combine_map_same, !map_map. reflexivity.
Qed.

Lemma stack_cat_rows (positions : Rows) :
  Geometry.stack_cat (map camera_right positions) (map camera_up positions)
    (map Vec.neg (map camera_lookat positions)) positions
  = Ok (map camera_matrix positions).
Proof.
  induction positions as [| p l IH]; simpl; [reflexivity |].
  rewrite IH. reflexivity.
Qed.

Lemma c2w_of_rows (positions : Rows) :
  positions <> [] -> length positions <> 3%nat ->
  Geometry.c2w_of positions = Ok (map camera_matrix positions).
Proof.
  intros Hne H3. unfold Geometry.c2w_of.
  rewrite look_at_rows by assumption. cbn [bind Geometry.b_right
    Geometry.b_up Geometry.b_lookat]. apply stack_cat_rows.
Qed.

(** With exactly three cameras the first cross product is taken along the
    camera dimension, where the up vector has size 1. *)
Lemma look_at_three_cameras (p0 p1 p2 : Vec3) :
  Geometry.look_at [p0; p1; p2] = Err RuntimeError.
Proof. reflexivity. Qed.

Lemma eps_pos : 0 < Vec.eps.
Proof.
  unfold Vec.eps. apply Rinv_0_lt_compat. apply pow_lt. lra.
Qed.

Lemma vec3_eq (a b : Vec3) :
  vx a = vx b -> vy a = vy b -> vz a = vz b -> a = b.
Proof. destruct a, b; simpl; intros -> -> ->; reflexivity. Qed.

(** Normalising [k] times a unit vector gives the unit vector back, as
    soon as [k] is not below the clamp. *)
Lemma normalize_scaled (k : R) (u v : Vec3) :
  Vec.dot u u = 1 -> Vec.eps <= k ->
  vx v = k * vx u -> vy v = k * vy u -> vz v = k * vz u ->
  Vec.normalize v = u.
Proof.
  intros Hu Hk Hx Hy Hz. pose proof eps_pos as He.
  assert (Hn : Vec.norm v = k).
  { unfold Vec.norm.
    replace (Vec.dot v v) with (k * k * Vec.dot u u)
      by (unfold Vec.dot; rewrite Hx, Hy, Hz; ring).
    rewrite Hu, Rmult_1_r. apply sqrt_square. lra. }
  unfold Vec.normalize. rewrite Hn, Rmax_left by assumption.
  apply vec3_eq; simpl; [rewrite Hx | rewrite Hy | rewrite Hz]; field; lra.
Qed.

(** Normalising the zero vector divides by the clamp and gives zero. *)
Lemma normalize_zero (v : Vec3) :
  vx v = 0 -> vy v = 0 -> vz v = 0 -> Vec.normalize v = Vec.zero.
Proof.
  intros Hx Hy Hz. unfold Vec.normalize, Vec.zero.
  apply vec3_eq; simpl; [rewrite Hx | rewrite Hy | rewrite Hz];
    unfold Rdiv; ring.
Qed.

(** A camera on the axis of the up vector has a zero right vector and a
    zero up vector. *)
Lemma on_axis_basis (p : Vec3) :
  vx p = 0 -> vy p = 0 ->
  camera_right p = Vec.zero /\ camera_up p = Vec.zero.
Proof.
  intros Hx Hy.
  assert (Hr : camera_right p = Vec.zero).
  { unfold camera_right. apply normalize_zero;
      unfold camera_lookat, Vec.normalize, Vec.cross, Vec.sub, Vec.zero;
      simpl; rewrite ?Hx, ?Hy; unfold Rdiv; ring. }
  split; [exact Hr |].
  unfold camera_up. rewrite Hr.
  apply normalize_zero; unfold Vec.cross, Vec.zero; simpl; ring.
Qed.

Section SphericalBasis.

Variables el_deg az_deg d : R.

Let el := el_deg * PI / 180.
Let az := az_deg * PI / 180.
Let p := spherical_to_cartesian el_deg az_deg d.

Hypothesis d_clamp : Vec.eps <= d.
Hypothesis cos_clamp : Vec.eps <= cos el.

Let unit_el : sin el * sin el + cos el * cos el = 1.
Proof. pose proof (sin2_cos2 el) as H. unfold Rsqr in H. exact H. Qed.

Let unit_az : sin az * sin az + cos az * cos az = 1.
Proof. pose proof (sin2_cos2 az) as H. unfold Rsqr in H. exact H. Qed.

Lemma spherical_lookat :
  camera_lookat p =
    mkVec3 (- (cos el * cos az)) (- (cos el * sin az)) (- sin el).
Proof.
  unfold camera_lookat. apply (@normalize_scaled d); try assumption;
    unfold p, spherical_to_cartesian, Vec.dot, Vec.sub, Vec.zero; simpl;
    fold el az; try ring.
  replace (_ + _ + _)
    with (cos el * cos el * (sin az * sin az + cos az * cos az)
          + sin el * sin el) by ring.
  rewrite unit_az. lra.
Qed.

Lemma spherical_right :
  camera_right p = mkVec3 (- sin az) (cos az) 0.
Proof.
  unfold camera_right. rewrite spherical_lookat.
  apply (@normalize_scaled (cos el)); try assumption;
    unfold Vec.dot, Vec.cross; simpl; try ring.
  lra.
Qed.

Lemma spherical_up :
  camera_up p =
    mkVec3 (- (cos az * sin el)) (- (sin az * sin el)) (cos el).
Proof.
  pose proof eps_pos as He.
  assert (H1 : Vec.eps <= 1).
  { unfold Vec.eps. apply Rle_trans with (/ 1).
    - apply Rinv_le_contravar; [lra | apply pow_R1_Rle; lra].
    - rewrite Rinv_1. lra. }
  unfold camera_up. rewrite spherical_right, spherical_lookat.
  apply (@normalize_scaled 1); try assumption;
    unfold Vec.dot, Vec.cross; simpl.
  - replace (_ + _ + _)
      with (sin el * sin el * (sin az * sin az + cos az * cos az)
            + cos el * cos el) by ring.
    rewrite unit_az. lra.
  - ring.
  - ring.
  - replace (1 * cos el)
      with (cos el * (sin az * sin az + cos az * cos az))
      by (rewrite unit_az; ring).
    ring.
Qed.

Lemma spherical_orthonormal :
  Vec.orthonormal (camera_right p) (camera_up p)
    (Vec.neg (camera_lookat p)).
Proof.
  rewrite spherical_up, spherical_right, spherical_lookat.
  unfold Vec.orthonormal, Vec.dot, Vec.neg; simpl.
  repeat split.
  - lra.
  - replace (_ + _ + _)
      with (sin el * sin el * (sin az * sin az + cos az * cos az)
            + cos el * cos el) by ring.
    rewrite unit_az. lra.
  - replace (_ + _ + _)
      with (cos el * cos el * (sin az * sin az + cos az * cos az)
            + sin el * sin el) by ring.
    rewrite unit_az. lra.
  - ring.
  - ring.
  - replace (_ + _ + _)
      with (cos el * sin el
            * (1 - (sin az * sin az + cos az * cos az))) by ring.
    rewrite unit_az. ring.
Qed.

End SphericalBasis.

(** Lines 83-104 on pose lists of one length, for any number of cameras
    but three. *)
Lemma pose_pipeline (elevs azs ds : list R) :
  length elevs = length azs -> length azs = length ds ->
  ds <> [] -> length ds <> 3%nat ->
  exists positions,
    Geometry.camera_positions_of elevs azs ds = Ok positions /\
    Geometry.look_at positions =
      Ok (Geometry.mkBasis (map camera_lookat positions)
            (map camera_right positions) (map camera_up positions)) /\
    Geometry.c2w_of positions = Ok (map camera_matrix positions) /\
    forall i el az d,
      nth_error elevs i = Some el ->
      nth_error azs i = Some az ->
      nth_error ds i = Some d ->
      nth_error positions i = Some (spherical_to_cartesian el az d).
Proof.
  intros H1 H2 Hne H3.
  set (positions := map (fun t => mkVec3 (fst (fst t)) (snd (fst t)) (snd t))
                        (coordinate_triples elevs azs ds)).
  assert (Hlen : length positions = length ds).
  { unfold positions. rewrite length_map.
    apply coordinate_triples_length; assumption. }
  assert (Hne' : positions <> []).
  { intros E. rewrite E in Hlen. destruct ds; [congruence | discriminate]. }
  exists positions. split; [apply camera_positions_triples; assumption |].
  split; [apply look_at_rows; [assumption | lia] |].
  split; [apply c2w_of_rows; [assumption | lia] |].
  intros i el az d. apply coordinate_triples_nth.
Qed.

(** C9, as the code has it.  For pose lists of one length and any number of
    cameras but three, the transforms are computed without error, and for
    every pose with elevation strictly between -90 and 90 degrees whose
    distance and whose cosine of the elevation are at least the clamp
    [1e-12] of [F.normalize], the transform has 3 rows of 4 entries, its
    columns are right, up, minus forward and the position, and the three
    rotation columns are orthonormal. *)
Theorem c2w_columns_orthonormal :
  forall (elevs azs ds : list R),
    length elevs = length azs -> length azs = length ds ->
    ds <> [] -> length ds <> 3%nat ->
    exists positions b ms,
      Geometry.camera_positions_of elevs azs ds = Ok positions /\
      Geometry.look_at positions = Ok b /\
      Geometry.c2w_of positions = Ok ms /\
      forall i el az d,
        nth_error elevs i = Some el ->
        nth_error azs i = Some az ->
        nth_error ds i = Some d ->
        -90 < el < 90 ->
        Vec.eps <= d ->
        Vec.eps <= cos (el * PI / 180) ->
        exists right up lookat m,
          nth_error (Geometry.b_right b) i = Some right /\
          nth_error (Geometry.b_up b) i = Some up /\
          nth_error (Geometry.b_lookat b) i = Some lookat /\
          nth_error ms i = Some m /\
          length m = 3%nat /\
          (forall row, In row m -> length row = 4%nat) /\
          column 0 m = Vec.to_list right /\
          column 1 m = Vec.to_list up /\
          column 2 m = Vec.to_list (Vec.neg lookat) /\
          column 3 m = Vec.to_list (spherical_to_cartesian el az d) /\
          Vec.orthonormal right up (Vec.neg lookat).
Proof.
  intros elevs azs ds H1 H2 Hne H3.
  destruct (pose_pipeline elevs azs H1 H2 Hne H3)
    as (positions & Hpos & Hlook & Hc2w & Hnth).
  exists positions. eexists. eexists.
  split; [exact Hpos |]. split; [exact Hlook |]. split; [exact Hc2w |].
  intros i el az d Hel Haz Hd _ Hdc Hcc.
  specialize (Hnth i el az d Hel Haz Hd).
  set (p := spherical_to_cartesian el az d) in *.
  exists (camera_right p), (camera_up p), (camera_lookat p), (camera_matrix p).
  cbn [Geometry.b_right Geometry.b_up Geometry.b_lookat].
  repeat split; try (apply map_nth_error; exact Hnth).
  - intros row [<- | [<- | [<- | []]]]; reflexivity.
  - apply spherical_orthonormal; assumption.
  - apply spherical_orthonormal; assumption.
  - apply spherical_orthonormal; assumption.
  - apply spherical_orthonormal; assumption.
  - apply spherical_orthonormal; assumption.
  - apply spherical_orthonormal; assumption.
Qed.

Lemma c2w_columns_orthonormal_witness :
  exists positions b ms,
    Geometry.camera_positions_of [0] [0] [1] = Ok positions /\
    Geometry.look_at positions = Ok b /\
    Geometry.c2w_of positions = Ok ms /\
    exists right up lookat,
      nth_error (Geometry.b_right b) 0 = Some right /\
      nth_error (Geometry.b_up b) 0 = Some up /\
      nth_error (Geometry.b_lookat b) 0 = Some lookat /\
      Vec.orthonormal right up (Vec.neg lookat).
Proof.
  assert (Hne : [1] <> @nil R) by discriminate.
  assert (H3 : length [1] <> 3%nat) by (simpl; lia).
  destruct (@c2w_columns_orthonormal [0] [0] [1] eq_refl eq_refl Hne H3)
    as (positions & b & ms & Hpos & Hlook & Hc2w & Hall).
  exists positions, b, ms. repeat split; try assumption.
  assert (H1 : Vec.eps <= 1).
  { unfold Vec.eps. apply Rle_trans with (/ 1).
    - apply Rinv_le_contravar; [lra | apply pow_R1_Rle; lra].
    - rewrite Rinv_1. lra. }
  assert (Hc : Vec.eps <= cos (0 * PI / 180)).
  { replace (0 * PI / 180) with 0 by field. rewrite cos_0. exact H1. }
  assert (Hel : -90 < 0 < 90) by lra.
  destruct (Hall 0%nat 0 0 1 eq_refl eq_refl eq_refl Hel H1 Hc)
    as (r & u & l & m & Hr & Hu & Hl & _ & _ & _ & _ & _ & _ & _ & Ho).
  exists r, u, l. repeat split; try assumption; apply Ho.
Defined.

(** A camera at distance 0 has elevation 0, strictly between -90 and 90
    degrees, and a transform whose rotation columns are not orthonormal:
    its right column is zero. *)
Lemma zero_distance_not_orthonormal :
  Geometry.camera_positions_of [0] [0] [0]
    = Ok [spherical_to_cartesian 0 0 0] /\
  -90 < 0 < 90 /\
  Geometry.c2w_of [spherical_to_cartesian 0 0 0]
    = Ok [camera_matrix (spherical_to_cartesian 0 0 0)] /\
  column 0 (camera_matrix (spherical_to_cartesian 0 0 0)) = [0; 0; 0] /\
  ~ Vec.orthonormal (camera_right (spherical_to_cartesian 0 0 0))
      (camera_up (spherical_to_cartesian 0 0 0))
      (Vec.neg (camera_lookat (spherical_to_cartesian 0 0 0))).
Proof.
  assert (Hx : vx (spherical_to_cartesian 0 0 0) = 0)
    by (unfold spherical_to_cartesian; simpl; ring).
  assert (Hy : vy (spherical_to_cartesian 0 0 0) = 0)
    by (unfold spherical_to_cartesian; simpl; ring).
  destruct (on_axis_basis _ Hx Hy) as [Hr Hu].
  split; [rewrite camera_positions_triples by reflexivity; reflexivity |].
  split; [lra |].
  split; [apply c2w_of_rows; [discriminate | simpl; lia] |].
  split.
  - change (Vec.to_list (camera_right (spherical_to_cartesian 0 0 0))
            = [0; 0; 0]).
    rewrite Hr. reflexivity.
  - intros (H & _). rewrite Hr in H. unfold Vec.dot, Vec.zero in H.
    simpl in H. lra.
Qed.




(** ** What [set_rays], [load_images] and [setup] leave in the object *)

Ltac inv_bind H :=
  repeat match type of H with
         | bind ?m _ = Ok _ =>
             destruct m eqn:?; [cbn [bind] in H | discriminate H]
         end.

Lemma set_rays_inv (w : World) (s s' : State) :
  Dataset.set_rays w s = Ok s' ->
  let directions :=
    Dataset.rescale_grid (focal_length s)
      (nth (directions_unit_focal s) (directions_unit_focals s) []) in
  exists r,
    s' = emit (with_rays s
                 (Dataset.store (directions_unit_focal s) directions
                    (directions_unit_focals s)) r)
              (GetRays directions).
Proof.
  unfold Dataset.set_rays. intros H. cbv zeta in H.
  destruct (get_rays w _ _ _) as [ro rd].
  inv_bind H. injection H as <-. eexists. reflexivity.
Qed.

Lemma load_images_inv (w : World) (s s' : State) :
  Dataset.load_images w s = Ok s' ->
  exists i,
    s' = emit (with_images s i) (LoadImages (width s) (height s)) /\
    (requires_depth (cfg s) = false -> image_paths (cfg s) <> [] ->
     depth i = None) /\
    (requires_depth (cfg s) = true -> exists d, depth i = Some d) /\
    (requires_normal (cfg s) = true -> exists n, normal i = Some n).
Proof.
  unfold Dataset.load_images. intros H. cbv zeta in H.
  destruct (Dataset.load_loop w (cfg s) (width s) (height s) _ _)
    as [acc |] eqn:Hloop; [cbn [bind] in H | discriminate H].
  destruct (Tensor.stack (Dataset.rgbs acc)) as [rgb' |];
    [cbn [bind] in H | discriminate H].
  destruct (Tensor.stack (Dataset.masks acc)) as [mask' |];
    [cbn [bind] in H | discriminate H].
  assert (Hnone : requires_depth (cfg s) = false ->
                  image_paths (cfg s) <> [] -> Dataset.l_depth acc = None).
  { intros Hrd Hne. clear H. revert Hloop.
    generalize (Dataset.mkLoaded [] [] [] [] (depth (images s))
                  (normal (images s))).
    destruct (image_paths (cfg s)) as [| p0 ps]; [congruence |].
    clear Hne. revert p0.
    induction ps as [| p1 ps IH]; intros p0 acc0 Hl; simpl in Hl.
    - unfold Dataset.load_one in Hl. rewrite Hrd in Hl.
      destruct (py_assert (path_exists w p0)); [| discriminate].
      cbn [bind] in Hl.
      destruct (requires_normal (cfg s)).
      + destruct (py_assert _); [| discriminate]. cbn [bind] in Hl.
        injection Hl as <-. reflexivity.
      + cbn [bind] in Hl. injection Hl as <-. reflexivity.
    - destruct (Dataset.load_one w (cfg s) (width s) (height s) acc0 p0)
        as [acc1 |]; [| discriminate].
      cbn [bind] in Hl. apply (IH p1 acc1). exact Hl. }
  destruct (requires_depth (cfg s)) eqn:Hrd.
  - destruct (Tensor.stack (Dataset.depths acc)) as [d |];
      [cbn [bind] in H | discriminate H].
    destruct (requires_normal (cfg s)) eqn:Hrn.
    + destruct (Tensor.stack (Dataset.normals acc)) as [n |];
        [cbn [bind] in H | discriminate H].
      injection H as <-. eexists. split; [reflexivity |]. cbn.
      repeat split; try discriminate; eauto.
    + cbn [bind] in H. injection H as <-. eexists. split; [reflexivity |].
      cbn. repeat split; try discriminate; eauto.
  - cbn [bind] in H.
    destruct (requires_normal (cfg s)) eqn:Hrn.
    + destruct (Tensor.stack (Dataset.normals acc)) as [n |];
        [cbn [bind] in H | discriminate H].
      injection H as <-. eexists. split; [reflexivity |]. cbn.
      repeat split; try discriminate; eauto.
    + cbn [bind] in H. injection H as <-. eexists. split; [reflexivity |].
      cbn. repeat split; try discriminate; eauto.
Qed.

(** [load_transform] assigns the four frame lists and nothing else. *)
Lemma read_frames_set_frames (w : World) (dir : String.string)
    (fs : list Frame) :
  forall c c',
    Loader.read_frames w dir c fs = Ok c' ->
    exists p e a d, c' = set_frames c p e a d.
Proof.
  induction fs as [| f fs IH]; intros c c' H; simpl in H.
  - injection H as <-. destruct c. repeat eexists.
  - destruct (Loader.read_frame w dir c f) as [c1 |] eqn:Hstep;
      [cbn [bind] in H | discriminate].
    destruct (IH _ _ H) as (p & e & a & d & ->).
    unfold Loader.read_frame in Hstep. inv_bind Hstep.
    injection Hstep as <-. repeat eexists.
Qed.

Lemma load_transform_set_frames (w : World) (c0 c : Config) :
  Loader.load_transform w c0 = Ok c ->
  exists p e a d, c = set_frames c0 p e a d.
Proof.
  unfold Loader.load_transform. intros H. cbv zeta in H. inv_bind H.
  match goal with
  | Hr : Loader.read_frames _ _ _ _ = Ok _ |- _ =>
      destruct (read_frames_set_frames _ _ _ _ Hr) as (p & e & a & d & ->)
  end.
  unfold Loader.rescale in H. inv_bind H. injection H as <-.
  repeat eexists.
Qed.

Lemma tiers_of_set_frames (c : Config) (p : list String.string)
    (e a d : list R) :
  Resolution.tiers_of (set_frames c p e a d) = Resolution.tiers_of c.
Proof. reflexivity. Qed.

(** The stages of [setup], read back from a successful run. *)
Lemma setup_inv (w : World) (c0 : Config) (split : String.string) (s : State) :
  Dataset.setup w c0 split = Ok s ->
  exists c p hs ws ms warned directions wd ht,
    Loader.load_transform w c0 = Ok c /\
    Geometry.poses_of c = Ok p /\
    Resolution.tiers_of c0 = Ok (hs, ws, ms, warned) /\
    cfg s = c /\ poses s = p /\
    heights (tiers s) = hs /\ widths (tiers s) = ws /\
    resolution_milestones (tiers s) = ms /\
    height s = prev_height s /\
    log s = warned ++ [GetRays directions; LoadImages wd ht].
Proof.
  unfold Dataset.setup. intros H.
  destruct (Loader.load_transform w c0) as [c |] eqn:Hload;
    [cbn [bind] in H | discriminate H].
  destruct (Geometry.poses_of c) as [p |] eqn:Hposes;
    [cbn [bind] in H | discriminate H].
  destruct (load_transform_set_frames _ _ Hload) as (pp & e & a & d & Hc).
  assert (Ht : Resolution.tiers_of c = Resolution.tiers_of c0)
    by (rewrite Hc; apply tiers_of_set_frames).
  rewrite Ht in H.
  destruct (Resolution.tiers_of c0) as [[[[hs ws] ms] warned] |];
    [cbn [bind] in H | discriminate H].
  inv_bind H.
  match goal with
  | Hr : Dataset.set_rays _ _ = Ok ?s1, Hl : Dataset.load_images _ ?s1 = Ok ?s2 |- _ =>
      destruct (@set_rays_inv _ _ _ Hr) as (rdata & Hs1);
      destruct (@load_images_inv _ _ _ Hl) as (idata & Hs2 & _)
  end.
  injection H as <-. subst.
  exists (set_frames c0 pp e a d), p, hs, ws, ms, warned. do 3 eexists.
  split; [reflexivity |]. split; [exact Hposes |]. split; [reflexivity |].
  cbn. repeat split. rewrite <- app_assoc. reflexivity.
Qed.

(** The object [setup] returns stands on the first tier, and the cached
    grid of that tier has been through one call of [set_rays]. *)
Lemma setup_first_tier (w : World) (c0 : Config) (split : String.string)
    (s : State) :
  Dataset.setup w c0 split = Ok s ->
  exists hs ws ms warned,
    Resolution.tiers_of c0 = Ok (hs, ws, ms, warned) /\
    tiers s = mkTiers hs ws ms (map (Resolution.focal_of (fovy (poses s))) hs) /\
    PyList.getitem hs 0 = Ok (height s) /\
    PyList.getitem ws 0 = Ok (width s) /\
    prev_height s = height s /\
    directions_unit_focal s = 0%nat /\
    PyList.getitem (map (Resolution.focal_of (fovy (poses s))) hs) 0
      = Ok (focal_length s) /\
    directions_unit_focals s =
      Dataset.store 0
        (Dataset.rescale_grid (focal_length s)
           (nth 0 (map (fun hw => get_ray_directions w (fst hw) (snd hw))
                       (combine hs ws)) []))
        (map (fun hw => get_ray_directions w (fst hw) (snd hw))
             (combine hs ws)).
Proof.
  unfold Dataset.setup. intros H.
  destruct (Loader.load_transform w c0) as [c |] eqn:Hload;
    [cbn [bind] in H | discriminate H].
  destruct (Geometry.poses_of c) as [p |] eqn:Hposes;
    [cbn [bind] in H | discriminate H].
  destruct (load_transform_set_frames _ _ Hload) as (pp & e & a & d & Hc).
  assert (Ht : Resolution.tiers_of c = Resolution.tiers_of c0)
    by (rewrite Hc; apply tiers_of_set_frames).
  rewrite Ht in H.
  destruct (Resolution.tiers_of c0) as [[[[hs ws] ms] warned] |];
    [cbn [bind] in H | discriminate H].
  inv_bind H.
  match goal with
  | Hr : Dataset.set_rays _ _ = Ok ?s1, Hl : Dataset.load_images _ ?s1 = Ok ?s2 |- _ =>
      destruct (@set_rays_inv _ _ _ Hr) as (rdata & Hs1);
      destruct (@load_images_inv _ _ _ Hl) as (idata & Hs2 & _)
  end.
  injection H as <-. subst.
  exists hs, ws, ms, warned. cbn. repeat split; assumption.
Qed.

(** ** [setup] returns *)

Lemma load_transform_runs (w : World) (c : Config) (fs : list Frame) :
  json_load w (Loader.resolve w (transform_fp c)) = Ok (mkMeta (Some fs)) ->
  Forall frame_complete fs ->
  fs <> [] ->
  Forall (fun f => 0 < frame_distance f) fs ->
  exists m,
    least m (map frame_distance fs) /\ 0 < m /\
    Loader.load_transform w c =
      Ok (set_frames c
            (map (fun f => path_join w
                             (path_dirname w (Loader.resolve w (transform_fp c)))
                             (frame_file f)) fs)
            (map (fun f => - frame_polar f + default_elevation_deg c) fs)
            (map frame_azimuth fs)
            (map (fun f => frame_distance f * (default_camera_distance c / m))
                 fs)).
Proof.
  intros Hjson Hfs Hne Hpos.
  assert (Hne' : map frame_distance fs <> []).
  { destruct fs; [congruence | discriminate]. }
  destruct (py_min_least Hne') as (m & Hmin & Hleast).
  assert (Hm : 0 < m).
  { destruct Hleast as [Hin _]. apply in_map_iff in Hin.
    destruct Hin as (f & <- & Hf). rewrite Forall_forall in Hpos. auto. }
  exists m. split; [exact Hleast |]. split; [exact Hm |].
  unfold Loader.load_transform. rewrite Hjson. cbn [bind frames getkey].
  rewrite read_frames_complete by assumption. cbn [bind].
  unfold Loader.rescale. cbn. rewrite Hmin. cbn [bind].
  rewrite py_div_nonzero by lra. cbn [bind]. rewrite map_map. reflexivity.
Qed.

Lemma getitem_first {A : Type} (x : A) (l : list A) :
  PyList.getitem (x :: l) 0 = Ok x.
Proof.
  rewrite (@getitem_in_range _ (x :: l) 0%Z x) by (simpl length; lia).
  reflexivity.
Qed.

Lemma set_rays_runs (w : World) (s : State) :
  height s <> 0%Z -> exists s', Dataset.set_rays w s = Ok s'.
Proof.
  intros Hh. unfold Dataset.set_rays. cbv zeta.
  destruct (get_rays w _ _ _) as [ro rd].
  unfold Dataset.int_div. destruct (Z.eqb_spec (height s) 0); [contradiction |].
  cbn [bind]. eexists. reflexivity.
Qed.

Lemma load_loop_runs (w : World) (c : Config) (wd ht : Z)
    (paths : list String.string) :
  (forall p, path_exists w p = true) ->
  forall acc,
  exists acc',
    Dataset.load_loop w c wd ht acc paths = Ok acc' /\
    length (Dataset.rgbs acc') = (length (Dataset.rgbs acc) + length paths)%nat /\
    length (Dataset.masks acc')
      = (length (Dataset.masks acc) + length paths)%nat /\
    (requires_depth c = true ->
     length (Dataset.depths acc')
       = (length (Dataset.depths acc) + length paths)%nat) /\
    (requires_normal c = true ->
     length (Dataset.normals acc')
       = (length (Dataset.normals acc) + length paths)%nat).
Proof.
  intros Hex. induction paths as [| p paths IH]; intros acc; simpl.
  - exists acc. repeat split; intros; lia.
  - unfold Dataset.load_one. rewrite !Hex. cbn [py_assert bind].
    destruct (requires_depth c) eqn:Hd, (requires_normal c) eqn:Hn;
      rewrite ?Hex; cbn [py_assert bind];
      match goal with
      | |- exists acc', Dataset.load_loop _ _ _ _ ?a _ = _ /\ _ =>
          destruct (IH a) as (acc' & Hrun & H1 & H2 & H3 & H4)
      end;
      exists acc'; (split; [exact Hrun |]);
      cbn [Dataset.rgbs Dataset.masks Dataset.depths Dataset.normals] in *;
      rewrite ?length_app in *; simpl length in *;
      repeat split; intros; try discriminate;
      try (specialize (H3 eq_refl)); try (specialize (H4 eq_refl)); lia.
Qed.

Lemma stack_runs (l : list Tensor) :
  (0 < length l)%nat -> exists t, Tensor.stack l = Ok t.
Proof.
  destruct l; simpl; [lia |]. intros _. eexists. reflexivity.
Qed.

Lemma load_images_runs (w : World) (s : State) :
  (forall p, path_exists w p = true) ->
  image_paths (cfg s) <> [] ->
  exists s', Dataset.load_images w s = Ok s'.
Proof.
  intros Hex Hne. unfold Dataset.load_images. cbv zeta.
  destruct (@load_loop_runs w (cfg s) (width s) (height s)
              (image_paths (cfg s)) Hex
              (Dataset.mkLoaded [] [] [] [] (depth (images s))
                 (normal (images s))))
    as (acc & -> & H1 & H2 & H3 & H4).
  cbn [bind]. simpl length in *.
  assert (Hn : (0 < length (image_paths (cfg s)))%nat).
  { destruct (image_paths (cfg s)); [congruence | simpl; lia]. }
  destruct (@stack_runs (Dataset.rgbs acc)) as (t1 & ->); [lia |].
  destruct (@stack_runs (Dataset.masks acc)) as (t2 & ->); [lia |].
  cbn [bind].
  destruct (requires_depth (cfg s)).
  - destruct (@stack_runs (Dataset.depths acc)) as (t3 & ->);
      [specialize (H3 eq_refl); lia |]. cbn [bind].
    destruct (requires_normal (cfg s)).
    + destruct (@stack_runs (Dataset.normals acc)) as (t4 & ->);
        [specialize (H4 eq_refl); lia |]. cbn [bind]. eexists. reflexivity.
    + cbn [bind]. eexists. reflexivity.
  - cbn [bind]. destruct (requires_normal (cfg s)).
    + destruct (@stack_runs (Dataset.normals acc)) as (t4 & ->);
        [specialize (H4 eq_refl); lia |]. cbn [bind]. eexists. reflexivity.
    + cbn [bind]. eexists. reflexivity.
Qed.

Lemma tiers_of_shape (c : Config) (hs ws ms : list Z) (warned : list Event) :
  Resolution.tiers_of c = Ok (hs, ws, ms, warned) ->
  hs <> [] /\ length ws = length hs.
Proof.
  unfold Resolution.tiers_of. intros H.
  destruct (Nat.eqb_spec (length (Resolution.as_list (cfg_height c)))
              (length (Resolution.as_list (cfg_width c)))) as [Hlen | Hlen];
    [cbn [py_assert bind] in H | discriminate H].
  destruct (Nat.eqb_spec (length (Resolution.as_list (cfg_height c))) 1)
    as [H1 | H1]; cbn [andb] in H.
  - destruct (Nat.eqb (length (Resolution.as_list (cfg_width c))) 1);
      [injection H as <- <- _ _;
       split; [intros E; rewrite E in H1; discriminate | lia] |].
    destruct (Nat.eqb_spec (length (Resolution.as_list (cfg_height c)))
                (length (cfg_resolution_milestones c) + 1));
      [cbn [py_assert bind] in H | discriminate H].
    injection H as <- <- _ _.
    split; [intros E; rewrite E in H1; discriminate | lia].
  - destruct (Nat.eqb_spec (length (Resolution.as_list (cfg_height c)))
                (length (cfg_resolution_milestones c) + 1)) as [H2 | H2];
      [cbn [py_assert bind] in H | discriminate H].
    injection H as <- <- _ _.
    split; [intros E; rewrite E in H2; simpl in H2; lia | lia].
Qed.

(** With a complete manifest of positive distances for any number of
    frames but three, every file in place, accepted tiers and a non-zero
    first height, [setup] returns an object. *)
Lemma setup_runs (w : World) (c0 : Config) (split : String.string)
    (fs : list Frame) (hs ws ms : list Z) (warned : list Event) :
  json_load w (Loader.resolve w (transform_fp c0)) = Ok (mkMeta (Some fs)) ->
  Forall frame_complete fs ->
  fs <> [] -> length fs <> 3%nat ->
  Forall (fun f => 0 < frame_distance f) fs ->
  (forall p, path_exists w p = true) ->
  Resolution.tiers_of c0 = Ok (hs, ws, ms, warned) ->
  nth 0 hs 0%Z <> 0%Z ->
  exists s, Dataset.setup w c0 split = Ok s.
Proof.
  intros Hjson Hfs Hne H3 Hpos Hex Ht Hh0.
  destruct (@load_transform_runs w c0 fs Hjson Hfs Hne Hpos)
    as (m & _ & _ & Hload).
  unfold Dataset.setup. rewrite Hload. cbn [bind].
  set (c := set_frames c0 _ _ _ _).
  (* poses *)
  assert (Hposes : exists p, Geometry.poses_of c = Ok p).
  { unfold Geometry.poses_of.
    destruct fs as [| f0 fs']; [congruence |].
    destruct (@pose_pipeline (default_elevation_degs c)
                (default_azimuth_degs c) (default_camera_distances c))
      as (positions & Hcp & _ & Hc2w & Hnth);
      try (unfold c; cbn; rewrite ?length_map;
           first [reflexivity | discriminate | exact H3]).
    rewrite Hcp. cbn [bind].
    specialize (Hnth 0%nat _ _ _ eq_refl eq_refl eq_refl).
    destruct positions as [| p0 rest]; [discriminate Hnth |].
    rewrite getitem_first. cbn [bind]. rewrite Hc2w. cbn [bind].
    eexists. reflexivity. }
  destruct Hposes as (p & ->). cbn [bind].
  replace (Resolution.tiers_of c) with (Resolution.tiers_of c0)
    by (symmetry; apply tiers_of_set_frames).
  rewrite Ht. cbn [bind].
  destruct (@tiers_of_shape _ _ _ _ _ Ht) as [Hhs Hws].
  destruct hs as [| h0 hs']; [congruence |].
  destruct ws as [| w0 ws']; [discriminate Hws |].
  simpl in Hh0. cbn [combine map]. rewrite !getitem_first. cbn [bind].
  match goal with
  | |- exists s, bind (Dataset.set_rays w ?s0) _ = _ =>
      destruct (@set_rays_runs w s0 Hh0) as (s1 & Hs1);
      rewrite Hs1; cbn [bind];
      destruct (@set_rays_inv _ _ _ Hs1) as (rdata & Hs1eq)
  end.
  destruct (@load_images_runs w s1 Hex) as (s2 & ->).
  { rewrite Hs1eq. cbn. destruct fs; [congruence | discriminate]. }
  cbn [bind]. eexists. reflexivity.
Qed.

(** ** Validation of the tiers *)

Lemma setup_raises_on_bad_tiers (w : World) (c0 : Config)
    (split : String.string) (e : PyError) :
  Resolution.tiers_of c0 = Err e -> raises (Dataset.setup w c0 split).
Proof.
  intros Ht. unfold Dataset.setup.
  destruct (Loader.load_transform w c0) as [c | e1] eqn:Hload;
    [cbn [bind] | exists e1; reflexivity].
  destruct (Geometry.poses_of c) as [p | e2];
    [cbn [bind] | exists e2; reflexivity].
  destruct (@load_transform_set_frames _ _ _ Hload) as (pp & el & a & d & ->).
  rewrite tiers_of_set_frames, Ht. exists e. reflexivity.
Qed.

(** C8.  With more than one height configured, [setup] accepts the tiers
    exactly when heights and widths pair up and their number is the number
    of milestones plus one, and then schedules on [-1] followed by the
    milestones; in every other case with more than one height the tier
    check raises [AssertionError] and [setup] fails.  With exactly one
    height and one width the tier check never fails: the milestone list
    becomes [[-1]], and configured milestones only cause the warning;
    [setup] then returns whenever the manifest, the files and the height
    let it, with the milestone list [[-1]] and the warning in its log. *)
Theorem tier_count_validation :
  forall (c : Config),
    let hs := Resolution.as_list (cfg_height c) in
    let ws := Resolution.as_list (cfg_width c) in
    let ms := cfg_resolution_milestones c in
    ((1 < length hs)%nat ->
       (length hs = length ws -> length hs = (length ms + 1)%nat ->
          Resolution.tiers_of c = Ok (hs, ws, (-1)%Z :: ms, [])) /\
       (length hs <> (length ms + 1)%nat ->
          Resolution.tiers_of c = Err AssertionError /\
          forall w split, raises (Dataset.setup w c split))) /\
    (length hs = 1%nat -> length ws = 1%nat ->
       Resolution.tiers_of c =
         Ok (hs, ws, [(-1)%Z],
             match ms with [] => [] | _ :: _ => [WarnIgnoringMilestones] end) /\
       (forall w split s,
          Dataset.setup w c split = Ok s ->
          resolution_milestones (tiers s) = [(-1)%Z] /\
          (ms <> [] -> In WarnIgnoringMilestones (log s))) /\
       (forall w split fs,
          json_load w (Loader.resolve w (transform_fp c))
            = Ok (mkMeta (Some fs)) ->
          Forall frame_complete fs ->
          fs <> [] -> length fs <> 3%nat ->
          Forall (fun f => 0 < frame_distance f) fs ->
          (forall p, path_exists w p = true) ->
          nth 0 hs 0%Z <> 0%Z ->
          exists s,
            Dataset.setup w c split = Ok s /\
            resolution_milestones (tiers s) = [(-1)%Z] /\
            (ms <> [] -> In WarnIgnoringMilestones (log s)))).
Proof.
  intros c hs ws ms. split.
  - intros Hmany. split.
    + intros Hpair Hcount. unfold Resolution.tiers_of. fold hs ws ms.
      rewrite <- Hpair, Nat.eqb_refl. cbn [py_assert bind].
      destruct (Nat.eqb_spec (length hs) 1); [lia |]. cbn [andb].
      rewrite Hcount, Nat.eqb_refl. reflexivity.
    + intros Hcount.
      assert (Ht : Resolution.tiers_of c = Err AssertionError).
      { unfold Resolution.tiers_of. fold hs ws ms.
        destruct (Nat.eqb_spec (length hs) (length ws)); [| reflexivity].
        cbn [py_assert bind].
        destruct (Nat.eqb_spec (length hs) 1); [lia |]. cbn [andb].
        destruct (Nat.eqb_spec (length hs) (length ms + 1)); [lia |].
        reflexivity. }
      split; [exact Ht |]. intros w split.
      apply setup_raises_on_bad_tiers with (e := AssertionError). exact Ht.
  - intros Hh Hw.
    assert (Ht : Resolution.tiers_of c =
      Ok (hs, ws, [(-1)%Z],
          match ms with [] => [] | _ :: _ => [WarnIgnoringMilestones] end)).
    { unfold Resolution.tiers_of. fold hs ws ms.
      rewrite Hh, Hw. cbn [Nat.eqb py_assert bind andb].
      destruct ms; reflexivity. }
    assert (Hinv : forall w split s,
      Dataset.setup w c split = Ok s ->
      resolution_milestones (tiers s) = [(-1)%Z] /\
      (ms <> [] -> In WarnIgnoringMilestones (log s))).
    { intros w split s Hs.
      destruct (@setup_inv _ _ _ _ Hs)
        as (c' & p & hs' & ws' & ms' & warned & dirs & wd & ht & _ & _ & Ht'
            & _ & _ & _ & _ & Hms & _ & Hlog).
      rewrite Ht in Ht'. injection Ht' as <- <- <- <-.
      split; [exact Hms |]. intros Hne. rewrite Hlog.
      apply in_or_app. left. destruct ms; [congruence | now left]. }
    split; [exact Ht |]. split; [exact Hinv |].
    intros w split fs Hjson Hfs Hne H3 Hpos Hex Hh0.
    destruct (@setup_runs w c split fs _ _ _ _ Hjson Hfs Hne H3 Hpos Hex Ht Hh0)
      as (s & Hs).
    exists s. split; [exact Hs |]. apply (Hinv w split s Hs).
Qed.

Lemma tier_count_validation_witness :
  (exists s,
     Dataset.setup (sample_world_with two_frames)
       (sample_config (AnInt 64) (AnInt 64) [100%Z] false false)
       "train"%string
       = Ok s /\
     resolution_milestones (tiers s) = [(-1)%Z] /\
     In WarnIgnoringMilestones (log s)) /\
  Resolution.tiers_of
    (sample_config (AList [64; 128]%Z) (AList [64; 128]%Z) [] false false)
    = Err AssertionError.
Proof.
  split.
  - assert (Hfs : Forall frame_complete two_frames).
    { repeat constructor; eexists _, _, _, _, _; reflexivity. }
    assert (Hpos : Forall (fun f => 0 < frame_distance f) two_frames).
    { repeat constructor; cbn; lra. }
    assert (Hne : two_frames <> []) by discriminate.
    assert (H3 : length two_frames <> 3%nat) by (simpl; lia).
    assert (Hh : nth 0 [64%Z] 0%Z <> 0%Z) by (simpl; lia).
    destruct (proj2 (proj2 (proj2 (tier_count_validation
                (sample_config (AnInt 64) (AnInt 64) [100%Z] false false))
                eq_refl eq_refl))
                (sample_world_with two_frames) "train"%string two_frames
                eq_refl Hfs Hne H3 Hpos (fun _ => eq_refl) Hh)
      as (s & Hs & Hms & Hwarn).
    exists s. split; [exact Hs |]. split; [exact Hms |].
    apply Hwarn. discriminate.
  - refine (proj1 (proj2 (proj1 (tier_count_validation
             (sample_config (AList [64; 128]%Z) (AList [64; 128]%Z) []
                false false)) _) _)); simpl; lia.
Defined.

(** ** The step-update hook *)

Lemma with_height_same (s : State) : with_height s (height s) = s.
Proof. destruct s; reflexivity. Qed.

Lemma update_same_height (w : World) (s : State) (epoch g : Z) (b : bool)
    (h : Z) :
  PyList.getitem (heights (tiers s))
    (Resolution.size_ind (resolution_milestones (tiers s)) g) = Ok h ->
  h = prev_height s ->
  Dataset.update_step_ w s epoch g b = Ok (with_height s h).
Proof.
  intros Hh Heq. unfold Dataset.update_step_, Dataset.select_tier. cbv zeta. rewrite Hh.
  cbn [bind]. replace (prev_height (with_height s h)) with (prev_height s)
    by reflexivity.
  rewrite <- Heq, Z.eqb_refl. reflexivity.
Qed.

Lemma update_new_height (w : World) (s s' : State) (epoch g : Z) (b : bool)
    (h : Z) :
  PyList.getitem (heights (tiers s))
    (Resolution.size_ind (resolution_milestones (tiers s)) g) = Ok h ->
  h <> prev_height s ->
  Dataset.update_step_ w s epoch g b = Ok s' ->
  exists wd directions,
    PyList.getitem (widths (tiers s))
      (Resolution.size_ind (resolution_milestones (tiers s)) g) = Ok wd /\
    log s' = log s ++ [DebugTraining h wd; GetRays directions; LoadImages wd h] /\
    tiers s' = tiers s /\
    height s' = h /\ width s' = wd /\ prev_height s' = h.
Proof.
  intros Hh Hne H. unfold Dataset.update_step_, Dataset.select_tier in H. cbv zeta in H.
  rewrite Hh in H. cbn [bind] in H.
  replace (prev_height (with_height s h)) with (prev_height s) in H
    by reflexivity.
  destruct (Z.eqb_spec h (prev_height s)); [contradiction |].
  replace (widths (tiers (with_height s h))) with (widths (tiers s)) in H
    by reflexivity.
  destruct (PyList.getitem (widths (tiers s)) _) as [wd |] eqn:Hw;
    [cbn [bind] in H | discriminate H].
  inv_bind H.
  match goal with
  | Hr : Dataset.set_rays _ _ = Ok ?s1 |- _ =>
      destruct (@set_rays_inv _ _ _ Hr) as (rdata & Hs1)
  end.
  destruct (@load_images_inv _ _ _ H) as (idata & Hs2 & _).
  subst. exists wd. eexists. split; [reflexivity |].
  cbn. repeat split. rewrite <- !app_assoc. reflexivity.
Qed.

(** What the loop of [load_images] collects: one read per path, at the
    given width and height. *)
Lemma load_loop_reads (w : World) (c : Config) (wd ht : Z)
    (paths : list String.string) :
  forall acc acc',
    Dataset.load_loop w c wd ht acc paths = Ok acc' ->
    Dataset.rgbs acc'
      = Dataset.rgbs acc ++ map (fun p => read_rgb w p wd ht) paths /\
    Dataset.masks acc'
      = Dataset.masks acc ++ map (fun p => read_mask w p wd ht) paths /\
    (requires_depth c = true ->
     Dataset.depths acc'
       = Dataset.depths acc ++
         map (fun p =>
                read_plain w
                  (PyStr.replace "_rgba.png"%string "_depth.png"%string p)
                  wd ht) paths) /\
    (requires_normal c = true ->
     Dataset.normals acc'
       = Dataset.normals acc ++
         map (fun p =>
                read_plain w
                  (PyStr.replace "_rgba.png"%string "_normal.png"%string p)
                  wd ht) paths).
Proof.
  induction paths as [| p paths IH]; intros acc acc' H; simpl in H.
  - injection H as <-. simpl map. rewrite !app_nil_r.
    repeat split; intros; reflexivity.
  - destruct (Dataset.load_one w c wd ht acc p) as [acc1 |] eqn:Hone;
      [cbn [bind] in H | discriminate H].
    destruct (IH _ _ H) as (H1 & H2 & H3 & H4).
    unfold Dataset.load_one in Hone.
    destruct (py_assert (path_exists w p)); [| discriminate Hone].
    cbn [bind] in Hone.
    destruct (requires_depth c) eqn:Hd, (requires_normal c) eqn:Hn;
      repeat match type of Hone with
             | context [py_assert ?b] =>
                 destruct (py_assert b); [cbn [bind] in Hone | discriminate Hone]
             end;
      cbn [bind] in Hone; injection Hone as <-;
      cbn [Dataset.rgbs Dataset.masks Dataset.depths Dataset.normals] in *;
      simpl map; rewrite H1, H2, <- ?app_assoc;
      (split; [reflexivity |]); (split; [reflexivity |]);
      split; intros Hq; try discriminate Hq;
      try (rewrite (H3 eq_refl)); try (rewrite (H4 eq_refl));
      rewrite <- app_assoc; reflexivity.
Qed.

(** What [load_images] leaves in the image fields: the stack of the files
    read at the width and height of the object. *)
Lemma load_images_reads (w : World) (s s' : State) :
  Dataset.load_images w s = Ok s' ->
  let paths := image_paths (cfg s) in
  Tensor.stack (map (fun p => read_rgb w p (width s) (height s)) paths)
    = Ok (rgb (images s')) /\
  Tensor.stack (map (fun p => read_mask w p (width s) (height s)) paths)
    = Ok (mask (images s')) /\
  (requires_depth (cfg s) = true ->
   exists d,
     depth (images s') = Some d /\
     Tensor.stack
       (map (fun p =>
               read_plain w
                 (PyStr.replace "_rgba.png"%string "_depth.png"%string p)
                 (width s) (height s)) paths) = Ok d) /\
  (requires_normal (cfg s) = true ->
   exists n,
     normal (images s') = Some n /\
     Tensor.stack
       (map (fun p =>
               read_plain w
                 (PyStr.replace "_rgba.png"%string "_normal.png"%string p)
                 (width s) (height s)) paths) = Ok n).
Proof.
  intros H paths. unfold Dataset.load_images in H. cbv zeta in H.
  destruct (Dataset.load_loop w (cfg s) (width s) (height s) _ _)
    as [acc |] eqn:Hloop; [cbn [bind] in H | discriminate H].
  destruct (load_loop_reads _ _ _ _ _ _ Hloop) as (L1 & L2 & L3 & L4).
  cbn [Dataset.rgbs Dataset.masks Dataset.depths Dataset.normals app]
    in L1, L2, L3, L4.
  fold paths in L1, L2, L3, L4. rewrite L1, L2 in H.
  destruct (Tensor.stack (map (fun p => read_rgb w p (width s) (height s))
                            paths)) as [t1 |] eqn:S1;
    [cbn [bind] in H | discriminate H].
  destruct (Tensor.stack (map (fun p => read_mask w p (width s) (height s))
                            paths)) as [t2 |] eqn:S2;
    [cbn [bind] in H | discriminate H].
  destruct (requires_depth (cfg s)) eqn:Hd.
  - rewrite (L3 eq_refl) in H.
    destruct (Tensor.stack
                (map (fun p =>
                        read_plain w
                          (PyStr.replace "_rgba.png"%string
                             "_depth.png"%string p) (width s) (height s))
                     paths)) as [t3 |] eqn:S3;
      [cbn [bind] in H | discriminate H].
    destruct (requires_normal (cfg s)) eqn:Hnm.
    + rewrite (L4 eq_refl) in H.
      destruct (Tensor.stack
                  (map (fun p =>
                          read_plain w
                            (PyStr.replace "_rgba.png"%string
                               "_normal.png"%string p) (width s) (height s))
                       paths)) as [t4 |] eqn:S4;
        [cbn [bind] in H | discriminate H].
      injection H as <-. cbn.
      split; [reflexivity |]. split; [reflexivity |].
      split; intros _; eexists; split; reflexivity.
    + cbn [bind] in H. injection H as <-. cbn.
      split; [reflexivity |]. split; [reflexivity |].
      split; [intros _; eexists; split; reflexivity | discriminate].
  - cbn [bind] in H. destruct (requires_normal (cfg s)) eqn:Hnm.
    + rewrite (L4 eq_refl) in H.
      destruct (Tensor.stack
                  (map (fun p =>
                          read_plain w
                            (PyStr.replace "_rgba.png"%string
                               "_normal.png"%string p) (width s) (height s))
                       paths)) as [t4 |] eqn:S4;
        [cbn [bind] in H | discriminate H].
      injection H as <-. cbn.
      split; [reflexivity |]. split; [reflexivity |].
      split; [discriminate | intros _; eexists; split; reflexivity].
    + cbn [bind] in H. injection H as <-. cbn.
      split; [reflexivity |]. split; [reflexivity |].
      split; discriminate.
Qed.

(** What [set_rays] leaves in the object. *)
Lemma set_rays_state (w : World) (s s' : State) :
  Dataset.set_rays w s = Ok s' ->
  let directions :=
    Dataset.rescale_grid (focal_length s)
      (nth (directions_unit_focal s) (directions_unit_focals s) []) in
  let drawn := get_rays w directions (c2w (poses s))
                 (rays_noise_scale (cfg s)) in
  s' = emit (with_rays s
               (Dataset.store (directions_unit_focal s) directions
                  (directions_unit_focals s))
               (mkRayData (fst drawn) (snd drawn)
                  (get_mvp_matrix w (c2w (poses s))
                     (get_projection_matrix w (fovy (poses s))
                        (IZR (width s) / IZR (height s)) (1 / 10) 100))))
            (GetRays directions).
Proof.
  unfold Dataset.set_rays. intros H. cbv zeta in H. cbv zeta.
  destruct (get_rays w _ _ _) as [ro rd].
  unfold Dataset.int_div in H.
  destruct (height s =? 0)%Z; [discriminate H |].
  cbn [bind] in H. injection H as <-. reflexivity.
Qed.

(** The hook on a tier of another height: the four reads, then [set_rays]
    and [load_images] on the object switched to the selected tier. *)
Lemma update_new_stages (w : World) (s s' : State) (epoch g : Z) (b : bool)
    (h : Z) :
  PyList.getitem (heights (tiers s))
    (Resolution.size_ind (resolution_milestones (tiers s)) g) = Ok h ->
  h <> prev_height s ->
  Dataset.update_step_ w s epoch g b = Ok s' ->
  exists wd alias fl s4,
    PyList.getitem (widths (tiers s))
      (Resolution.size_ind (resolution_milestones (tiers s)) g) = Ok wd /\
    PyList.position (length (directions_unit_focals s))
      (Resolution.size_ind (resolution_milestones (tiers s)) g) = Ok alias /\
    PyList.getitem (focal_lengths (tiers s))
      (Resolution.size_ind (resolution_milestones (tiers s)) g) = Ok fl /\
    Dataset.set_rays w
      (emit (with_tier (with_height s h) h wd alias fl) (DebugTraining h wd))
      = Ok s4 /\
    Dataset.load_images w s4 = Ok s'.
Proof.
  intros Hh Hne H.
  unfold Dataset.update_step_, Dataset.select_tier in H. cbv zeta in H.
  rewrite Hh in H. cbn [bind] in H.
  change (prev_height (with_height s h)) with (prev_height s) in H.
  destruct (Z.eqb_spec h (prev_height s)); [contradiction |].
  change (widths (tiers (with_height s h))) with (widths (tiers s)) in H.
  change (focal_lengths (tiers (with_height s h)))
    with (focal_lengths (tiers s)) in H.
  change (directions_unit_focals (with_height s h))
    with (directions_unit_focals s) in H.
  destruct (PyList.getitem (widths (tiers s)) _) as [wd |] eqn:Hw;
    [cbn [bind] in H | discriminate H].
  destruct (PyList.position (length (directions_unit_focals s)) _)
    as [alias |] eqn:Ha; [cbn [bind] in H | discriminate H].
  destruct (PyList.getitem (focal_lengths (tiers s)) _) as [fl |] eqn:Hf;
    [cbn [bind] in H | discriminate H].
  destruct (Dataset.set_rays w _) as [s4 |] eqn:Hs4;
    [cbn [bind] in H | discriminate H].
  exists wd, alias, fl, s4. repeat split; try reflexivity; assumption.
Qed.

(** C4, as the code has it.  The hook compares heights only.  When the
    height of the selected tier equals the height of the last tier built,
    the call builds no rays and loads no images: nothing but the height
    field is assigned, and an object on which height and previous height
    already agree is returned as it was, whatever the selected tier's
    width is.  When the height differs, a call that returns has switched
    the object to the selected tier (height, width, cached grid, focal
    length), has logged the new size, has built the rays once from the
    grid of that tier divided by its focal length, with the projection at
    the new aspect ratio, and has loaded every image once at the selected
    tier's width and height.  A second call with the same step returns the
    object unchanged. *)
Theorem step_update_keyed_on_height :
  forall (w : World) (s : State) (epoch g : Z) (b : bool) (h : Z),
    PyList.getitem (heights (tiers s))
      (Resolution.size_ind (resolution_milestones (tiers s)) g) = Ok h ->
    (h = prev_height s ->
       exists s',
         Dataset.update_step_ w s epoch g b = Ok s' /\
         log s' = log s /\ rays s' = rays s /\ images s' = images s /\
         directions_unit_focals s' = directions_unit_focals s /\
         width s' = width s /\
         (height s = prev_height s -> s' = s)) /\
    (h <> prev_height s ->
       forall s',
         Dataset.update_step_ w s epoch g b = Ok s' ->
         exists wd alias fl directions drawn,
           PyList.getitem (widths (tiers s))
             (Resolution.size_ind (resolution_milestones (tiers s)) g)
             = Ok wd /\
           PyList.position (length (directions_unit_focals s))
             (Resolution.size_ind (resolution_milestones (tiers s)) g)
             = Ok alias /\
           PyList.getitem (focal_lengths (tiers s))
             (Resolution.size_ind (resolution_milestones (tiers s)) g)
             = Ok fl /\
           directions
             = Dataset.rescale_grid fl
                 (nth alias (directions_unit_focals s) []) /\
           drawn = get_rays w directions (c2w (poses s))
                     (rays_noise_scale (cfg s)) /\
           log s' = log s ++ [DebugTraining h wd; GetRays directions;
                              LoadImages wd h] /\
           height s' = h /\ width s' = wd /\ prev_height s' = h /\
           directions_unit_focal s' = alias /\ focal_length s' = fl /\
           directions_unit_focals s'
             = Dataset.store alias directions (directions_unit_focals s) /\
           rays s'
             = mkRayData (fst drawn) (snd drawn)
                 (get_mvp_matrix w (c2w (poses s))
                    (get_projection_matrix w (fovy (poses s))
                       (IZR wd / IZR h) (1 / 10) 100)) /\
           Tensor.stack
             (map (fun p => read_rgb w p wd h) (image_paths (cfg s)))
             = Ok (rgb (images s')) /\
           Tensor.stack
             (map (fun p => read_mask w p wd h) (image_paths (cfg s)))
             = Ok (mask (images s')) /\
           (requires_depth (cfg s) = true ->
            exists d,
              depth (images s') = Some d /\
              Tensor.stack
                (map (fun p =>
                        read_plain w
                          (PyStr.replace "_rgba.png"%string
                             "_depth.png"%string p) wd h)
                     (image_paths (cfg s))) = Ok d) /\
           (requires_normal (cfg s) = true ->
            exists n,
              normal (images s') = Some n /\
              Tensor.stack
                (map (fun p =>
                        read_plain w
                          (PyStr.replace "_rgba.png"%string
                             "_normal.png"%string p) wd h)
                     (image_paths (cfg s))) = Ok n)) /\
    (forall s',
       Dataset.update_step_ w s epoch g b = Ok s' ->
       Dataset.update_step_ w s' epoch g b = Ok s').
Proof.
  intros w s epoch g b h Hh. split; [| split].
  - intros Heq. exists (with_height s h).
    split; [apply update_same_height; assumption |].
    repeat split. intros Hinv. rewrite Heq, <- Hinv. apply with_height_same.
  - intros Hne s' Hrun.
    destruct (@update_new_stages _ _ _ _ _ _ _ Hh Hne Hrun)
      as (wd & alias & fl & s4 & Hw & Ha & Hf & Hrays & Himg).
    pose proof (@set_rays_state _ _ _ Hrays) as Hs4. cbv zeta in Hs4.
    cbn [focal_length directions_unit_focal directions_unit_focals poses cfg
         width height emit with_tier with_height] in Hs4.
    destruct (@load_images_inv _ _ _ Himg) as (idata & Hs' & _).
    destruct (@load_images_reads _ _ _ Himg) as (R1 & R2 & R3 & R4).
    cbv zeta in R1, R2, R3, R4.
    clear Hrun Himg Hrays. subst s4. subst s'.
    cbn [cfg width height images log prev_height directions_unit_focal
         focal_length directions_unit_focals rays emit with_images with_rays
         with_tier with_height] in R1, R2, R3, R4 |- *.
    exists wd, alias, fl. eexists. eexists.
    split; [exact Hw |]. split; [exact Ha |]. split; [exact Hf |].
    split; [reflexivity |]. split; [reflexivity |].
    split; [rewrite <- !app_assoc; reflexivity |].
    do 7 (split; [reflexivity |]).
    split; [exact R1 |]. split; [exact R2 |]. split; [exact R3 | exact R4].
  - intros s' Hrun.
    assert (Hstate : tiers s' = tiers s /\ height s' = h /\ prev_height s' = h).
    { destruct (Z.eq_dec h (prev_height s)) as [Heq | Hne].
      - rewrite (@update_same_height w s epoch g b h Hh Heq) in Hrun.
        injection Hrun as <-. cbn. auto.
      - destruct (@update_new_height _ _ _ _ _ _ _ Hh Hne Hrun)
          as (wd & dirs & _ & _ & Ht & Hht & _ & Hprev). auto. }
    destruct Hstate as (Ht & Hht & Hprev).
    rewrite (@update_same_height w s' epoch g b h);
      [rewrite <- Hht; f_equal; apply with_height_same
      | rewrite Ht; exact Hh | congruence].
Qed.

Lemma sample_setup_runs (h w : IntOrList) (ms : list Z) (hs ws ms' : list Z)
    (warned : list Event) :
  Resolution.tiers_of (sample_config h w ms false false)
    = Ok (hs, ws, ms', warned) ->
  nth 0 hs 0%Z <> 0%Z ->
  exists s,
    Dataset.setup (sample_world_with two_frames)
      (sample_config h w ms false false) "train"%string = Ok s.
Proof.
  intros Ht Hh.
  assert (Hfs : Forall frame_complete two_frames).
  { repeat constructor; eexists _, _, _, _, _; reflexivity. }
  assert (Hpos : Forall (fun f => 0 < frame_distance f) two_frames).
  { repeat constructor; cbn; lra. }
  assert (Hne : two_frames <> []) by discriminate.
  assert (H3 : length two_frames <> 3%nat) by (simpl; lia).
  apply (@setup_runs (sample_world_with two_frames)
           (sample_config h w ms false false) "train"%string two_frames
           hs ws ms' warned eq_refl Hfs Hne H3 Hpos (fun _ => eq_refl) Ht Hh).
Qed.

(** Tiers 64x64 and 64x128, the second from step 100 on.  After [setup]
    the object stands on 64x64.  At step 100 the second tier is selected,
    its resolution differs from the one in use, and the hook returns the
    object as it was: no rays built, no images loaded, width still 64. *)
Lemma width_only_change_not_reloaded :
  exists s,
    Dataset.setup (sample_world_with two_frames)
      (sample_config (AList [64; 64]%Z) (AList [64; 128]%Z) [100%Z]
         false false) "train"%string = Ok s /\
    height s = 64%Z /\ width s = 64%Z /\
    Resolution.size_ind (resolution_milestones (tiers s)) 100 = 1%Z /\
    PyList.getitem (heights (tiers s)) 1 = Ok 64%Z /\
    PyList.getitem (widths (tiers s)) 1 = Ok 128%Z /\
    Dataset.update_step_ (sample_world_with two_frames) s 0 100 false = Ok s.
Proof.
  assert (Ht : Resolution.tiers_of
                 (sample_config (AList [64; 64]%Z) (AList [64; 128]%Z)
                    [100%Z] false false)
               = Ok ([64; 64]%Z, [64; 128]%Z, [-1; 100]%Z, []))
    by reflexivity.
  destruct (@sample_setup_runs _ _ _ _ _ _ _ Ht) as (s & Hs);
    [simpl; lia |].
  destruct (@setup_first_tier _ _ _ _ Hs)
    as (hs & ws & ms & warned & Ht' & Htiers & Hh & Hw & Hprev & _).
  rewrite Ht in Ht'. injection Ht' as <- <- <- <-.
  rewrite getitem_first in Hh, Hw. injection Hh as Hh. injection Hw as Hw.
  exists s. split; [exact Hs |]. rewrite Htiers.
  cbn [heights widths resolution_milestones].
  split; [congruence |]. split; [congruence |].
  split; [reflexivity |]. split; [reflexivity |]. split; [reflexivity |].
  rewrite (@update_same_height _ s 0 100 false 64%Z).
  - rewrite Hh. f_equal. apply with_height_same.
  - rewrite Htiers. reflexivity.
  - congruence.
Qed.

(** ** The cached direction grids *)

Lemma store_nth {A : Type} (i : nat) (v d : A) (l : list A) :
  (i < length l)%nat -> nth i (Dataset.store i v l) d = v.
Proof.
  revert i. induction l as [| x l IH]; intros [| i] Hi; simpl in *;
    try lia; [reflexivity | apply IH; lia].
Qed.

(** One call of [set_rays] leaves the rescaled grid in the cache; the next
    call on the same tier starts from it. *)
Lemma set_rays_overwrites_cache (w : World) (s s1 : State) :
  Dataset.set_rays w s = Ok s1 ->
  (directions_unit_focal s < length (directions_unit_focals s))%nat ->
  nth (directions_unit_focal s1) (directions_unit_focals s1) []
    = Dataset.rescale_grid (focal_length s)
        (nth (directions_unit_focal s) (directions_unit_focals s) []) /\
  focal_length s1 = focal_length s.
Proof.
  intros Hrun Hi. destruct (@set_rays_inv _ _ _ Hrun) as (r & ->).
  cbn. split; [apply store_nth; assumption | reflexivity].
Qed.

Lemma update_step_at (w : World) (s : State) (epoch g : Z) (b : bool) (i : Z) :
  Resolution.size_ind (resolution_milestones (tiers s)) g = i ->
  Dataset.update_step_ w s epoch g b = Dataset.select_tier w s i.
Proof. intros <-. reflexivity. Qed.

(** The hook on a tier whose height is new, once its four reads are
    known. *)
Lemma select_tier_new (w : World) (s : State) (i h wd : Z) (alias : nat)
    (fl : R) :
  PyList.getitem (heights (tiers s)) i = Ok h ->
  (h =? prev_height s)%Z = false ->
  PyList.getitem (widths (tiers s)) i = Ok wd ->
  PyList.position (length (directions_unit_focals s)) i = Ok alias ->
  PyList.getitem (focal_lengths (tiers s)) i = Ok fl ->
  Dataset.select_tier w s i =
    (s4 <- Dataset.set_rays w
             (emit (with_tier (with_height s h) h wd alias fl)
                   (DebugTraining h wd)) ;;
     Dataset.load_images w s4).
Proof.
  intros Hh Hne Hw Ha Hf. unfold Dataset.select_tier. cbv zeta.
  rewrite Hh. cbn [bind].
  change (prev_height (with_height s h)) with (prev_height s). rewrite Hne.
  change (widths (tiers (with_height s h))) with (widths (tiers s)).
  rewrite Hw. cbn [bind].
  change (directions_unit_focals (with_height s h))
    with (directions_unit_focals s).
  rewrite Ha. cbn [bind].
  change (focal_lengths (tiers (with_height s h)))
    with (focal_lengths (tiers s)).
  rewrite Hf. cbn [bind]. reflexivity.
Qed.

Ltac step_at i :=
  match goal with
  | |- Dataset.update_step_ ?w ?s ?e ?g ?b = _ =>
      rewrite (@update_step_at w s e g b i eq_refl)
  end.

Ltac tier_at h wd alias fl :=
  match goal with
  | |- Dataset.select_tier ?w ?s ?i = _ =>
      rewrite (@select_tier_new w s i h wd alias fl
                 eq_refl eq_refl eq_refl eq_refl eq_refl)
  end.

Ltac run_state := cbv -[Rdiv IZR Ropp]; reflexivity.

Lemma step_update_keyed_on_height_witness :
  (exists s',
     Dataset.update_step_ sample_world (sample_state 128 128 2) 0 50 false
       = Ok s' /\
     log s' = log (sample_state 128 128 2)) /\
  (exists s',
     Dataset.update_step_ sample_world (sample_state 128 128 2) 0 100 false
       = Ok s' /\
     height s' = 128%Z /\ width s' = 128%Z /\
     directions_unit_focal s' = 1%nat /\ focal_length s' = 2).
Proof.
  split.
  - destruct (proj1 (@step_update_keyed_on_height sample_world
                       (sample_state 128 128 2) 0 50 false 64%Z eq_refl)
                eq_refl) as (s' & Hrun & Hlog & _).
    exists s'. split; assumption.
  - eexists.
    assert (Hrun : Dataset.update_step_ sample_world (sample_state 128 128 2)
                     0 100 false = Ok _)
      by (step_at 1%Z; tier_at 128%Z 128%Z 1%nat 2; run_state).
    split; [exact Hrun |].
    destruct (proj1 (proj2 (@step_update_keyed_on_height sample_world
                              (sample_state 128 128 2) 0 100 false 128%Z
                              eq_refl))
                ltac:(discriminate) _ Hrun)
      as (wd & alias & fl & dirs & drawn & Hw & Ha & Hf & _ & _ & _ &
          Hht & Hwd & _ & Hal & Hfl & _).
    injection Hw as <-. injection Ha as <-. injection Hf as <-.
    repeat split; assumption.
Defined.

Lemma poses_of_fovy (c : Config) (p : Poses) :
  Geometry.poses_of c = Ok p -> fovy p = Torch.deg2rad (default_fovy_deg c).
Proof.
  unfold Geometry.poses_of. intros H. inv_bind H. injection H as <-.
  reflexivity.
Qed.

(** The focal length of a 64-pixel-high tier at the default 60 degrees. *)
Lemma focal_of_64_at_60 :
  Resolution.focal_of (Torch.deg2rad 60) 64 = 32 * sqrt 3.
Proof.
  assert (Hs : 0 < sqrt 3) by (apply sqrt_lt_R0; lra).
  unfold Resolution.focal_of, Torch.deg2rad.
  replace (5 / 10 * (60 * PI / 180)) with (PI / 6) by field.
  rewrite tan_PI6. field. lra.
Qed.

Lemma focal_64_not_one : 1 / (32 * sqrt 3) <> 1.
Proof.
  assert (Hs : 1 <= sqrt 3).
  { rewrite <- sqrt_1 at 1. apply sqrt_le_1_alt. lra. }
  intros H. apply (f_equal (fun x => x * (32 * sqrt 3))) in H.
  unfold Rdiv in H. rewrite Rmult_assoc, Rinv_l in H by lra. lra.
Qed.

(** C3 on the code.  First, [setup] alone: with the default field of view
    of 60 degrees and a first tier of 64x64 the focal length is
    [32 * sqrt 3], and the cached grid of that tier, built as the one-pixel
    grid [(1, 1, -1)], is left holding that pixel divided by the focal
    length.  Second, two constructions on one tier: on an object with two
    tiers, cached one-pixel grids [(1, 1, -1)] and focal length 2 on both,
    the steps 100, 0, 100 build the rays of the second tier twice with the
    same focal length; the first time [get_rays] receives [(1/2, 1/2, -1)],
    the second time [(1/2/2, 1/2/2, -1)]. *)
Theorem cached_directions_rescaled_in_place :
  (exists s,
     Dataset.setup (sample_world_with two_frames)
       (sample_config (AList [64; 128]%Z) (AList [64; 128]%Z) [100%Z]
          false false) "train"%string = Ok s /\
     get_ray_directions (sample_world_with two_frames) 64 64
       = [[mkVec3 1 1 (-1)]] /\
     focal_length s = 32 * sqrt 3 /\
     nth 0 (directions_unit_focals s) []
       = [[mkVec3 (1 / (32 * sqrt 3)) (1 / (32 * sqrt 3)) (-1)]] /\
     1 / (32 * sqrt 3) <> 1) /\
  (exists s1 s2 s3,
     Dataset.update_step_ sample_world (sample_state 128 128 2) 0 100 false
       = Ok s1 /\
     Dataset.update_step_ sample_world s1 0 0 false = Ok s2 /\
     Dataset.update_step_ sample_world s2 0 100 false = Ok s3 /\
     nth 1 (directions_unit_focals (sample_state 128 128 2)) []
       = [[mkVec3 1 1 (-1)]] /\
     nth 1 (directions_unit_focals s1) [] = [[mkVec3 (1 / 2) (1 / 2) (-1)]] /\
     focal_length s1 = 2 /\ focal_length s3 = 2 /\
     log s1 = [ DebugTraining 128 128;
                GetRays [[mkVec3 (1 / 2) (1 / 2) (-1)]];
                LoadImages 128 128 ] /\
     log s3 = log s1 ++
              [ DebugTraining 64 64;
                GetRays [[mkVec3 (1 / 2) (1 / 2) (-1)]];
                LoadImages 64 64;
                DebugTraining 128 128;
                GetRays [[mkVec3 (1 / 2 / 2) (1 / 2 / 2) (-1)]];
                LoadImages 128 128 ] /\
     1 / 2 / 2 <> 1 / 2).
Proof.
  split.
  - assert (Ht : Resolution.tiers_of
                   (sample_config (AList [64; 128]%Z) (AList [64; 128]%Z)
                      [100%Z] false false)
                 = Ok ([64; 128]%Z, [64; 128]%Z, [-1; 100]%Z, []))
      by reflexivity.
    destruct (@sample_setup_runs _ _ _ _ _ _ _ Ht) as (s & Hs);
      [simpl; lia |].
    destruct (@setup_first_tier _ _ _ _ Hs)
      as (hs & ws & ms & warned & Ht' & _ & _ & _ & _ & _ & Hfl & Hcache).
    rewrite Ht in Ht'. injection Ht' as <- <- <- <-.
    destruct (@setup_inv _ _ _ _ Hs)
      as (c & p & _ & _ & _ & _ & _ & _ & _ & Hload & Hposes & _ & _ & Hp & _).
    destruct (@load_transform_set_frames _ _ _ Hload) as (pp & e & a & d & Hc).
    assert (Hfovy : fovy (poses s) = Torch.deg2rad 60).
    { rewrite Hp, (@poses_of_fovy _ _ Hposes), Hc. reflexivity. }
    assert (Hfocal : focal_length s = 32 * sqrt 3).
    { rewrite Hfovy in Hfl. cbn [map] in Hfl. rewrite getitem_first in Hfl.
      injection Hfl as <-. apply focal_of_64_at_60. }
    exists s. split; [exact Hs |]. split; [reflexivity |].
    split; [exact Hfocal |]. split; [| exact focal_64_not_one].
    rewrite Hcache, Hfocal. reflexivity.
  - do 3 eexists.
    split; [step_at 1%Z; tier_at 128%Z 128%Z 1%nat 2; run_state |].
    split; [step_at 0%Z; tier_at 64%Z 64%Z 0%nat 2; run_state |].
    split; [step_at 1%Z; tier_at 128%Z 128%Z 1%nat 2; run_state |].
    repeat (split; [reflexivity |]). lra.
Qed.

(** ** The training batch *)

Lemma load_images_paths_nonempty (w : World) (s s' : State) :
  Dataset.load_images w s = Ok s' -> image_paths (cfg s) <> [].
Proof.
  unfold Dataset.load_images. intros H Hnil. cbv zeta in H.
  rewrite Hnil in H. simpl in H. discriminate H.
Qed.

Lemma truth_of_many (d : Tensor) :
  (1 < Tensor.numel d)%nat -> Tensor.truth d = Err RuntimeError.
Proof.
  intros H. unfold Tensor.truth.
  destruct (Tensor.numel d) as [| [| n]]; try lia; reflexivity.
Qed.

Lemma gated_on_none (field : option Tensor) (idx : nat) :
  Collate.gated None field idx = Ok None.
Proof. reflexivity. Qed.

Lemma gated_on_many (d : Tensor) (field : option Tensor) (idx : nat) :
  (1 < Tensor.numel d)%nat ->
  Collate.gated (Some d) field idx = Err RuntimeError.
Proof.
  intros H. unfold Collate.gated, py_not. rewrite truth_of_many by assumption.
  reflexivity.
Qed.

Lemma collate_inv (s : State) (idx : nat) (b : Batch) :
  Collate.collate s idx = Ok b ->
  Collate.gated (depth (images s)) (depth (images s)) idx = Ok (ref_depth b) /\
  Collate.gated (depth (images s)) (normal (images s)) idx
    = Ok (ref_normal b).
Proof.
  unfold Collate.collate. intros H. inv_bind H. injection H as <-.
  cbn [ref_depth ref_normal]. split; reflexivity.
Qed.

Lemma collate_raises (s : State) (idx : nat) (e : PyError) :
  Collate.gated (depth (images s)) (depth (images s)) idx = Err e ->
  raises (Collate.collate s idx).
Proof.
  intros Hg. destruct (Collate.collate s idx) as [b | e'] eqn:Hc.
  - destruct (@collate_inv _ _ _ Hc) as [Hd _]. congruence.
  - exists e'. reflexivity.
Qed.

(** C10.  After [load_images], both reference entries of the batch follow
    the depth field.  Without [requires_depth] the depth field is [None],
    so a batch that [collate] returns has [ref_depth] and [ref_normal] both
    [None], also when [requires_normal] is set and the normals are loaded.
    With [requires_depth] the depth field is a tensor, and when it has more
    than one element the test [not self.depth] raises: neither entry is
    computed and [collate] returns no batch. *)
Theorem collate_gates_on_depth :
  forall (w : World) (s0 s : State),
    Dataset.load_images w s0 = Ok s ->
    (requires_depth (cfg s0) = false ->
       depth (images s) = None /\
       (requires_normal (cfg s0) = true ->
          exists n, normal (images s) = Some n) /\
       forall idx b,
         Collate.collate s idx = Ok b ->
         ref_depth b = None /\ ref_normal b = None) /\
    (requires_depth (cfg s0) = true ->
       exists d,
         depth (images s) = Some d /\
         ((1 < Tensor.numel d)%nat ->
          forall idx,
            Collate.gated (depth (images s)) (depth (images s)) idx
              = Err RuntimeError /\
            Collate.gated (depth (images s)) (normal (images s)) idx
              = Err RuntimeError /\
            raises (Collate.collate s idx))).
Proof.
  intros w s0 s Hload.
  pose proof (@load_images_paths_nonempty _ _ _ Hload) as Hne.
  destruct (@load_images_inv _ _ _ Hload) as (i & -> & Hnone & Hsome & Hnorm).
  cbn [images emit with_images]. split.
  - intros Hrd. specialize (Hnone Hrd Hne).
    split; [exact Hnone |]. split; [exact Hnorm |].
    intros idx b Hc. destruct (@collate_inv _ _ _ Hc) as [Hd Hn].
    cbn [images emit with_images] in Hd, Hn. rewrite Hnone in Hd, Hn.
    rewrite gated_on_none in Hd, Hn. split; congruence.
  - intros Hrd. destruct (Hsome Hrd) as (d & Hd). exists d.
    split; [exact Hd |]. intros Hmany idx. rewrite Hd.
    split; [apply gated_on_many; assumption |].
    split; [apply gated_on_many; assumption |].
    apply collate_raises with (e := RuntimeError).
    cbn [images emit with_images]. rewrite Hd.
    apply gated_on_many; assumption.
Qed.

Lemma collate_gates_on_depth_witness :
  (exists s b,
     Dataset.load_images sample_world (sample_state_with false true 128 128 2)
       = Ok s /\
     (exists n, normal (images s) = Some n) /\
     Collate.collate s 0 = Ok b /\
     ref_normal b = None) /\
  (exists s d,
     Dataset.load_images sample_world (sample_state_with true true 128 128 2)
       = Ok s /\
     depth (images s) = Some d /\
     Tensor.numel d = 2%nat /\
     raises (Collate.collate s 0)).
Proof.
  split.
  - eexists. eexists.
    split; [run_state |].
    split; [eexists; reflexivity |].
    split; [run_state |].
    lazymatch goal with
    | |- ref_normal ?b = None =>
        exact (proj2 (proj2 (proj2 (proj1
                 (@collate_gates_on_depth sample_world
                    (sample_state_with false true 128 128 2) _
                    ltac:(run_state)) eq_refl)) 0%nat b ltac:(run_state)))
    end.
  - eexists. eexists.
    split; [run_state |].
    split; [reflexivity |].
    split; [reflexivity |].
    lazymatch goal with
    | |- raises (Collate.collate ?s 0) =>
        destruct (proj2 (@collate_gates_on_depth sample_world
                           (sample_state_with true true 128 128 2) s
                           ltac:(run_state)) eq_refl)
          as (d' & Hd & Hmany);
        cbn [depth images] in Hd; injection Hd as <-;
        exact (proj2 (proj2 (Hmany ltac:(cbn; lia) 0%nat)))
    end.
Defined.

(** * Further properties of the code *)

(** ** Failure and repetition of [load_transform] *)




(** X2.  [load_transform] fails on a manifest without the key [frames]
    ([KeyError]), on an empty frame list ([ValueError], from [min] of an
    empty list), and on complete frames whose least distance is 0
    ([ZeroDivisionError], from the scale factor). *)
Theorem load_transform_failures :
  forall (w : World) (c : Config),
    (json_load w (Loader.resolve w (transform_fp c)) = Ok (mkMeta None) ->
     Loader.load_transform w c = Err KeyError) /\
    (json_load w (Loader.resolve w (transform_fp c)) = Ok (mkMeta (Some [])) ->
     Loader.load_transform w c = Err ValueError) /\
    (forall fs,
       json_load w (Loader.resolve w (transform_fp c))
         = Ok (mkMeta (Some fs)) ->
       Forall frame_complete fs ->
       least 0 (map frame_distance fs) ->
       Loader.load_transform w c = Err ZeroDivisionError).
Proof.
  intros w c. split; [| split].
  - intros H. unfold Loader.load_transform. rewrite H. reflexivity.
  - intros H. unfold Loader.load_transform. rewrite H. reflexivity.
  - intros fs Hjson Hfs Hzero.
    assert (Hne : map frame_distance fs <> []).
    { destruct Hzero as [Hin _]. intros E. rewrite E in Hin. exact Hin. }
    destruct (py_min_least Hne) as (m & Hmin & Hleast).
    assert (Hm : m = 0) by (eapply least_unique; eassumption).
    subst m.
    unfold Loader.load_transform. rewrite Hjson. cbn [bind frames getkey].
    rewrite read_frames_complete by assumption. cbn [bind].
    unfold Loader.rescale. cbn. rewrite Hmin. cbn [bind].
    unfold Loader.py_div. destruct (Req_dec_T 0 0); [reflexivity | congruence].
Qed.

Lemma load_transform_again (w : World) (c c' : Config) :
  Loader.load_transform w c = Ok c' ->
  Loader.load_transform w c' = Ok c'.
Proof.
  intros H.
  destruct (@load_transform_set_frames _ _ _ H) as (p & e & a & d & Hc).
  rewrite Hc at 1. rewrite <- H. reflexivity.
Qed.

(** X3.  [load_transform] starts by emptying the four frame lists, and the
    scale factor uses only the configured reference distance: run again on
    the configuration it returned, it returns that configuration again. *)
Theorem load_transform_idempotent :
  forall (w : World) (c c' : Config),
    Loader.load_transform w c = Ok c' ->
    Loader.load_transform w c' = Ok c'.
Proof.
  intros w c c' H. exact (@load_transform_again w c c' H).
Qed.

Lemma load_transform_idempotent_witness :
  exists c',
    Loader.load_transform (sample_world_with two_frames)
      (sample_config (AnInt 64) (AnInt 64) [] false false) = Ok c' /\
    Loader.load_transform (sample_world_with two_frames) c' = Ok c'.
Proof.
  assert (Hfs : Forall frame_complete two_frames).
  { repeat constructor; eexists _, _, _, _, _; reflexivity. }
  assert (Hpos : Forall (fun f => 0 < frame_distance f) two_frames).
  { repeat constructor; cbn; lra. }
  assert (Hne : two_frames <> []) by discriminate.
  destruct (@load_transform_runs (sample_world_with two_frames)
              (sample_config (AnInt 64) (AnInt 64) [] false false)
              two_frames eq_refl Hfs Hne Hpos) as (m & _ & _ & Hload).
  eexists. split; [exact Hload |].
  exact (@load_transform_idempotent _ _ _ Hload).
Defined.

Lemma py_min_scaled (ds : list R) (k m : R) :
  0 < k -> Loader.py_min ds = Ok m ->
  Loader.py_min (map (fun d => d * k) ds) = Ok (m * k).
Proof.
  intros Hk Hm.
  assert (Hne : ds <> []) by (intros E; rewrite E in Hm; discriminate Hm).
  assert (Hne' : map (fun d => d * k) ds <> [])
    by (destruct ds; [congruence | discriminate]).
  destruct (py_min_least Hne) as (m0 & Hm0 & Hl0).
  rewrite Hm0 in Hm. injection Hm as ->.
  destruct (py_min_least Hne') as (m1 & Hm1 & Hl1).
  rewrite Hm1. f_equal.
  eapply least_unique; [exact Hl1 |].
  apply least_scaled; [lra | exact Hl0].
Qed.

(** X4.  The rescaling cancels the scale of the scene: with all distances
    positive, multiplying every distance of the frame set by one positive
    factor leaves the rescaled configuration unchanged. *)
Theorem rescale_scale_invariant :
  forall (c : Config) (paths : list String.string) (elevs azs ds : list R)
         (k : R),
    0 < k -> ds <> [] -> Forall (fun d => 0 < d) ds ->
    exists c',
      Loader.rescale (set_frames c paths elevs azs ds) = Ok c' /\
      Loader.rescale (set_frames c paths elevs azs (map (fun d => d * k) ds))
        = Ok c'.
Proof.
  intros c paths elevs azs ds k Hk Hne Hpos.
  destruct (py_min_least Hne) as (m & Hmin & Hleast).
  assert (Hm : 0 < m).
  { rewrite Forall_forall in Hpos. apply Hpos, Hleast. }
  eexists. split.
  - unfold Loader.rescale. cbn. rewrite Hmin. cbn [bind].
    rewrite py_div_nonzero by lra. cbn [bind]. reflexivity.
  - unfold Loader.rescale. cbn. rewrite (@py_min_scaled _ _ _ Hk Hmin). cbn [bind].
    rewrite py_div_nonzero by nra. cbn [bind]. apply f_equal.
    unfold set_frames. cbn. f_equal.
    rewrite map_map. apply map_ext. intros d. field. lra.
Qed.

Lemma rescale_scale_invariant_witness :
  exists c',
    Loader.rescale
      (set_frames (sample_config (AnInt 64) (AnInt 64) [] false false)
         [] [] [] [2; 4]) = Ok c' /\
    Loader.rescale
      (set_frames (sample_config (AnInt 64) (AnInt 64) [] false false)
         [] [] [] (map (fun d => d * 10) [2; 4])) = Ok c'.
Proof.
  apply (@rescale_scale_invariant
           (sample_config (AnInt 64) (AnInt 64) [] false false)
           [] [] [] [2; 4] 10).
  - lra.
  - discriminate.
  - repeat constructor; lra.
Defined.

(** ** Further properties of the camera geometry *)

Lemma spherical_norm (el_deg az_deg d : R) :
  0 <= d -> Vec.norm (spherical_to_cartesian el_deg az_deg d) = d.
Proof.
  intros Hd. unfold Vec.norm, Vec.dot, spherical_to_cartesian. cbn [vx vy vz].
  pose proof (sin2_cos2 (el_deg * PI / 180)) as He.
  pose proof (sin2_cos2 (az_deg * PI / 180)) as Ha.
  unfold Rsqr in He, Ha.
  set (ce := cos (el_deg * PI / 180)) in *.
  set (se := sin (el_deg * PI / 180)) in *.
  set (ca := cos (az_deg * PI / 180)) in *.
  set (sa := sin (az_deg * PI / 180)) in *.
  replace (d * ce * ca * (d * ce * ca) + d * ce * sa * (d * ce * sa)
           + d * se * (d * se))
    with (d * d * (ce * ce * (sa * sa + ca * ca) + se * se)) by ring.
  rewrite Ha, Rmult_1_r.
  replace (ce * ce + se * se) with (se * se + ce * ce) by ring.
  rewrite He, Rmult_1_r. apply sqrt_square. exact Hd.
Qed.

(** X5.  Every camera stands at its distance from the origin and looks at
    the origin: the norm of position [i] is the distance [d] of triple [i],
    and for [d] not below the clamp of [F.normalize] the position plus [d]
    times the forward vector is the origin. *)
Theorem camera_looks_at_origin :
  forall (elevs azs ds : list R),
    length elevs = length azs -> length azs = length ds ->
    ds <> [] -> length ds <> 3%nat ->
    exists positions b,
      Geometry.camera_positions_of elevs azs ds = Ok positions /\
      Geometry.look_at positions = Ok b /\
      forall i el az d,
        nth_error elevs i = Some el ->
        nth_error azs i = Some az ->
        nth_error ds i = Some d ->
        0 <= d ->
        exists p l,
          nth_error positions i = Some p /\
          nth_error (Geometry.b_lookat b) i = Some l /\
          Vec.norm p = d /\
          (Vec.eps <= d ->
           vx p + d * vx l = 0 /\ vy p + d * vy l = 0 /\
           vz p + d * vz l = 0).
Proof.
  intros elevs azs ds H1 H2 Hne H3.
  destruct (pose_pipeline elevs azs H1 H2 Hne H3)
    as (positions & Hpos & Hlook & _ & Hnth).
  exists positions. eexists. split; [exact Hpos |]. split; [exact Hlook |].
  intros i el az d Hel Haz Hd Hd0.
  specialize (Hnth i el az d Hel Haz Hd).
  exists (spherical_to_cartesian el az d),
         (camera_lookat (spherical_to_cartesian el az d)).
  split; [exact Hnth |].
  split; [cbn [Geometry.b_lookat]; apply map_nth_error; exact Hnth |].
  split; [apply spherical_norm; exact Hd0 |].
  intros Hclamp. rewrite (@spherical_lookat el az d Hclamp).
  unfold spherical_to_cartesian. cbn [vx vy vz]. repeat split; ring.
Qed.

Lemma camera_looks_at_origin_witness :
  exists positions b,
    Geometry.camera_positions_of [30] [45] [2] = Ok positions /\
    Geometry.look_at positions = Ok b /\
    exists p, nth_error positions 0 = Some p /\ Vec.norm p = 2.
Proof.
  assert (Hne : [2] <> @nil R) by discriminate.
  assert (H3 : length [2] <> 3%nat) by (simpl; lia).
  destruct (@camera_looks_at_origin [30] [45] [2] eq_refl eq_refl Hne H3)
    as (positions & b & Hpos & Hlook & Hall).
  exists positions, b. split; [exact Hpos |]. split; [exact Hlook |].
  assert (H0 : 0 <= 2) by lra.
  destruct (Hall 0%nat 30 45 2 eq_refl eq_refl eq_refl H0)
    as (p & l & Hp & _ & Hn & _).
  exists p. split; assumption.
Defined.

(** X6.  Away from the clamps, the basis of a camera is right-handed and
    upright: the cross product of right and up is minus forward, the right
    vector is horizontal, and the third component of the up vector is the
    cosine of the elevation. *)
Theorem camera_basis_right_handed :
  forall (elevs azs ds : list R),
    length elevs = length azs -> length azs = length ds ->
    ds <> [] -> length ds <> 3%nat ->
    exists positions b,
      Geometry.camera_positions_of elevs azs ds = Ok positions /\
      Geometry.look_at positions = Ok b /\
      forall i el az d,
        nth_error elevs i = Some el ->
        nth_error azs i = Some az ->
        nth_error ds i = Some d ->
        Vec.eps <= d ->
        Vec.eps <= cos (el * PI / 180) ->
        exists right up lookat,
          nth_error (Geometry.b_right b) i = Some right /\
          nth_error (Geometry.b_up b) i = Some up /\
          nth_error (Geometry.b_lookat b) i = Some lookat /\
          Vec.cross right up = Vec.neg lookat /\
          vz right = 0 /\
          vz up = cos (el * PI / 180).
Proof.
  intros elevs azs ds H1 H2 Hne H3.
  destruct (pose_pipeline elevs azs H1 H2 Hne H3)
    as (positions & Hpos & Hlook & _ & Hnth).
  exists positions. eexists. split; [exact Hpos |]. split; [exact Hlook |].
  intros i el az d Hel Haz Hd Hdc Hcc.
  specialize (Hnth i el az d Hel Haz Hd).
  set (p := spherical_to_cartesian el az d) in *.
  exists (camera_right p), (camera_up p), (camera_lookat p).
  cbn [Geometry.b_right Geometry.b_up Geometry.b_lookat].
  split; [apply map_nth_error; exact Hnth |].
  split; [apply map_nth_error; exact Hnth |].
  split; [apply map_nth_error; exact Hnth |].
  unfold p.
  rewrite (@spherical_up el az d Hdc Hcc), (@spherical_right el az d Hdc Hcc),
    (@spherical_lookat el az d Hdc).
  pose proof (sin2_cos2 (az * PI / 180)) as Ha. unfold Rsqr in Ha.
  split; [| split; reflexivity].
  unfold Vec.cross, Vec.neg. cbn [vx vy vz].
  apply vec3_eq; cbn [vx vy vz]; try ring.
  replace (- sin (az * PI / 180) * - (sin (az * PI / 180) * sin (el * PI / 180))
           - cos (az * PI / 180) * - (cos (az * PI / 180) * sin (el * PI / 180)))
    with (sin (el * PI / 180)
          * (sin (az * PI / 180) * sin (az * PI / 180)
             + cos (az * PI / 180) * cos (az * PI / 180))) by ring.
  rewrite Ha. ring.
Qed.

Lemma camera_basis_right_handed_witness :
  exists positions b,
    Geometry.camera_positions_of [0] [0] [1] = Ok positions /\
    Geometry.look_at positions = Ok b /\
    exists right up lookat,
      nth_error (Geometry.b_right b) 0 = Some right /\
      nth_error (Geometry.b_up b) 0 = Some up /\
      nth_error (Geometry.b_lookat b) 0 = Some lookat /\
      Vec.cross right up = Vec.neg lookat.
Proof.
  assert (Hne : [1] <> @nil R) by discriminate.
  assert (H3 : length [1] <> 3%nat) by (simpl; lia).
  destruct (@camera_basis_right_handed [0] [0] [1] eq_refl eq_refl Hne H3)
    as (positions & b & Hpos & Hlook & Hall).
  exists positions, b. split; [exact Hpos |]. split; [exact Hlook |].
  assert (H1 : Vec.eps <= 1).
  { unfold Vec.eps. apply Rle_trans with (/ 1).
    - apply Rinv_le_contravar; [lra | apply pow_R1_Rle; lra].
    - rewrite Rinv_1. lra. }
  assert (Hc : Vec.eps <= cos (0 * PI / 180)).
  { replace (0 * PI / 180) with 0 by field. rewrite cos_0. exact H1. }
  destruct (Hall 0%nat 0 0 1 eq_refl eq_refl eq_refl H1 Hc)
    as (r & u & l & Hr & Hu & Hl & Hx & _).
  exists r, u, l. repeat split; assumption.
Defined.

Lemma poses_of_inv (c : Config) (p : Poses) :
  Geometry.poses_of c = Ok p ->
  exists positions first m,
    Geometry.camera_positions_of (default_elevation_degs c)
      (default_azimuth_degs c) (default_camera_distances c) = Ok positions /\
    PyList.getitem positions 0 = Ok first /\
    Geometry.c2w_of positions = Ok m /\
    p = mkPoses m
          (Tensor.squeeze0 (Tensor.of_rows positions))
          (Tensor.of_rows [first])
          (Tensor.squeeze0 (Tensor.of_row (default_elevation_degs c)))
          (Tensor.squeeze0 (Tensor.of_row (default_azimuth_degs c)))
          (Tensor.squeeze0 (Tensor.of_row (default_camera_distances c)))
          (Torch.deg2rad (default_fovy_deg c)).
Proof.
  unfold Geometry.poses_of. intros H.
  destruct (Geometry.camera_positions_of _ _ _) as [positions |] eqn:Hcp;
    [cbn [bind] in H | discriminate H].
  destruct (PyList.getitem positions 0) as [first |] eqn:Hfirst;
    [cbn [bind] in H | discriminate H].
  destruct (Geometry.c2w_of positions) as [m |] eqn:Hm;
    [cbn [bind] in H | discriminate H].
  injection H as <-. exists positions, first, m.
  split; [reflexivity |]. split; [exact Hfirst |]. split; [exact Hm |].
  reflexivity.
Qed.

Lemma poses_of_runs (c : Config) :
  length (default_elevation_degs c) = length (default_azimuth_degs c) ->
  length (default_azimuth_degs c) = length (default_camera_distances c) ->
  default_camera_distances c <> [] ->
  length (default_camera_distances c) <> 3%nat ->
  exists p, Geometry.poses_of c = Ok p.
Proof.
  intros H1 H2 Hne H3. unfold Geometry.poses_of.
  destruct (pose_pipeline _ _ H1 H2 Hne H3)
    as (positions & Hcp & _ & Hc2w & Hnth).
  rewrite Hcp. cbn [bind].
  destruct (default_elevation_degs c) as [| el els]; [destruct (default_azimuth_degs c); [destruct (default_camera_distances c); [congruence | discriminate] | discriminate] |].
  destruct (default_azimuth_degs c) as [| az azs]; [discriminate |].
  destruct (default_camera_distances c) as [| d ds]; [discriminate |].
  specialize (Hnth 0%nat _ _ _ eq_refl eq_refl eq_refl).
  destruct positions as [| p0 rest]; [discriminate Hnth |].
  rewrite getitem_first. cbn [bind]. rewrite Hc2w. cbn [bind].
  eexists. reflexivity.
Qed.

(** X7.  With exactly three cameras the first [torch.cross], called without
    [dim], takes the product along the camera dimension, where the up
    vector has size 1, and raises: the look-at basis of any three positions
    is a [RuntimeError], and so is [setup] on any complete manifest of three
    frames with positive distances. *)
Theorem three_frames_setup_raises :
  forall (w : World) (c0 : Config) (split : String.string) (fs : list Frame),
    json_load w (Loader.resolve w (transform_fp c0)) = Ok (mkMeta (Some fs)) ->
    Forall frame_complete fs ->
    length fs = 3%nat ->
    Forall (fun f => 0 < frame_distance f) fs ->
    (forall p0 p1 p2, Geometry.look_at [p0; p1; p2] = Err RuntimeError) /\
    Dataset.setup w c0 split = Err RuntimeError.
Proof.
  intros w c0 split fs Hjson Hfs Hlen Hpos.
  split; [intros; reflexivity |].
  assert (Hne : fs <> []) by (intros E; rewrite E in Hlen; discriminate).
  destruct (@load_transform_runs w c0 fs Hjson Hfs Hne Hpos)
    as (m & _ & _ & Hload).
  unfold Dataset.setup. rewrite Hload. cbn [bind].
  unfold Geometry.poses_of. cbn.
  rewrite camera_positions_triples by (rewrite !length_map; reflexivity).
  destruct fs as [| f0 [| f1 [| f2 [| f3 rest]]]]; try discriminate Hlen.
  cbn [map coordinate_triples bind]. rewrite getitem_first. cbn [bind].
  reflexivity.
Qed.

Lemma three_frames_setup_raises_witness :
  Dataset.setup sample_world
    (sample_config (AnInt 64) (AnInt 64) [] false false) "train"%string
    = Err RuntimeError.
Proof.
  assert (Hfs : Forall frame_complete sample_frames).
  { repeat constructor; eexists _, _, _, _, _; reflexivity. }
  assert (Hpos : Forall (fun f => 0 < frame_distance f) sample_frames).
  { repeat constructor; cbn; lra. }
  exact (proj2 (@three_frames_setup_raises sample_world
                  (sample_config (AnInt 64) (AnInt 64) [] false false)
                  "train"%string sample_frames eq_refl Hfs eq_refl Hpos)).
Defined.

Lemma rows_slice (positions : Rows) (i : nat) (p : Vec3) :
  nth_error positions i = Some p ->
  firstn 3 (skipn (i * 3) (flat_map Vec.to_list positions)) = Vec.to_list p.
Proof.
  revert i. induction positions as [| q rest IH]; intros [| i] H;
    simpl in H; try discriminate.
  - injection H as <-. reflexivity.
  - simpl. apply IH. exact H.
Qed.

(** X8.  [camera_positions.squeeze(0)] drops the camera dimension when
    there is one camera.  With one camera the stored tensor has shape
    [(3,)] and indexing it with the drawn index gives one number, the x
    coordinate of the camera; with two or more cameras it has shape
    [(B, 3)] and indexing gives the whole position of the drawn camera.
    The elevation, azimuth and distance tensors have shape [(B,)]. *)
Theorem camera_positions_squeezed :
  forall (c : Config) (p : Poses),
    length (default_elevation_degs c) = length (default_azimuth_degs c) ->
    length (default_azimuth_degs c) = length (default_camera_distances c) ->
    Geometry.poses_of c = Ok p ->
    let B := length (default_camera_distances c) in
    shape (elevation_degs p) = [B] /\
    shape (azimuth_degs p) = [B] /\
    shape (camera_distances p) = [B] /\
    (forall el az d,
       default_elevation_degs c = [el] ->
       default_azimuth_degs c = [az] ->
       default_camera_distances c = [d] ->
       shape (camera_positions p) = [3%nat] /\
       Tensor.select (camera_positions p) 0
         = Ok (mkTensor [1%nat] [vx (spherical_to_cartesian el az d)])) /\
    (B <> 1%nat ->
       shape (camera_positions p) = [B; 3%nat] /\
       forall i el az d,
         nth_error (default_elevation_degs c) i = Some el ->
         nth_error (default_azimuth_degs c) i = Some az ->
         nth_error (default_camera_distances c) i = Some d ->
         Tensor.select (camera_positions p) i
           = Ok (mkTensor [1%nat; 3%nat]
                   (Vec.to_list (spherical_to_cartesian el az d)))).
Proof.
  intros c p H1 H2 Hp B.
  destruct (@poses_of_inv _ _ Hp) as (positions & first & m & Hcp & _ & _ & ->).
  rewrite camera_positions_triples in Hcp by assumption.
  injection Hcp as Hpos.
  assert (Hlen : length positions = B).
  { rewrite <- Hpos, length_map. apply coordinate_triples_length; assumption. }
  cbn [elevation_degs azimuth_degs camera_distances camera_positions].
  unfold Tensor.of_row, Tensor.squeeze0. cbn [shape data].
  split; [f_equal; unfold B; lia |].
  split; [f_equal; unfold B; lia |].
  split; [reflexivity |].
  split.
  - intros el az d He Ha Hd. rewrite He, Ha, Hd in Hpos.
    cbn in Hpos. subst positions. split; reflexivity.
  - intros HB.
    assert (Hshape : shape (Tensor.of_rows positions) = [B; 3%nat])
      by (unfold Tensor.of_rows; cbn [shape]; rewrite Hlen; reflexivity).
    unfold Tensor.of_rows in *. cbn [shape data] in *.
    destruct (length positions) as [| [| n]] eqn:Hl;
      try (exfalso; apply HB; rewrite <- Hlen; reflexivity).
    + split; [rewrite <- Hlen; reflexivity |].
      intros i el az d He Ha Hd.
      assert (Hnth : nth_error positions i = None).
      { apply nth_error_None. lia. }
      rewrite <- Hpos in Hnth.
      rewrite (@coordinate_triples_nth _ _ _ _ _ _ _ He Ha Hd) in Hnth.
      discriminate Hnth.
    + split; [rewrite <- Hlen; reflexivity |].
      intros i el az d He Ha Hd.
      assert (Hnth : nth_error positions i
                     = Some (spherical_to_cartesian el az d)).
      { rewrite <- Hpos. apply coordinate_triples_nth; assumption. }
      unfold Tensor.select. cbn [shape data].
      assert (Hi : (i < S (S n))%nat).
      { rewrite <- Hl. apply nth_error_Some. rewrite Hnth. discriminate. }
      destruct (Nat.ltb_spec i (S (S n))); [| lia].
      cbn [fold_right]. f_equal. f_equal.
      replace (3 * 1)%nat with 3%nat by reflexivity.
      apply rows_slice. exact Hnth.
Qed.

Lemma camera_positions_squeezed_witness :
  exists p,
    Geometry.poses_of (sample_config (AnInt 64) (AnInt 64) [] false false)
      = Ok p /\
    shape (camera_positions p) = [3%nat] /\
    Tensor.select (camera_positions p) 0
      = Ok (mkTensor [1%nat] [vx (spherical_to_cartesian 0 0 1)]).
Proof.
  destruct (@poses_of_runs
              (sample_config (AnInt 64) (AnInt 64) [] false false)
              eq_refl eq_refl) as (p & Hp);
    [discriminate | simpl; lia |].
  exists p. split; [exact Hp |].
  exact (proj1 (proj2 (proj2 (proj2
           (@camera_positions_squeezed
              (sample_config (AnInt 64) (AnInt 64) [] false false) p
              eq_refl eq_refl Hp)))) 0 0 1 eq_refl eq_refl eq_refl).
Defined.

(** X9.  The light stands where the first camera stands: the light
    position is the [(1, 3)] tensor holding the position of the first
    pose triple. *)
Theorem light_at_first_camera :
  forall (c : Config) (p : Poses) (el az d : R) (els azs ds : list R),
    default_elevation_degs c = el :: els ->
    default_azimuth_degs c = az :: azs ->
    default_camera_distances c = d :: ds ->
    length els = length azs -> length azs = length ds ->
    Geometry.poses_of c = Ok p ->
    light_position p = Tensor.of_rows [spherical_to_cartesian el az d] /\
    shape (light_position p) = [1%nat; 3%nat].
Proof.
  intros c p el az d els azs ds He Ha Hd H1 H2 Hp.
  destruct (@poses_of_inv _ _ Hp) as (positions & first & m & Hcp & Hfirst & _ & ->).
  rewrite He, Ha, Hd in Hcp.
  rewrite camera_positions_triples in Hcp by (simpl; lia).
  injection Hcp as Hpos. cbn in Hpos. rewrite <- Hpos in Hfirst.
  rewrite getitem_first in Hfirst. injection Hfirst as <-.
  cbn [light_position]. split; reflexivity.
Qed.

Lemma light_at_first_camera_witness :
  exists p,
    Geometry.poses_of (sample_config (AnInt 64) (AnInt 64) [] false false)
      = Ok p /\
    light_position p = Tensor.of_rows [spherical_to_cartesian 0 0 1].
Proof.
  destruct (@poses_of_runs
              (sample_config (AnInt 64) (AnInt 64) [] false false)
              eq_refl eq_refl) as (p & Hp);
    [discriminate | simpl; lia |].
  exists p. split; [exact Hp |].
  exact (proj1 (@light_at_first_camera
                  (sample_config (AnInt 64) (AnInt 64) [] false false) p
                  0 0 1 [] [] [] eq_refl eq_refl eq_refl eq_refl eq_refl Hp)).
Defined.

(** ** Further properties of the tiers and of the step-update hook *)

Lemma bisect_loop_bounds (a : list Z) (x : Z) (lo hi : nat) :
  (lo <= hi)%nat ->
  (lo <= Bisect.bisect_loop a x lo hi <= hi)%nat.
Proof.
  funelim (Bisect.bisect_loop a x lo hi); intros Hle.
  - lia.
  - assert (Hm : (lo <= (lo + hi) / 2 < hi)%nat).
    { split; [apply Nat.div_le_lower_bound | apply Nat.Div0.div_lt_upper_bound]; lia. }
    specialize (H ltac:(lia)). lia.
  - assert (Hm : (lo <= (lo + hi) / 2 < hi)%nat).
    { split; [apply Nat.div_le_lower_bound | apply Nat.Div0.div_lt_upper_bound]; lia. }
    specialize (H ltac:(lia)). lia.
Qed.

Lemma size_ind_range (ms : list Z) (g : Z) :
  (-1 <= Resolution.size_ind ms g < Z.of_nat (length ms))%Z.
Proof.
  unfold Resolution.size_ind, Bisect.bisect_right.
  pose proof (@bisect_loop_bounds ms g 0 (length ms) (Nat.le_0_l _)). lia.
Qed.

Lemma position_total (n : nat) (i : Z) :
  (0 < n)%nat -> (-1 <= i < Z.of_nat n)%Z ->
  exists p, PyList.position n i = Ok p /\ (p < n)%nat.
Proof.
  intros Hn Hi. unfold PyList.position.
  destruct (Z.ltb_spec i 0) as [Hneg | Hpos].
  - assert (i = (-1)%Z) by lia. subst i.
    destruct (Z.ltb_spec (-1 + Z.of_nat n) 0); [lia |].
    destruct (Z.ltb_spec (-1 + Z.of_nat n) (Z.of_nat n)); [| lia].
    eexists. split; [reflexivity | lia].
  - destruct (Z.ltb_spec i 0); [lia |].
    destruct (Z.ltb_spec i (Z.of_nat n)); [| lia].
    eexists. split; [reflexivity | lia].
Qed.

Lemma getitem_total {A : Type} (a : list A) (i : Z) :
  a <> [] -> (-1 <= i < Z.of_nat (length a))%Z ->
  exists v, PyList.getitem a i = Ok v.
Proof.
  intros Hne Hi. unfold PyList.getitem.
  assert (Hn : (0 < length a)%nat) by (destruct a; [congruence | simpl; lia]).
  destruct (position_total Hn Hi) as (p & -> & Hp). cbn [bind].
  destruct (nth_error a p) as [v |] eqn:Hv; [eexists; reflexivity |].
  apply nth_error_None in Hv. lia.
Qed.

Lemma store_length {A : Type} (i : nat) (v : A) (l : list A) :
  length (Dataset.store i v l) = length l.
Proof.
  revert i. induction l as [| x l IH]; intros [| i]; simpl; auto.
Qed.

Lemma store_nth_other {A : Type} (i j : nat) (v d : A) (l : list A) :
  i <> j -> nth j (Dataset.store i v l) d = nth j l d.
Proof.
  revert i j. induction l as [| x l IH]; intros [| i] [| j] H; simpl;
    try reflexivity; try congruence.
  apply IH. congruence.
Qed.

Lemma tiers_of_milestones (c : Config) (hs ws ms : list Z)
    (warned : list Event) :
  Resolution.tiers_of c = Ok (hs, ws, ms, warned) ->
  length ms = length hs /\ exists rest, ms = (-1)%Z :: rest.
Proof.
  unfold Resolution.tiers_of. intros H.
  destruct (Nat.eqb_spec (length (Resolution.as_list (cfg_height c)))
              (length (Resolution.as_list (cfg_width c)))) as [Hlen | Hlen];
    [cbn [py_assert bind] in H | discriminate H].
  destruct (Nat.eqb_spec (length (Resolution.as_list (cfg_height c))) 1)
    as [H1 | H1]; cbn [andb] in H.
  - destruct (Nat.eqb (length (Resolution.as_list (cfg_width c))) 1).
    + injection H as <- _ <- _. split; [simpl; lia | eexists; reflexivity].
    + destruct (Nat.eqb_spec (length (Resolution.as_list (cfg_height c)))
                  (length (cfg_resolution_milestones c) + 1));
        [cbn [py_assert bind] in H | discriminate H].
      injection H as <- _ <- _. split; [simpl; lia | eexists; reflexivity].
  - destruct (Nat.eqb_spec (length (Resolution.as_list (cfg_height c)))
                (length (cfg_resolution_milestones c) + 1)) as [H2 | H2];
      [cbn [py_assert bind] in H | discriminate H].
    injection H as <- _ <- _. split; [simpl; lia | eexists; reflexivity].
Qed.

Lemma setup_parallel (w : World) (c0 : Config) (split : String.string)
    (s : State) :
  Dataset.setup w c0 split = Ok s -> parallel s.
Proof.
  intros Hs.
  destruct (@setup_first_tier _ _ _ _ Hs)
    as (hs & ws & ms & warned & Ht & Htiers & _ & _ & _ & _ & _ & Hcache).
  destruct (@tiers_of_shape _ _ _ _ _ Ht) as [Hne Hws].
  destruct (@tiers_of_milestones _ _ _ _ _ Ht) as [Hms _].
  unfold parallel. rewrite Htiers, Hcache.
  cbn [heights widths resolution_milestones focal_lengths].
  rewrite store_length, !length_map, length_combine.
  repeat split; try assumption; lia.
Qed.

Lemma update_frame (w : World) (s s' : State) (epoch g : Z) (b : bool) :
  Dataset.update_step_ w s epoch g b = Ok s' ->
  cfg s' = cfg s /\ poses s' = poses s /\ tiers s' = tiers s /\
  length (directions_unit_focals s') = length (directions_unit_focals s) /\
  height s' = prev_height s'.
Proof.
  unfold Dataset.update_step_, Dataset.select_tier. cbv zeta. intros H.
  destruct (PyList.getitem (heights (tiers s)) _) as [h |];
    [cbn [bind] in H | discriminate H].
  change (prev_height (with_height s h)) with (prev_height s) in H.
  destruct (Z.eqb_spec h (prev_height s)) as [Heq | Hne].
  - injection H as <-. cbn. auto.
  - inv_bind H.
    match goal with
    | Hr : Dataset.set_rays _ _ = Ok ?s1 |- _ =>
        destruct (@set_rays_inv _ _ _ Hr) as (rdata & Hs1)
    end.
    destruct (@load_images_inv _ _ _ H) as (idata & Hs2 & _).
    subst. cbn. rewrite store_length. auto.
Qed.

(** X10.  The per-tier lists of an object line up after [setup] and stay
    lined up through every call of the hook.  On such an object the four
    list reads of the hook return, whatever integer the step is and whether
    or not the milestones are sorted: the hook reads a height, and either
    returns at once (the height is the previous one) or reads the width,
    the cached grid and the focal length of the same tier and goes on to
    [set_rays] and [load_images].  The hook raises no [IndexError] of its
    own: a failure of the hook is a failure of [set_rays] or of
    [load_images]. *)
Theorem hook_reads_never_fail :
  (forall w c0 split s, Dataset.setup w c0 split = Ok s -> parallel s) /\
  (forall w s epoch g b s',
     parallel s -> Dataset.update_step_ w s epoch g b = Ok s' ->
     parallel s') /\
  (forall w s epoch g b,
     parallel s ->
     exists h,
       PyList.getitem (heights (tiers s))
         (Resolution.size_ind (resolution_milestones (tiers s)) g) = Ok h /\
       (h = prev_height s ->
        Dataset.update_step_ w s epoch g b = Ok (with_height s h)) /\
       (h <> prev_height s ->
        exists wd alias fl,
          PyList.getitem (widths (tiers s))
            (Resolution.size_ind (resolution_milestones (tiers s)) g)
            = Ok wd /\
          PyList.position (length (directions_unit_focals s))
            (Resolution.size_ind (resolution_milestones (tiers s)) g)
            = Ok alias /\
          (alias < length (directions_unit_focals s))%nat /\
          PyList.getitem (focal_lengths (tiers s))
            (Resolution.size_ind (resolution_milestones (tiers s)) g)
            = Ok fl /\
          Dataset.update_step_ w s epoch g b =
            (s4 <- Dataset.set_rays w
                     (emit (with_tier (with_height s h) h wd alias fl)
                           (DebugTraining h wd)) ;;
             Dataset.load_images w s4))).
Proof.
  split; [| split].
  - intros w c0 split s. apply setup_parallel.
  - intros w s epoch g b s' Hp Hrun.
    destruct (@update_frame _ _ _ _ _ _ Hrun) as (_ & _ & Ht & Hc & _).
    unfold parallel in *. rewrite Ht, Hc. exact Hp.
  - intros w s epoch g b (Hne & Hw & Hm & Hf & Hc).
    pose proof (size_ind_range (resolution_milestones (tiers s)) g) as Hr.
    set (i := Resolution.size_ind (resolution_milestones (tiers s)) g) in *.
    rewrite Hm in Hr.
    destruct (@getitem_total _ (heights (tiers s)) i Hne Hr) as (h & Hh).
    exists h. split; [exact Hh |]. split.
    + intros Heq. apply update_same_height; assumption.
    + intros Hdiff.
      assert (Hwne : widths (tiers s) <> []).
      { intros E. rewrite E in Hw. destruct (heights (tiers s));
          [congruence | discriminate Hw]. }
      assert (Hfne : focal_lengths (tiers s) <> []).
      { intros E. rewrite E in Hf. destruct (heights (tiers s));
          [congruence | discriminate Hf]. }
      destruct (@getitem_total _ (widths (tiers s)) i Hwne) as (wd & Hwd);
        [rewrite Hw; exact Hr |].
      destruct (@position_total (length (directions_unit_focals s)) i)
        as (alias & Ha & Hlt);
        [rewrite Hc; destruct (heights (tiers s)); [congruence | simpl; lia]
        | rewrite Hc; exact Hr |].
      destruct (@getitem_total _ (focal_lengths (tiers s)) i Hfne)
        as (fl & Hfl); [rewrite Hf; exact Hr |].
      exists wd, alias, fl.
      split; [exact Hwd |]. split; [exact Ha |]. split; [exact Hlt |].
      split; [exact Hfl |].
      rewrite (@update_step_at w s epoch g b i eq_refl).
      apply select_tier_new; try assumption.
      apply Z.eqb_neq. exact Hdiff.
Qed.

(** X11.  A call of the hook that returns leaves the configuration, the
    pose data (camera-to-world matrices, positions, angles, field of view)
    and the per-tier lists as they were, and leaves the height equal to the
    recorded previous height. *)
Theorem hook_keeps_poses :
  forall (w : World) (s s' : State) (epoch g : Z) (b : bool),
    Dataset.update_step_ w s epoch g b = Ok s' ->
    cfg s' = cfg s /\ poses s' = poses s /\ tiers s' = tiers s /\
    height s' = prev_height s'.
Proof.
  intros w s s' epoch g b H.
  destruct (@update_frame _ _ _ _ _ _ H) as (Hc & Hp & Ht & _ & Hh). auto.
Qed.

Lemma hook_keeps_poses_witness :
  exists s',
    Dataset.update_step_ sample_world (sample_state 128 128 2) 0 100 false
      = Ok s' /\
    poses s' = poses (sample_state 128 128 2) /\
    height s' = 128%Z.
Proof.
  eexists.
  assert (Hrun : Dataset.update_step_ sample_world (sample_state 128 128 2)
                   0 100 false = Ok _)
    by (step_at 1%Z; tier_at 128%Z 128%Z 1%nat 2; run_state).
  split; [exact Hrun |].
  split; [exact (proj1 (proj2 (@hook_keeps_poses _ _ _ _ _ _ Hrun)))
         | reflexivity].
Defined.

Lemma nth_error_last {A : Type} (l : list A) (d : A) :
  l <> [] -> nth_error l (length l - 1) = Some (last l d).
Proof.
  induction l as [| x l IH]; [congruence |]. intros _.
  destruct l as [| y l]; [reflexivity |].
  replace (length (x :: y :: l) - 1)%nat with (S (length (y :: l) - 1))
    by (simpl; lia).
  cbn [nth_error]. rewrite IH by discriminate. reflexivity.
Qed.

Lemma getitem_minus_one {A : Type} (l : list A) (d : A) :
  l <> [] -> PyList.getitem l (-1) = Ok (last l d).
Proof.
  intros Hne. unfold PyList.getitem, PyList.position.
  assert (Hn : (0 < length l)%nat) by (destruct l; [congruence | simpl; lia]).
  change (-1 <? 0)%Z with true. cbn iota.
  destruct (Z.ltb_spec (-1 + Z.of_nat (length l)) 0); [lia |].
  destruct (Z.ltb_spec (-1 + Z.of_nat (length l)) (Z.of_nat (length l)));
    [| lia].
  cbn [bind].
  replace (Z.to_nat (-1 + Z.of_nat (length l))) with (length l - 1)%nat by lia.
  rewrite (nth_error_last d Hne). reflexivity.
Qed.

(** X12.  On sorted milestones, a step that has reached every milestone
    selects the last tier, however large it is; a step below every
    milestone gives the index -1, which Python reads from the end, so it
    selects the last tier as well. *)
Theorem extreme_steps_select_last_tier :
  forall (ms : list Z) (g : Z),
    Sorted Z.le ms -> ms <> [] ->
    ((forall m, In m ms -> (m <= g)%Z) ->
       Resolution.size_ind ms g = (Z.of_nat (length ms) - 1)%Z /\
       forall hs : list Z, length hs = length ms ->
         PyList.getitem hs (Resolution.size_ind ms g) = Ok (last hs 0%Z)) /\
    ((forall m, In m ms -> (g < m)%Z) ->
       Resolution.size_ind ms g = (-1)%Z /\
       forall hs : list Z, length hs = length ms ->
         PyList.getitem hs (Resolution.size_ind ms g) = Ok (last hs 0%Z)).
Proof.
  intros ms g Hs Hne.
  destruct (bisect_right_spec g Hs) as (Hlen & Hlow & Hhigh).
  assert (Hn : (0 < length ms)%nat) by (destruct ms; [congruence | simpl; lia]).
  unfold Resolution.size_ind.
  set (r := Bisect.bisect_right ms g) in *.
  split.
  - intros Hall.
    assert (Hr : r = length ms).
    { destruct (Nat.eq_dec r (length ms)) as [E | E]; [exact E |].
      assert (Hlt : (r < length ms)%nat) by lia.
      specialize (Hhigh r (Nat.le_refl _) Hlt).
      specialize (Hall (nth r ms 0%Z) (nth_In ms 0%Z Hlt)). lia. }
    rewrite Hr. split; [reflexivity |].
    intros hs Hhs.
    assert (Hhne : hs <> []) by (intros E; rewrite E in Hhs; simpl in Hhs; lia).
    rewrite (@getitem_in_range _ hs _ 0%Z) by lia.
    replace (Z.to_nat (Z.of_nat (length ms) - 1)) with (length hs - 1)%nat
      by lia.
    f_equal. apply nth_error_nth. apply nth_error_last. exact Hhne.
  - intros Hall.
    assert (Hr : r = 0%nat).
    { destruct r as [| r']; [reflexivity |].
      specialize (Hlow 0%nat ltac:(lia)).
      specialize (Hall (nth 0 ms 0%Z) (nth_In ms 0%Z Hn)). lia. }
    rewrite Hr. split; [reflexivity |].
    intros hs Hhs.
    assert (Hhne : hs <> []) by (intros E; rewrite E in Hhs; simpl in Hhs; lia).
    apply getitem_minus_one. exact Hhne.
Qed.

Lemma extreme_steps_select_last_tier_witness :
  Resolution.size_ind [-1; 100; 500]%Z 900 = 2%Z /\
  PyList.getitem [64; 128; 256]%Z (Resolution.size_ind [-1; 100; 500]%Z (-5))
    = Ok 256%Z.
Proof.
  assert (Hs : Sorted Z.le [-1; 100; 500]%Z).
  { repeat constructor; lia. }
  assert (Hne : [-1; 100; 500]%Z <> []) by discriminate.
  split.
  - refine (proj1 (proj1 (@extreme_steps_select_last_tier
                            [-1; 100; 500]%Z 900 Hs Hne) _)).
    intros m [<- | [<- | [<- | []]]]; lia.
  - refine (proj2 (proj2 (@extreme_steps_select_last_tier
                            [-1; 100; 500]%Z (-5) Hs Hne) _)
              [64; 128; 256]%Z eq_refl).
    intros m [<- | [<- | [<- | []]]]; lia.
Defined.

(** X13.  Right after [setup] the object stands on the first tier, so with
    sorted milestones every call of the hook with a step from -1 up to, but
    not including, the first configured milestone returns the object
    unchanged, without building rays or loading images. *)
Theorem first_tier_steps_change_nothing :
  forall (w : World) (c0 : Config) (split : String.string) (s : State)
         (epoch g : Z) (b : bool),
    Dataset.setup w c0 split = Ok s ->
    Sorted Z.le (resolution_milestones (tiers s)) ->
    (-1 <= g)%Z ->
    (forall m, In m (tl (resolution_milestones (tiers s))) -> (g < m)%Z) ->
    Resolution.size_ind (resolution_milestones (tiers s)) g = 0%Z /\
    Dataset.update_step_ w s epoch g b = Ok s.
Proof.
  intros w c0 split s epoch g b Hs Hsorted Hg Hrest.
  destruct (@setup_first_tier _ _ _ _ Hs)
    as (hs & ws & ms & warned & Ht & Htiers & Hh & _ & Hprev & _).
  destruct (@tiers_of_milestones _ _ _ _ _ Ht) as (Hlen & rest & Hms).
  assert (Hmil : resolution_milestones (tiers s) = (-1)%Z :: rest)
    by (rewrite Htiers; exact Hms).
  rewrite Hmil in Hsorted, Hrest. cbn [tl] in Hrest.
  assert (Hind : Resolution.size_ind (resolution_milestones (tiers s)) g = 0%Z).
  { rewrite Hmil. unfold Resolution.size_ind.
    destruct (bisect_right_spec g Hsorted) as (Hle & Hlow & Hhigh).
    set (r := Bisect.bisect_right ((-1)%Z :: rest) g) in *.
    assert (Hr : r = 1%nat).
    { destruct r as [| [| r']]; [| reflexivity |].
      - specialize (Hhigh 0%nat (Nat.le_refl _) ltac:(simpl; lia)).
        simpl in Hhigh. lia.
      - specialize (Hlow 1%nat ltac:(lia)).
        assert (Hin : In (nth 1 ((-1)%Z :: rest) 0%Z) rest).
        { simpl. apply nth_In. simpl in Hle. lia. }
        specialize (Hrest _ Hin). lia. }
    rewrite Hr. reflexivity. }
  split; [exact Hind |].
  rewrite (@update_same_height w s epoch g b (height s)).
  - f_equal. apply with_height_same.
  - rewrite Hind, Htiers. exact Hh.
  - symmetry. exact Hprev.
Qed.

Lemma first_tier_steps_change_nothing_witness :
  exists s,
    Dataset.setup (sample_world_with two_frames)
      (sample_config (AList [64; 128]%Z) (AList [64; 128]%Z) [100%Z]
         false false) "train"%string = Ok s /\
    Dataset.update_step_ (sample_world_with two_frames) s 0 50 false = Ok s.
Proof.
  assert (Ht : Resolution.tiers_of
                 (sample_config (AList [64; 128]%Z) (AList [64; 128]%Z)
                    [100%Z] false false)
               = Ok ([64; 128]%Z, [64; 128]%Z, [-1; 100]%Z, []))
    by reflexivity.
  destruct (@sample_setup_runs _ _ _ _ _ _ _ Ht) as (s & Hs);
    [simpl; lia |].
  destruct (@setup_first_tier _ _ _ _ Hs)
    as (hs & ws & ms & warned & Ht' & Htiers & _).
  rewrite Ht in Ht'. injection Ht' as <- <- <- <-.
  exists s. split; [exact Hs |].
  refine (proj2 (@first_tier_steps_change_nothing _ _ _ s 0 50 false Hs _ _ _)).
  - rewrite Htiers. repeat constructor; lia.
  - lia.
  - rewrite Htiers. intros m [<- | []]. lia.
Defined.

(** ** Further properties of [set_rays] and [load_images] *)

(** X14.  A call of [set_rays] that returns writes the cached grid of the
    active tier only: the cached grids of all other tiers, the number of
    cached grids, the images, the height, the width and the focal length
    are as before, and exactly one call of [get_rays] is logged. *)
Theorem set_rays_touches_active_tier_only :
  forall (w : World) (s s' : State),
    Dataset.set_rays w s = Ok s' ->
    length (directions_unit_focals s') = length (directions_unit_focals s) /\
    (forall j, j <> directions_unit_focal s ->
       nth j (directions_unit_focals s') []
         = nth j (directions_unit_focals s) []) /\
    images s' = images s /\ tiers s' = tiers s /\
    height s' = height s /\ width s' = width s /\
    focal_length s' = focal_length s /\
    exists directions, log s' = log s ++ [GetRays directions].
Proof.
  intros w s s' H. destruct (@set_rays_inv _ _ _ H) as (r & ->). cbn.
  split; [apply store_length |].
  split; [intros j Hj; apply store_nth_other; congruence |].
  repeat split. eexists. reflexivity.
Qed.

Lemma set_rays_touches_active_tier_only_witness :
  exists s',
    Dataset.set_rays sample_world (sample_state 128 128 2) = Ok s' /\
    nth 1 (directions_unit_focals s') [] = [[mkVec3 1 1 (-1)]].
Proof.
  eexists.
  assert (Hrun : Dataset.set_rays sample_world (sample_state 128 128 2) = Ok _)
    by run_state.
  split; [exact Hrun |].
  exact (proj1 (proj2 (@set_rays_touches_active_tier_only _ _ _ Hrun))
           1%nat ltac:(discriminate)).
Defined.

(** X15.  [set_rays] returns exactly when the height is not 0; with a
    height of 0 the aspect ratio [width / height] raises
    [ZeroDivisionError]. *)
Theorem set_rays_returns_iff_height :
  forall (w : World) (s : State),
    ((exists s', Dataset.set_rays w s = Ok s') <-> height s <> 0%Z) /\
    (height s = 0%Z -> Dataset.set_rays w s = Err ZeroDivisionError).
Proof.
  intros w s. split; [split |].
  - intros (s' & H) H0. unfold Dataset.set_rays in H. cbv zeta in H.
    destruct (get_rays w _ _ _) as [ro rd]. unfold Dataset.int_div in H.
    rewrite H0 in H. discriminate H.
  - apply set_rays_runs.
  - intros H0. unfold Dataset.set_rays. cbv zeta.
    destruct (get_rays w _ _ _) as [ro rd]. unfold Dataset.int_div.
    rewrite H0. reflexivity.
Qed.

Lemma load_one_missing (w : World) (c : Config) (wd ht : Z)
    (acc : Dataset.Loaded) (p : String.string) :
  path_exists w p = false ->
  Dataset.load_one w c wd ht acc p = Err AssertionError.
Proof.
  intros H. unfold Dataset.load_one. rewrite H. reflexivity.
Qed.

Lemma load_loop_missing (w : World) (c : Config) (wd ht : Z)
    (paths : list String.string) (p : String.string) :
  In p paths -> path_exists w p = false ->
  forall acc, raises (Dataset.load_loop w c wd ht acc paths).
Proof.
  intros Hin Hp. induction paths as [| q paths IH]; [destruct Hin |].
  intros acc. simpl.
  destruct (Dataset.load_one w c wd ht acc q) as [acc1 | e1] eqn:Hone;
    cbn [bind].
  - destruct Hin as [-> | Hin].
    + rewrite load_one_missing in Hone by assumption. discriminate Hone.
    + apply IH. exact Hin.
  - exists e1. reflexivity.
Qed.

(** X16.  [load_images] fails with [ValueError] when there is no image
    path (nothing to stack) and with [AssertionError] when the first image
    path does not exist; when any image path does not exist it returns no
    object. *)
Theorem load_images_failures :
  forall (w : World) (s : State),
    (image_paths (cfg s) = [] ->
     Dataset.load_images w s = Err ValueError) /\
    (forall p rest,
       image_paths (cfg s) = p :: rest -> path_exists w p = false ->
       Dataset.load_images w s = Err AssertionError) /\
    (forall p, In p (image_paths (cfg s)) -> path_exists w p = false ->
     raises (Dataset.load_images w s)).
Proof.
  intros w s. split; [| split].
  - intros H. unfold Dataset.load_images. cbv zeta. rewrite H. reflexivity.
  - intros p rest Hpaths Hp. unfold Dataset.load_images. cbv zeta.
    rewrite Hpaths. cbn [Dataset.load_loop].
    rewrite load_one_missing by assumption. reflexivity.
  - intros p Hin Hp. unfold Dataset.load_images. cbv zeta.
    destruct (@load_loop_missing w (cfg s) (width s) (height s) _ p Hin Hp
                (Dataset.mkLoaded [] [] [] [] (depth (images s))
                   (normal (images s)))) as (e & He).
    rewrite He. exists e. reflexivity.
Qed.

Lemma load_loop_lengths (w : World) (c : Config) (wd ht : Z)
    (paths : list String.string) :
  forall acc acc',
    Dataset.load_loop w c wd ht acc paths = Ok acc' ->
    length (Dataset.rgbs acc')
      = (length (Dataset.rgbs acc) + length paths)%nat /\
    length (Dataset.masks acc')
      = (length (Dataset.masks acc) + length paths)%nat /\
    (requires_depth c = true ->
     length (Dataset.depths acc')
       = (length (Dataset.depths acc) + length paths)%nat) /\
    (requires_normal c = true ->
     length (Dataset.normals acc')
       = (length (Dataset.normals acc) + length paths)%nat).
Proof.
  induction paths as [| p paths IH]; intros acc acc' H; simpl in H.
  - injection H as <-. simpl length. rewrite !Nat.add_0_r.
    repeat split; intros; reflexivity.
  - destruct (Dataset.load_one w c wd ht acc p) as [acc1 |] eqn:Hone;
      [cbn [bind] in H | discriminate H].
    destruct (IH _ _ H) as (H1 & H2 & H3 & H4).
    unfold Dataset.load_one in Hone.
    destruct (py_assert (path_exists w p)); [| discriminate Hone].
    cbn [bind] in Hone.
    destruct (requires_depth c) eqn:Hd, (requires_normal c) eqn:Hn;
      repeat match type of Hone with
             | context [py_assert ?b] =>
                 destruct (py_assert b); [cbn [bind] in Hone | discriminate Hone]
             end;
      cbn [bind] in Hone; injection Hone as <-;
      cbn [Dataset.rgbs Dataset.masks Dataset.depths Dataset.normals] in *;
      rewrite ?length_app in *; simpl length in *;
      repeat split; intros; try discriminate;
      try (specialize (H3 eq_refl)); try (specialize (H4 eq_refl)); lia.
Qed.

Lemma stack_len (l : list Tensor) (t : Tensor) :
  Tensor.stack l = Ok t -> Tensor.len t = Ok (length l).
Proof.
  destruct l as [| t0 l]; simpl; intros H; [discriminate H |].
  injection H as <-. reflexivity.
Qed.

Lemma load_images_lengths :
  forall (w : World) (s s' : State),
    Dataset.load_images w s = Ok s' ->
    let n := length (image_paths (cfg s)) in
    (0 < n)%nat /\
    Tensor.len (rgb (images s')) = Ok n /\
    Tensor.len (mask (images s')) = Ok n /\
    (requires_depth (cfg s) = true ->
     exists d, depth (images s') = Some d /\ Tensor.len d = Ok n) /\
    (requires_normal (cfg s) = true ->
     exists m, normal (images s') = Some m /\ Tensor.len m = Ok n).
Proof.
  intros w s s' H n.
  pose proof (@load_images_paths_nonempty _ _ _ H) as Hne.
  assert (Hn : (0 < n)%nat).
  { unfold n. destruct (image_paths (cfg s)); [congruence | simpl; lia]. }
  split; [exact Hn |].
  unfold Dataset.load_images in H. cbv zeta in H.
  destruct (Dataset.load_loop w (cfg s) (width s) (height s) _ _)
    as [acc |] eqn:Hloop; [cbn [bind] in H | discriminate H].
  destruct (load_loop_lengths _ _ _ _ _ _ Hloop) as (L1 & L2 & L3 & L4).
  simpl length in L1, L2, L3, L4. fold n in L1, L2, L3, L4.
  destruct (Tensor.stack (Dataset.rgbs acc)) as [t1 |] eqn:S1;
    [cbn [bind] in H | discriminate H].
  destruct (Tensor.stack (Dataset.masks acc)) as [t2 |] eqn:S2;
    [cbn [bind] in H | discriminate H].
  apply stack_len in S1, S2. rewrite L1 in S1. rewrite L2 in S2.
  destruct (requires_depth (cfg s)) eqn:Hd.
  - destruct (Tensor.stack (Dataset.depths acc)) as [t3 |] eqn:S3;
      [cbn [bind] in H | discriminate H].
    apply stack_len in S3. rewrite (L3 eq_refl) in S3.
    destruct (requires_normal (cfg s)) eqn:Hnm.
    + destruct (Tensor.stack (Dataset.normals acc)) as [t4 |] eqn:S4;
        [cbn [bind] in H | discriminate H].
      apply stack_len in S4. rewrite (L4 eq_refl) in S4.
      injection H as <-. cbn.
      repeat split; try assumption; intros _; eexists; split;
        try reflexivity; assumption.
    + cbn [bind] in H. injection H as <-. cbn.
      repeat split; try assumption; try discriminate.
      intros _. eexists. split; [reflexivity | assumption].
  - cbn [bind] in H. destruct (requires_normal (cfg s)) eqn:Hnm.
    + destruct (Tensor.stack (Dataset.normals acc)) as [t4 |] eqn:S4;
        [cbn [bind] in H | discriminate H].
      apply stack_len in S4. rewrite (L4 eq_refl) in S4.
      injection H as <-. cbn.
      repeat split; try assumption; try discriminate.
      intros _. eexists. split; [reflexivity | assumption].
    + cbn [bind] in H. injection H as <-. cbn.
      repeat split; try assumption; discriminate.
Qed.

(** X17.  After [load_images] the image tensor and the mask tensor hold one
    entry per image path, and so do the depth and the normal tensor when
    they are required: [len(self.rgb)], the range of the index drawn by
    [collate], is the number of frames. *)
Theorem one_image_per_path :
  forall (w : World) (s s' : State),
    Dataset.load_images w s = Ok s' ->
    let n := length (image_paths (cfg s)) in
    (0 < n)%nat /\
    Tensor.len (rgb (images s')) = Ok n /\
    Tensor.len (mask (images s')) = Ok n /\
    (requires_depth (cfg s) = true ->
     exists d, depth (images s') = Some d /\ Tensor.len d = Ok n) /\
    (requires_normal (cfg s) = true ->
     exists m, normal (images s') = Some m /\ Tensor.len m = Ok n).
Proof.
  intros w s s' H. exact (@load_images_lengths w s s' H).
Qed.

Lemma one_image_per_path_witness :
  exists s',
    Dataset.load_images sample_world (sample_state_with true true 128 128 2)
      = Ok s' /\
    Tensor.len (rgb (images s')) = Ok 1%nat.
Proof.
  eexists.
  assert (Hrun : Dataset.load_images sample_world
                   (sample_state_with true true 128 128 2) = Ok _)
    by run_state.
  split; [exact Hrun |].
  exact (proj1 (proj2 (@one_image_per_path _ _ _ Hrun))).
Defined.

Lemma replace_fuel_absent (old new : String.string) (fuel : nat) :
  forall s, occurs old s = false -> PyStr.replace_fuel fuel old new s = s.
Proof.
  induction fuel as [| fuel IH]; intros s H; [reflexivity |].
  destruct s as [| ch rest]; [reflexivity |].
  cbn [occurs] in H. apply orb_false_iff in H. destruct H as [Hp Hrest].
  cbn [PyStr.replace_fuel]. rewrite Hp. rewrite IH by assumption.
  reflexivity.
Qed.

(** X18.  The depth and normal files are found by replacing [_rgba.png] in
    the image path.  For an image path that does not contain [_rgba.png]
    the replacement changes nothing: the depth path and the normal path are
    the image path itself, and the depth read for that frame is read from
    the image file. *)
Theorem path_without_suffix_is_its_own_depth_path :
  forall (w : World) (c : Config) (wd ht : Z) (acc : Dataset.Loaded)
         (path : String.string),
    occurs "_rgba.png"%string path = false ->
    PyStr.replace "_rgba.png"%string "_depth.png"%string path = path /\
    PyStr.replace "_rgba.png"%string "_normal.png"%string path = path /\
    (path_exists w path = true ->
     requires_depth c = true -> requires_normal c = false ->
     exists acc',
       Dataset.load_one w c wd ht acc path = Ok acc' /\
       Dataset.depths acc'
         = Dataset.depths acc ++ [read_plain w path wd ht]).
Proof.
  intros w c wd ht acc path H.
  assert (Hd : PyStr.replace "_rgba.png"%string "_depth.png"%string path = path)
    by (apply replace_fuel_absent; exact H).
  assert (Hn : PyStr.replace "_rgba.png"%string "_normal.png"%string path = path)
    by (apply replace_fuel_absent; exact H).
  split; [exact Hd |]. split; [exact Hn |].
  intros Hex Hrd Hrn. unfold Dataset.load_one.
  rewrite Hex, Hrd, Hrn, Hd, Hex. cbn [py_assert bind].
  eexists. split; reflexivity.
Qed.

Lemma path_without_suffix_is_its_own_depth_path_witness :
  PyStr.replace "_rgba.png"%string "_depth.png"%string "/d/a.png"%string = "/d/a.png"%string.
Proof.
  exact (proj1 (@path_without_suffix_is_its_own_depth_path sample_world
                  (sample_config (AnInt 64) (AnInt 64) [] true false)
                  64 64 (Dataset.mkLoaded [] [] [] [] None None)
                  "/d/a.png"%string eq_refl)).
Defined.

(** ** Further properties of [collate] *)

Lemma select_of_len (t : Tensor) (n : nat) :
  Tensor.len t = Ok n -> selectable t n.
Proof.
  unfold Tensor.len, selectable, Tensor.select. intros H idx Hidx.
  destruct (shape t) as [| b rest]; [discriminate H |].
  injection H as ->. apply Nat.ltb_lt in Hidx. rewrite Hidx.
  eexists. reflexivity.
Qed.

Lemma squeezed_row_selectable (l : list R) :
  selectable (Tensor.squeeze0 (Tensor.of_row l)) (length l).
Proof.
  apply select_of_len. reflexivity.
Qed.

Lemma squeezed_rows_selectable (rows : Rows) :
  selectable (Tensor.squeeze0 (Tensor.of_rows rows)) (length rows).
Proof.
  unfold selectable, Tensor.squeeze0, Tensor.of_rows. cbn [shape].
  intros idx Hidx. destruct (length rows) as [| [| k]] eqn:Hlen.
  - lia.
  - assert (idx = 0%nat) as -> by lia. unfold Tensor.select. cbn [shape data].
    eexists. reflexivity.
  - unfold Tensor.select. cbn [shape data].
    apply Nat.ltb_lt in Hidx. rewrite Hidx. eexists. reflexivity.
Qed.

Lemma read_frames_paths (w : World) (dir : String.string) (fs : list Frame) :
  forall c c',
    Loader.read_frames w dir c fs = Ok c' ->
    length (image_paths c) = length (default_camera_distances c) ->
    length (image_paths c') = length (default_camera_distances c').
Proof.
  induction fs as [| f fs IH]; intros c c' Hrun H1; simpl in Hrun.
  - injection Hrun as <-. exact H1.
  - destruct (Loader.read_frame w dir c f) as [c1 |] eqn:Hstep; [| discriminate].
    cbn [bind] in Hrun. apply (IH _ _ Hrun).
    unfold Loader.read_frame in Hstep. inv_bind Hstep.
    injection Hstep as <-. cbn. rewrite !length_app. simpl. lia.
Qed.

Lemma load_transform_paths (w : World) (c0 c : Config) :
  Loader.load_transform w c0 = Ok c ->
  length (image_paths c) = length (default_camera_distances c).
Proof.
  unfold Loader.load_transform. intros H. cbv zeta in H. inv_bind H.
  match goal with
  | Hr : Loader.read_frames _ _ _ _ = Ok ?c1 |- _ =>
      pose proof (@read_frames_paths _ _ _ _ _ Hr eq_refl) as H1
  end.
  unfold Loader.rescale in H. inv_bind H.
  injection H as <-. cbn. rewrite length_map. exact H1.
Qed.

(** The stages of [setup] that fill the pose and the image fields. *)
Lemma setup_stages (w : World) (c0 : Config) (split : String.string)
    (s : State) :
  Dataset.setup w c0 split = Ok s ->
  exists c p s1 s2,
    Loader.load_transform w c0 = Ok c /\
    Geometry.poses_of c = Ok p /\
    cfg s1 = c /\
    Dataset.load_images w s1 = Ok s2 /\
    cfg s = c /\ poses s = p /\ images s = images s2.
Proof.
  unfold Dataset.setup. intros H.
  destruct (Loader.load_transform w c0) as [c |] eqn:Hload;
    [cbn [bind] in H | discriminate H].
  destruct (Geometry.poses_of c) as [p |] eqn:Hposes;
    [cbn [bind] in H | discriminate H].
  destruct (Resolution.tiers_of c) as [[[[hs ws] ms] warned] |];
    [cbn [bind] in H | discriminate H].
  inv_bind H.
  match goal with
  | Hr : Dataset.set_rays _ _ = Ok ?s1,
    Hl : Dataset.load_images _ ?s1 = Ok ?s2 |- _ =>
      destruct (@set_rays_inv _ _ _ Hr) as (rdata & Hs1);
      destruct (@load_images_inv _ _ _ Hl) as (idata & Hs2 & _);
      exists c, p, s1, s2;
      split; [reflexivity |]; split; [exact Hposes |];
      split; [rewrite Hs1; reflexivity |];
      split; [exact Hl |]
  end.
  injection H as <-. subst. cbn. auto.
Qed.

Lemma poses_selectable (c : Config) (p : Poses) :
  length (default_elevation_degs c) = length (default_azimuth_degs c) ->
  length (default_azimuth_degs c) = length (default_camera_distances c) ->
  Geometry.poses_of c = Ok p ->
  let n := length (default_camera_distances c) in
  selectable (camera_positions p) n /\
  selectable (elevation_degs p) n /\
  selectable (azimuth_degs p) n /\
  selectable (camera_distances p) n.
Proof.
  intros H1 H2 Hp n.
  destruct (@poses_of_inv _ _ Hp) as (positions & first & m & Hpos & _ & _ & ->).
  rewrite (camera_positions_triples _ _ _ H1 H2) in Hpos.
  injection Hpos as <-.
  cbn [camera_positions elevation_degs azimuth_degs camera_distances].
  split; [| split; [| split]].
  - replace n with
      (length (map (fun t : R * R * R =>
                      mkVec3 (fst (fst t)) (snd (fst t)) (snd t))
                 (coordinate_triples (default_elevation_degs c)
                    (default_azimuth_degs c) (default_camera_distances c)))).
    + apply squeezed_rows_selectable.
    + rewrite length_map. apply coordinate_triples_length; assumption.
  - unfold n. rewrite <- H2, <- H1. apply squeezed_row_selectable.
  - unfold n. rewrite <- H2. apply squeezed_row_selectable.
  - apply squeezed_row_selectable.
Qed.

Lemma update_images (w : World) (s s' : State) (epoch g : Z) (b : bool) :
  Dataset.update_step_ w s epoch g b = Ok s' ->
  images s' = images s \/
  exists s4, cfg s4 = cfg s /\ Dataset.load_images w s4 = Ok s'.
Proof.
  unfold Dataset.update_step_, Dataset.select_tier. cbv zeta. intros H.
  destruct (PyList.getitem (heights (tiers s)) _) as [h |];
    [cbn [bind] in H | discriminate H].
  change (prev_height (with_height s h)) with (prev_height s) in H.
  destruct (Z.eqb_spec h (prev_height s)) as [Heq | Hne].
  - injection H as <-. left. reflexivity.
  - inv_bind H. right.
    match goal with
    | Hr : Dataset.set_rays _ _ = Ok ?s1 |- _ =>
        destruct (@set_rays_inv _ _ _ Hr) as (rdata & Hs1);
        exists s1; split; [rewrite Hs1; reflexivity | exact H]
    end.
Qed.

Lemma load_images_ready (w : World) (s s' : State) :
  Dataset.load_images w s = Ok s' ->
  let n := length (image_paths (cfg s)) in
  (0 < n)%nat /\
  Tensor.len (rgb (images s')) = Ok n /\
  selectable (rgb (images s')) n /\
  selectable (mask (images s')) n.
Proof.
  intros H n.
  destruct (@load_images_lengths _ _ _ H) as (Hn & Hr & Hm & _).
  fold n in Hr, Hm.
  repeat split; try assumption; apply select_of_len; assumption.
Qed.

(** X19.  The index that [collate] draws below [len(self.rgb)] is in range
    of every per-frame tensor the object made itself (image, mask, camera
    position, elevation, azimuth, distance): this holds after [setup] and
    is kept by every call of the hook.  On such an object [collate] returns
    a batch as soon as the three tensors made by [get_rays] and
    [get_mvp_matrix] have an entry at the index and the depth test passes;
    the batch carries the configured [height] and [width], whatever tier is
    active. *)
Theorem collate_index_in_range :
  (forall w c0 split s, Dataset.setup w c0 split = Ok s -> batch_ready s) /\
  (forall w s epoch g b s',
     batch_ready s -> Dataset.update_step_ w s epoch g b = Ok s' ->
     batch_ready s') /\
  (forall s n idx ro rd mvp rdepth rnormal,
     batch_ready s ->
     Tensor.len (rgb (images s)) = Ok n -> (idx < n)%nat ->
     Tensor.select (rays_o (rays s)) idx = Ok ro ->
     Tensor.select (rays_d (rays s)) idx = Ok rd ->
     Tensor.select (mvp_mtx (rays s)) idx = Ok mvp ->
     Collate.gated (depth (images s)) (depth (images s)) idx = Ok rdepth ->
     Collate.gated (depth (images s)) (normal (images s)) idx = Ok rnormal ->
     exists b,
       Collate.collate s idx = Ok b /\
       batch_rays_o b = ro /\ batch_rays_d b = rd /\ batch_mvp_mtx b = mvp /\
       ref_depth b = rdepth /\ ref_normal b = rnormal /\
       batch_light_positions b = light_position (poses s) /\
       batch_height b = cfg_height (cfg s) /\
       batch_width b = cfg_width (cfg s)).
Proof.
  split; [| split].
  - intros w c0 split s Hs.
    destruct (@setup_stages _ _ _ _ Hs)
      as (c & p & s1 & s2 & Hload & Hposes & Hc1 & Himg & Hc & Hp & Hi).
    destruct (@load_transform_lengths _ _ _ Hload) as (L1 & L2).
    pose proof (@load_transform_paths _ _ _ Hload) as L3.
    destruct (@poses_selectable _ _ L1 L2 Hposes) as (P1 & P2 & P3 & P4).
    destruct (@load_images_ready _ _ _ Himg) as (I1 & I2 & I3 & I4).
    rewrite Hc1 in I1, I2, I3, I4.
    unfold batch_ready. rewrite Hc, Hp, Hi. rewrite L3.
    rewrite L3 in I1, I2, I3, I4.
    repeat split; assumption.
  - intros w s epoch g b s' Hr Hrun.
    destruct (@update_frame _ _ _ _ _ _ Hrun) as (Hc & Hp & _).
    unfold batch_ready in *. rewrite Hc, Hp.
    destruct Hr as (R1 & R2 & R3 & R4 & R5 & R6 & R7 & R8).
    destruct (@update_images _ _ _ _ _ _ Hrun) as [Hi | (s4 & Hc4 & Hl)].
    + rewrite Hi. repeat split; assumption.
    + destruct (@load_images_ready _ _ _ Hl) as (I1 & I2 & I3 & I4).
      rewrite Hc4 in I1, I2, I3, I4. repeat split; assumption.
  - intros s n idx ro rd mvp rdepth rnormal Hr Hlen Hidx Hro Hrd Hmvp Hd Hn.
    destruct Hr as (_ & R2 & R3 & R4 & R5 & R6 & R7 & R8).
    rewrite Hlen in R2. injection R2 as ->.
    destruct (R3 idx Hidx) as (im & Him).
    destruct (R4 idx Hidx) as (mk & Hmk).
    destruct (R5 idx Hidx) as (cp & Hcp).
    destruct (R6 idx Hidx) as (el & Hel).
    destruct (R7 idx Hidx) as (az & Haz).
    destruct (R8 idx Hidx) as (cd & Hcd).
    unfold Collate.collate. rewrite Hlen. cbn [bind].
    apply Nat.ltb_lt in Hidx. rewrite Hidx. cbn [bind].
    rewrite Hro, Hrd, Hmvp, Hcp, Hel, Haz, Hcd, Him, Hd, Hn, Hmk.
    cbn [bind]. eexists. split; [reflexivity |]. cbn. repeat split.
Qed.

Lemma truth_inv (d : Tensor) (t : bool) :
  Tensor.truth d = Ok t ->
  Tensor.numel d = 1%nat /\
  exists v rest, data d = v :: rest /\ (t = false <-> v = 0).
Proof.
  unfold Tensor.truth. intros H.
  destruct (Tensor.numel d) as [| [| k]]; try discriminate H.
  destruct (data d) as [| v rest]; [discriminate H |].
  split; [reflexivity |]. exists v, rest. split; [reflexivity |].
  destruct (Req_dec_T v 0) as [Hv | Hv]; injection H as <-.
  - tauto.
  - split; [discriminate | contradiction].
Qed.

Lemma gated_inv (d : Tensor) (field : option Tensor) (idx : nat)
    (r : option Tensor) :
  Collate.gated (Some d) field idx = Ok r ->
  Tensor.numel d = 1%nat /\
  exists v rest,
    data d = v :: rest /\
    (v = 0 -> r = None) /\
    (v <> 0 -> exists t, r = Some t /\ py_subscript field idx = Ok t).
Proof.
  unfold Collate.gated, py_not. intros H.
  destruct (Tensor.truth d) as [t |] eqn:Ht; [cbn [bind] in H | discriminate H].
  destruct (truth_inv _ Ht) as (Hnum & v & rest & Hdata & Hv).
  split; [exact Hnum |]. exists v, rest. split; [exact Hdata |].
  destruct t; cbn [negb] in H.
  - destruct (py_subscript field idx) as [x |] eqn:Hx;
      [cbn [bind] in H | discriminate H].
    injection H as <-. split.
    + intros Hz. apply Hv in Hz. discriminate Hz.
    + intros _. exists x. split; reflexivity.
  - injection H as <-. split; [reflexivity |].
    intros Hnz. exfalso. apply Hnz. apply Hv. reflexivity.
Qed.

Lemma numel_of_len (d : Tensor) (n : nat) :
  Tensor.len d = Ok n -> Tensor.numel d = 1%nat -> n = 1%nat.
Proof.
  unfold Tensor.len, Tensor.numel. destruct (shape d) as [| b rest];
    [discriminate |].
  intros H. injection H as ->. cbn [fold_right]. intros Hm.
  apply Nat.eq_mul_1 in Hm. tauto.
Qed.

(** X20.  With [requires_depth] the test [not self.depth] is taken on the
    stacked depth tensor.  [collate] therefore returns a batch only when
    that tensor holds exactly one value, which needs a single frame; the
    value then decides: when it is 0 both reference entries are [None],
    otherwise [ref_depth] is the entry of the depth tensor at the index and
    [ref_normal] the entry of the normal field, which has to be a tensor. *)
Theorem collate_returns_on_single_depth_value :
  forall (w : World) (s0 s : State) (idx : nat) (b : Batch),
    Dataset.load_images w s0 = Ok s ->
    requires_depth (cfg s0) = true ->
    Collate.collate s idx = Ok b ->
    length (image_paths (cfg s0)) = 1%nat /\
    exists d v rest,
      depth (images s) = Some d /\
      Tensor.numel d = 1%nat /\ data d = v :: rest /\
      (v = 0 -> ref_depth b = None /\ ref_normal b = None) /\
      (v <> 0 ->
       exists t tn,
         ref_depth b = Some t /\ Tensor.select d idx = Ok t /\
         ref_normal b = Some tn /\
         py_subscript (normal (images s)) idx = Ok tn).
Proof.
  intros w s0 s idx b Hload Hrd Hc.
  destruct (@load_images_lengths _ _ _ Hload) as (_ & _ & _ & Hd & _).
  destruct (Hd Hrd) as (d & Hsome & Hlen).
  destruct (@collate_inv _ _ _ Hc) as (Gd & Gn). rewrite Hsome in Gd, Gn.
  destruct (gated_inv _ _ _ Gd) as (Hnum & v & rest & Hdata & Hz & Hnz).
  destruct (gated_inv _ _ _ Gn) as (_ & v' & rest' & Hdata' & Hz' & Hnz').
  rewrite Hdata in Hdata'. injection Hdata' as <- <-.
  split; [exact (numel_of_len _ Hlen Hnum) |].
  exists d, v, rest.
  split; [exact Hsome |]. split; [exact Hnum |]. split; [exact Hdata |].
  split.
  - intros Hv. split; [exact (Hz Hv) | exact (Hz' Hv)].
  - intros Hv. destruct (Hnz Hv) as (t & Ht & Hsel).
    destruct (Hnz' Hv) as (tn & Htn & Hseln).
    exists t, tn. repeat split; assumption.
Qed.

Lemma collate_returns_on_single_depth_value_witness :
  exists s b t,
    Dataset.load_images (one_value_world sample_frames (1 / 2))
      (sample_state_with true true 128 128 2) = Ok s /\
    Collate.collate s 0 = Ok b /\
    ref_depth b = Some t.
Proof.
  assert (Hrun : exists s,
            Dataset.load_images (one_value_world sample_frames (1 / 2))
              (sample_state_with true true 128 128 2) = Ok s /\
            exists b, Collate.collate s 0 = Ok b).
  { eexists. split; [run_state |].
    unfold Collate.collate, Collate.gated, py_not, Tensor.truth.
    cbn -[Req_dec_T Rdiv IZR].
    destruct (Req_dec_T (1 / 2) 0) as [Hv | Hv]; [exfalso; lra |].
    cbn. eexists. reflexivity. }
  destruct Hrun as (s & Hload & b & Hc).
  destruct (@collate_returns_on_single_depth_value _ _ _ _ _ Hload eq_refl Hc)
    as (_ & d & v & rest & Hsome & _ & Hdata & _ & Hnz).
  assert (Hv : v <> 0).
  { cbv -[Rdiv IZR Ropp] in Hload. injection Hload as <-.
    cbn in Hsome. injection Hsome as <-. cbn in Hdata.
    injection Hdata as <- _. lra. }
  destruct (Hnz Hv) as (t & tn & Ht & _).
  exists s, b, t. repeat split; assumption.
Defined.

Lemma load_one_normal_none (w : World) (c : Config) (wd ht : Z)
    (acc acc' : Dataset.Loaded) (p : String.string) :
  requires_normal c = false ->
  Dataset.load_one w c wd ht acc p = Ok acc' ->
  Dataset.l_normal acc' = None.
Proof.
  intros Hrn H. unfold Dataset.load_one in H. rewrite Hrn in H.
  destruct (py_assert (path_exists w p)); [cbn [bind] in H | discriminate H].
  destruct (requires_depth c).
  - destruct (py_assert _); [cbn [bind] in H | discriminate H].
    injection H as <-. reflexivity.
  - cbn [bind] in H. injection H as <-. reflexivity.
Qed.

Lemma load_loop_normal_none (w : World) (c : Config) (wd ht : Z)
    (paths : list String.string) :
  requires_normal c = false ->
  forall acc acc',
    (paths <> [] \/ Dataset.l_normal acc = None) ->
    Dataset.load_loop w c wd ht acc paths = Ok acc' ->
    Dataset.l_normal acc' = None.
Proof.
  intros Hrn. induction paths as [| p paths IH]; intros acc acc' Hor H;
    simpl in H.
  - injection H as <-. destruct Hor as [Hne | Hn]; [congruence | exact Hn].
  - destruct (Dataset.load_one w c wd ht acc p) as [acc1 |] eqn:Hone;
      [cbn [bind] in H | discriminate H].
    apply (IH acc1 acc'); [| exact H].
    right. exact (@load_one_normal_none _ _ _ _ _ _ _ Hrn Hone).
Qed.

Lemma load_images_normal_none (w : World) (s s' : State) :
  requires_normal (cfg s) = false ->
  Dataset.load_images w s = Ok s' ->
  normal (images s') = None.
Proof.
  intros Hrn H.
  pose proof (@load_images_paths_nonempty _ _ _ H) as Hne.
  unfold Dataset.load_images in H. cbv zeta in H. rewrite Hrn in H.
  destruct (Dataset.load_loop w (cfg s) (width s) (height s) _ _)
    as [acc |] eqn:Hloop; [cbn [bind] in H | discriminate H].
  pose proof (@load_loop_normal_none _ _ _ _ _ Hrn _ _ (or_introl Hne) Hloop) as Hn.
  inv_bind H. injection H as <-. cbn. exact Hn.
Qed.

(** X21.  With [requires_depth] set and [requires_normal] not set, the
    normal field is [None] after [load_images], and [collate] reads
    [self.normal[idx]] whenever the depth test lets the depth through.  So
    no batch ever carries a reference depth: a batch that [collate] returns
    has [ref_depth] and [ref_normal] both [None] (the single depth value is
    0), and with a depth value other than 0 [collate] returns no batch. *)
Theorem depth_without_normal_never_reaches_batch :
  forall (w : World) (s0 s : State) (idx : nat),
    Dataset.load_images w s0 = Ok s ->
    requires_depth (cfg s0) = true ->
    requires_normal (cfg s0) = false ->
    (forall b, Collate.collate s idx = Ok b ->
               ref_depth b = None /\ ref_normal b = None) /\
    (forall d v rest,
       depth (images s) = Some d -> data d = v :: rest -> v <> 0 ->
       raises (Collate.collate s idx)).
Proof.
  intros w s0 s idx Hload Hrd Hrn.
  pose proof (@load_images_normal_none _ _ _ Hrn Hload) as Hnone.
  assert (Hb : forall b, Collate.collate s idx = Ok b ->
                 exists d v rest,
                   depth (images s) = Some d /\ data d = v :: rest /\ v = 0 /\
                   ref_depth b = None /\ ref_normal b = None).
  { intros b Hc.
    destruct (@load_images_lengths _ _ _ Hload) as (_ & _ & _ & Hd & _).
    destruct (Hd Hrd) as (d & Hsome & _).
    destruct (@collate_inv _ _ _ Hc) as (Gd & Gn). rewrite Hsome in Gd, Gn.
    destruct (gated_inv _ _ _ Gd) as (_ & v & rest & Hdata & Hz & _).
    destruct (gated_inv _ _ _ Gn) as (_ & v' & rest' & Hdata' & Hz' & Hnz').
    rewrite Hdata in Hdata'. injection Hdata' as <- <-.
    exists d, v, rest. split; [exact Hsome |]. split; [exact Hdata |].
    destruct (Req_dec_T v 0) as [Hv | Hv].
    - auto.
    - destruct (Hnz' Hv) as (tn & _ & Hsel). rewrite Hnone in Hsel.
      discriminate Hsel. }
  split.
  - intros b Hc. destruct (Hb b Hc) as (_ & _ & _ & _ & _ & _ & H1 & H2).
    auto.
  - intros d v rest Hsome Hdata Hv.
    destruct (Collate.collate s idx) as [b | e] eqn:Hc.
    + destruct (Hb b eq_refl) as (d' & v' & rest' & Hs' & Hd' & Hz & _).
      rewrite Hsome in Hs'. injection Hs' as <-.
      rewrite Hdata in Hd'. injection Hd' as <- <-. contradiction.
    + exists e. reflexivity.
Qed.

Lemma depth_without_normal_never_reaches_batch_witness :
  exists s,
    Dataset.load_images (one_value_world sample_frames (1 / 2))
      (sample_state_with true false 128 128 2) = Ok s /\
    raises (Collate.collate s 0).
Proof.
  eexists. split; [run_state |].
  refine (proj2 (@depth_without_normal_never_reaches_batch
                   (one_value_world sample_frames (1 / 2))
                   (sample_state_with true false 128 128 2) _ 0%nat
                   ltac:(run_state) eq_refl eq_refl)
            _ (1 / 2) [] eq_refl eq_refl _).
  lra.
Defined.

(** ** The data module *)

Lemma with_cfg_same (s : State) : with_cfg s (cfg s) = s.
Proof. destruct s. reflexivity. Qed.

Lemma set_rays_split (w : World) (s : State) (sp : String.string) :
  Dataset.set_rays w (with_split s sp)
    = (s' <- Dataset.set_rays w s ;; Ok (with_split s' sp)).
Proof.
  unfold Dataset.set_rays.
  cbn [with_split directions_unit_focal directions_unit_focals focal_length
       poses cfg width height].
  destruct (get_rays w _ _ _) as [ro rd].
  destruct (Dataset.int_div (width s) (height s)); reflexivity.
Qed.

Lemma load_images_split (w : World) (s : State) (sp : String.string) :
  Dataset.load_images w (with_split s sp)
    = (s' <- Dataset.load_images w s ;; Ok (with_split s' sp)).
Proof.
  unfold Dataset.load_images. cbv zeta.
  cbn [with_split cfg width height images].
  destruct (Dataset.load_loop w (cfg s) (width s) (height s) _ _) as [acc |];
    [cbn [bind] | reflexivity].
  destruct (Tensor.stack (Dataset.rgbs acc)); [cbn [bind] | reflexivity].
  destruct (Tensor.stack (Dataset.masks acc)); [cbn [bind] | reflexivity].
  destruct (requires_depth (cfg s)), (requires_normal (cfg s));
    repeat match goal with
           | |- context [Tensor.stack ?l] =>
               destruct (Tensor.stack l); cbn [bind]
           end;
    reflexivity.
Qed.

(** The split name is stored and used by nothing that [setup] computes. *)
Lemma setup_split (w : World) (c0 : Config) (sp sp' : String.string) :
  Dataset.setup w c0 sp'
    = (s <- Dataset.setup w c0 sp ;; Ok (with_split s sp')).
Proof.
  unfold Dataset.setup.
  destruct (Loader.load_transform w c0) as [c |]; [cbn [bind] | reflexivity].
  destruct (Geometry.poses_of c) as [p |]; [cbn [bind] | reflexivity].
  destruct (Resolution.tiers_of c) as [[[[hs ws] ms] warned] |];
    [cbn [bind] | reflexivity].
  destruct (PyList.getitem hs 0) as [h0 |]; [cbn [bind] | reflexivity].
  destruct (PyList.getitem ws 0) as [w0 |]; [cbn [bind] | reflexivity].
  destruct (PyList.getitem (map _ (combine hs ws)) 0) as [g0 |];
    [cbn [bind] | reflexivity].
  destruct (PyList.getitem (map _ hs) 0) as [fl0 |];
    [cbn [bind] | reflexivity].
  match goal with
  | |- context [Dataset.set_rays w ?s0] =>
      match s0 with
      | context [sp] =>
          change (bind (Dataset.set_rays w (with_split s0 sp'))
                    (fun s1 => bind (Dataset.load_images w s1)
                       (fun s2 => Ok (with_prev_height s2 (height s2))))
                  = bind (bind (Dataset.set_rays w s0)
                            (fun s1 => bind (Dataset.load_images w s1)
                               (fun s2 => Ok (with_prev_height s2 (height s2)))))
                      (fun s => Ok (with_split s sp')));
          rewrite set_rays_split;
          destruct (Dataset.set_rays w s0) as [s1 |];
            [cbn [bind] | reflexivity]
      end
  end.
  rewrite load_images_split.
  destruct (Dataset.load_images w s1) as [s2 |]; [cbn [bind] | reflexivity].
  reflexivity.
Qed.

(** [setup] on the configuration a first [setup] left behind. *)
Lemma setup_reloaded (w : World) (c0 c : Config) (sp : String.string) :
  Loader.load_transform w c0 = Ok c ->
  Dataset.setup w c sp = Dataset.setup w c0 sp.
Proof.
  intros H. unfold Dataset.setup.
  rewrite (@load_transform_again _ _ _ H), H. reflexivity.
Qed.

Lemma setup_again (w : World) (c0 : Config) (sp sp' : String.string)
    (s : State) :
  Dataset.setup w c0 sp = Ok s ->
  Dataset.setup w (cfg s) sp' = Ok (with_split s sp').
Proof.
  intros H.
  destruct (@setup_stages _ _ _ _ H)
    as (c & p & s1 & s2 & Hload & Hp & Hc1 & Hl & Hc & Hps & Hi).
  rewrite Hc. rewrite (@setup_reloaded _ _ _ sp' Hload).
  rewrite (setup_split w c0 sp sp'), H. reflexivity.
Qed.

(** What [get_rays] returns is used for the ray tensors and for nothing
    else. *)
Lemma read_frames_world (w w' : World) (dir : String.string)
    (fs : list Frame) :
  path_join w = path_join w' ->
  forall c, Loader.read_frames w dir c fs = Loader.read_frames w' dir c fs.
Proof.
  intros Hj. induction fs as [| f fs IH]; intros c; [reflexivity |].
  cbn [Loader.read_frames].
  assert (Hf : Loader.read_frame w dir c f = Loader.read_frame w' dir c f)
    by (unfold Loader.read_frame; rewrite Hj; reflexivity).
  rewrite Hf.
  destruct (Loader.read_frame w' dir c f) as [c1 |];
    [cbn [bind]; apply IH | reflexivity].
Qed.

Lemma load_transform_world (w w' : World) (c : Config) :
  same_files w w' ->
  Loader.load_transform w c = Loader.load_transform w' c.
Proof.
  intros (Hm & Hj & Hd & Hl & _).
  unfold Loader.load_transform, Loader.resolve. cbv zeta.
  rewrite Hm, Hj, Hd, Hl.
  destruct (json_load w' _) as [meta |]; [cbn [bind] | reflexivity].
  destruct (getkey (frames meta)) as [fs |]; [cbn [bind] | reflexivity].
  rewrite (@read_frames_world w w' _ fs Hj). reflexivity.
Qed.

Lemma load_loop_world (w w' : World) (c : Config) (wd ht : Z)
    (paths : list String.string) :
  same_files w w' ->
  forall acc,
    Dataset.load_loop w c wd ht acc paths
      = Dataset.load_loop w' c wd ht acc paths.
Proof.
  intros (_ & _ & _ & _ & He & Hr & Hk & Hp & _).
  induction paths as [| p paths IH]; intros acc; [reflexivity |].
  cbn [Dataset.load_loop].
  assert (Hone : Dataset.load_one w c wd ht acc p
                 = Dataset.load_one w' c wd ht acc p)
    by (unfold Dataset.load_one; rewrite He, Hr, Hk, Hp; reflexivity).
  rewrite Hone.
  destruct (Dataset.load_one w' c wd ht acc p) as [acc1 |];
    [cbn [bind]; apply IH | reflexivity].
Qed.

Lemma load_images_world (w w' : World) (s : State) :
  same_files w w' ->
  Dataset.load_images w s = Dataset.load_images w' s.
Proof.
  intros H. unfold Dataset.load_images. cbv zeta.
  rewrite (@load_loop_world w w' _ _ _ _ H). reflexivity.
Qed.

Lemma load_images_ray_data (w : World) (s : State) (r : RayData) :
  Dataset.load_images w (with_ray_data s r)
    = (s' <- Dataset.load_images w s ;; Ok (with_ray_data s' r)).
Proof.
  unfold Dataset.load_images. cbv zeta.
  cbn [with_ray_data with_rays cfg width height images].
  destruct (Dataset.load_loop w (cfg s) (width s) (height s) _ _) as [acc |];
    [cbn [bind] | reflexivity].
  destruct (Tensor.stack (Dataset.rgbs acc)); [cbn [bind] | reflexivity].
  destruct (Tensor.stack (Dataset.masks acc)); [cbn [bind] | reflexivity].
  destruct (requires_depth (cfg s)), (requires_normal (cfg s));
    repeat match goal with
           | |- context [Tensor.stack ?l] =>
               destruct (Tensor.stack l); cbn [bind]
           end;
    reflexivity.
Qed.

Lemma set_rays_world (w w' : World) (s s1 : State) :
  same_files w w' ->
  Dataset.set_rays w s = Ok s1 ->
  exists r,
    Dataset.set_rays w' s = Ok (with_ray_data s1 r) /\
    mvp_mtx r = mvp_mtx (rays s1).
Proof.
  intros (_ & _ & _ & _ & _ & _ & _ & _ & _ & Hproj & Hmvp) H.
  pose proof (@set_rays_state _ _ _ H) as Hs1. cbv zeta in Hs1.
  unfold Dataset.set_rays in H |- *. cbv zeta in H |- *.
  destruct (get_rays w _ _ _) as [ro rd].
  destruct (get_rays w' _ _ _) as [ro' rd'].
  destruct (Dataset.int_div (width s) (height s)) as [aspect |] eqn:Ha;
    [cbn [bind] in H |- * | discriminate H].
  injection H as H. rewrite <- Hproj, <- Hmvp.
  eexists. split.
  - rewrite <- H. reflexivity.
  - rewrite <- H. reflexivity.
Qed.

(** The dataset built in a world with the same files is the same object
    but for the two ray tensors that [get_rays] returns. *)
Lemma setup_world (w w' : World) (c0 : Config) (sp : String.string)
    (s : State) :
  same_files w w' ->
  Dataset.setup w c0 sp = Ok s ->
  exists r,
    Dataset.setup w' c0 sp = Ok (with_ray_data s r) /\
    mvp_mtx r = mvp_mtx (rays s).
Proof.
  intros Hsame H. unfold Dataset.setup in H |- *.
  rewrite <- (@load_transform_world w w' c0 Hsame).
  destruct (Loader.load_transform w c0) as [c |];
    [cbn [bind] in H |- * | discriminate H].
  destruct (Geometry.poses_of c) as [p |];
    [cbn [bind] in H |- * | discriminate H].
  destruct (Resolution.tiers_of c) as [[[[hs ws] ms] warned] |];
    [cbn [bind] in H |- * | discriminate H].
  assert (Hgrd : get_ray_directions w = get_ray_directions w') by apply Hsame.
  rewrite <- Hgrd.
  destruct (PyList.getitem hs 0) as [h0 |];
    [cbn [bind] in H |- * | discriminate H].
  destruct (PyList.getitem ws 0) as [w0 |];
    [cbn [bind] in H |- * | discriminate H].
  destruct (PyList.getitem (map _ (combine hs ws)) 0) as [g0 |];
    [cbn [bind] in H |- * | discriminate H].
  destruct (PyList.getitem (map _ hs) 0) as [fl0 |];
    [cbn [bind] in H |- * | discriminate H].
  destruct (Dataset.set_rays w _) as [s1 |] eqn:Hs1;
    [cbn [bind] in H | discriminate H].
  destruct (@set_rays_world w w' _ _ Hsame Hs1) as (r & Hs1' & Hmvp).
  rewrite Hs1'. cbn [bind].
  rewrite <- (@load_images_world w w' _ Hsame), load_images_ray_data.
  destruct (Dataset.load_images w s1) as [s2 |] eqn:Hs2;
    [cbn [bind] in H |- * | discriminate H].
  injection H as <-. exists r. split; [reflexivity |].
  destruct (@load_images_inv _ _ _ Hs2) as (idata & -> & _).
  cbn. exact Hmvp.
Qed.

Lemma with_split_cfg (s : State) (r : RayData) (sp : String.string) :
  with_cfg (with_split (with_ray_data s r) sp) (cfg s)
    = with_split (with_ray_data s r) sp.
Proof. destruct s. reflexivity. Qed.

(** X22.  The data module hands one configuration object to every dataset
    it builds, and each [setup] rewrites the frame lists of that object.
    With no stage given and the files unchanged in between, once the
    training dataset has been set up the validation and the test dataset
    are set up without failure on the rewritten configuration.  In the
    fields kept here each of them is the training dataset under another
    split name and with ray tensors of its own, [get_rays] being called
    again for each: same configuration, poses, tiers, cached grids, images
    and projection. *)
Theorem datamodule_builds_three_copies :
  forall (w : String.string -> World) (dm : DataModule) (s : State),
    same_files (w "train"%string) (w "val"%string) ->
    same_files (w "train"%string) (w "test"%string) ->
    Dataset.setup (w "train"%string) (dm_cfg dm) "train"%string = Ok s ->
    exists rv rt,
      DataModule.setup w dm None
        = Ok (mkDataModule (cfg s) (Some s)
                (Some (with_split (with_ray_data s rv) "val"%string))
                (Some (with_split (with_ray_data s rt) "test"%string))) /\
      mvp_mtx rv = mvp_mtx (rays s) /\
      mvp_mtx rt = mvp_mtx (rays s).
Proof.
  intros w dm s Hval Htest H.
  pose proof (@setup_again _ _ _ "val"%string _ H) as Hv.
  pose proof (@setup_again _ _ _ "test"%string _ H) as Ht.
  destruct (@setup_world _ _ _ _ _ Hval Hv) as (rv & Hv' & Hmv).
  destruct (@setup_world _ _ _ _ _ Htest Ht) as (rt & Ht' & Hmt).
  exists rv, rt. split; [| split; assumption].
  unfold DataModule.setup, DataModule.build. cbn [DataModule.stage_in].
  rewrite H. cbn [bind dm_cfg DataModule.rebind].
  rewrite Hv'.
  cbn [bind dm_cfg DataModule.rebind cfg with_split with_ray_data with_rays
       train_dataset val_dataset test_dataset option_map].
  rewrite Ht'.
  cbn [bind dm_cfg DataModule.rebind train_dataset val_dataset test_dataset
       option_map].
  change (cfg (with_ray_data (with_split s "test"%string) rt)) with (cfg s).
  change (cfg (with_ray_data (with_split s "val"%string) rv)) with (cfg s).
  rewrite with_cfg_same.
  change (with_ray_data (with_split s "val"%string) rv)
    with (with_split (with_ray_data s rv) "val"%string).
  change (with_ray_data (with_split s "test"%string) rt)
    with (with_split (with_ray_data s rt) "test"%string).
  rewrite ?with_split_cfg, ?with_cfg_same. reflexivity.
Qed.

Lemma datamodule_builds_three_copies_witness :
  exists s rv rt,
    DataModule.setup
      (fun sp =>
         if String.eqb sp "train"%string then sample_world_with two_frames
         else with_get_rays (sample_world_with two_frames)
                (fun _ _ _ => (mkTensor [1%nat] [1], mkTensor [1%nat] [1])))
      (mkDataModule (sample_config (AnInt 64) (AnInt 64) [] false false)
         None None None) None
      = Ok (mkDataModule (cfg s) (Some s)
              (Some (with_split (with_ray_data s rv) "val"%string))
              (Some (with_split (with_ray_data s rt) "test"%string))).
Proof.
  assert (Ht : Resolution.tiers_of
                 (sample_config (AnInt 64) (AnInt 64) [] false false)
               = Ok ([64]%Z, [64]%Z, [-1]%Z, []))
    by reflexivity.
  destruct (@sample_setup_runs _ _ _ _ _ _ _ Ht) as (s & Hs);
    [simpl; lia |].
  assert (Hsame : same_files (sample_world_with two_frames)
                    (with_get_rays (sample_world_with two_frames)
                       (fun _ _ _ =>
                          (mkTensor [1%nat] [1], mkTensor [1%nat] [1]))))
    by (repeat split).
  destruct (@datamodule_builds_three_copies
              (fun sp =>
                 if String.eqb sp "train"%string
                 then sample_world_with two_frames
                 else with_get_rays (sample_world_with two_frames)
                        (fun _ _ _ =>
                           (mkTensor [1%nat] [1], mkTensor [1%nat] [1])))
              (mkDataModule
                 (sample_config (AnInt 64) (AnInt 64) [] false false)
                 None None None) s Hsame Hsame Hs)
    as (rv & rt & Hrun & _).
  exists s, rv, rt. exact Hrun.
Defined.
